(** * TrueTrend: aggregation, scoring, lifecycle and archive core

    A shallow embedding of the Python services of the TrueTrend backend

      - [app/services/real_score.py]               (module [RealScore])
      - [app/services/fetchers/fetcher_manager.py] (module [FetcherManager])
      - [app/routers/trends.py], lifecycle route   (module [Lifecycle])
      - [app/services/github_archive.py]           (module [Archive])

    Conventions of the embedding.

      - A Python [str] is the list of its code points ([pystr]); [py] turns an
        ASCII literal into one.
      - Python exceptions are values of [exn]; a call that may raise returns a
        [result].
      - A Python [dict] is an association list in insertion order, with
        [dict_set] overwriting in place and appending new keys, which is the
        iteration order Python guarantees.
      - Python floats are idealised as real numbers: rounding error, overflow
        and NaN of binary64 are outside the model.  Heat values produced by
        the adapters are [float(int)] and are kept as integers.
      - Functions of the Python standard library whose tables are not part of
        the repository (the ISO timestamp parser, [strptime], the regular
        expression matcher, the Unicode character database) are Section
        variables; every theorem holds for any behaviour of them.  Module
        [PyLib] gives concrete instances used on concrete inputs. *)

From Stdlib Require Import ZArith NArith List Bool Lia String Ascii.
From Stdlib Require Import Reals Lra Sorted Permutation.
Import ListNotations.

(* ================================================================== *)
(** * Python values shared by all modules                              *)
(* ================================================================== *)

Module Py.

(** A [str] as the sequence of its Unicode code points. *)
Definition pystr := list N.

Definition py (s : string) : pystr :=
  map N_of_ascii (list_ascii_of_string s).

Fixpoint pystr_eqb (a b : pystr) : bool :=
  match a, b with
  | [], [] => true
  | x :: a', y :: b' => N.eqb x y && pystr_eqb a' b'
  | _, _ => false
  end.

(** [a < b] on strings: lexicographic on code points. *)
Fixpoint pystr_ltb (a b : pystr) : bool :=
  match a, b with
  | _, [] => false
  | [], _ :: _ => true
  | x :: a', y :: b' =>
      if N.ltb x y then true
      else if N.eqb x y then pystr_ltb a' b' else false
  end.

(** The exceptions the modelled code can meet. *)
Inductive exn : Type :=
| ValueError
| TypeError
| NotImplementedError
| KeyError
| IndexError
| TimeoutError
| HTTPException (status : Z).

Inductive result (A : Type) : Type :=
| Ok (a : A)
| Raise (e : exn).
Arguments Ok {A} a.
Arguments Raise {A} e.

Definition bind {A B} (r : result A) (k : A -> result B) : result B :=
  match r with
  | Ok a => k a
  | Raise e => Raise e
  end.

(** [of_option e o]: a library call that raises [e] where it has no value. *)
Definition of_option {A} (e : exn) (o : option A) : result A :=
  match o with
  | Some a => Ok a
  | None => Raise e
  end.

(** A naive [datetime]: proleptic Gregorian ordinal of the day, second of the
    day and microsecond. *)
Record datetime : Type := mk_datetime {
  dt_ordinal : Z;
  dt_second : Z;
  dt_micro : Z
}.

Definition total_microseconds (d : datetime) : Z :=
  ((dt_ordinal d * 86400 + dt_second d) * 1000000 + dt_micro d)%Z.

(** [(last - first).days]: a [timedelta] is normalised with
    [0 <= seconds < 86400], so [days] is the floor of the difference. *)
Definition timedelta_days (last first : datetime) : Z :=
  ((total_microseconds last - total_microseconds first) / 86400000000)%Z.

(** ** Dictionaries in insertion order *)

Section Dict.
Context {V : Type}.

Definition dict := list (pystr * V).

Fixpoint dict_get (d : dict) (k : pystr) : option V :=
  match d with
  | [] => None
  | (k', v) :: d' => if pystr_eqb k k' then Some v else dict_get d' k
  end.

(** [k in d]. *)
Definition dict_mem (d : dict) (k : pystr) : bool :=
  match dict_get d k with Some _ => true | None => false end.

(** [d[k] = v]: overwrite in place, or append a new key. *)
Fixpoint dict_set (d : dict) (k : pystr) (v : V) : dict :=
  match d with
  | [] => [(k, v)]
  | (k', v') :: d' =>
      if pystr_eqb k k' then (k', v) :: d' else (k', v') :: dict_set d' k v
  end.

Definition dict_keys (d : dict) : list pystr := map fst d.
Definition dict_values (d : dict) : list V := map snd d.

End Dict.
Arguments dict V : clear implicits.

(** ** Floats, idealised as reals *)

(** [math.log2] on an [int] argument: a domain error is a [ValueError]. *)
Definition log2 (x : R) : R := (ln x / ln 2)%R.

Definition math_log2 (n : Z) : result R :=
  if (0 <? n)%Z then Ok (log2 (IZR n)) else Raise ValueError.

(** Round half to even, as [round] does on a tie. *)
Definition round_half_even (x : R) : Z :=
  let n := Int_part x in
  let f := (x - IZR n)%R in
  if Rlt_dec f (1 / 2) then n
  else if Rlt_dec (1 / 2) f then (n + 1)%Z
  else if Z.even n then n else (n + 1)%Z.

(** [round(x, 2)]. *)
Definition round2 (x : R) : R :=
  (IZR (round_half_even (x * 100)) / 100)%R.

(** [a < b] on floats. *)
Definition Rltb (a b : R) : bool := if Rlt_dec a b then true else false.

(** [a == b] on floats. *)
Definition Reqb (a b : R) : bool := if Req_dec_T a b then true else false.

(** ** [list.sort(key=..., reverse=True)]

    The sort is stable, also when reversed: of two elements with equal keys
    the one that came first stays first.  [key_lt a b] is [a < b] on keys. *)

Section SortReverse.
Context {A K : Type}.
Variable key_lt : K -> K -> bool.
Variable key : A -> K.

(** Insert [x], which came before every element of the sorted [l]: it goes
    after the elements with a strictly greater key only. *)
Fixpoint insert_desc (x : A) (l : list A) : list A :=
  match l with
  | [] => [x]
  | y :: l' =>
      if key_lt (key x) (key y) then y :: insert_desc x l' else x :: l
  end.

Definition sort_reverse (l : list A) : list A :=
  fold_right insert_desc [] l.

End SortReverse.

(** ** [sorted(strings)] *)

Fixpoint insert_asc (x : pystr) (l : list pystr) : list pystr :=
  match l with
  | [] => [x]
  | y :: l' => if pystr_ltb y x then y :: insert_asc x l' else x :: l
  end.

Definition sorted (l : list pystr) : list pystr :=
  fold_right insert_asc [] l.

(** ** [sum(l)] on integers *)

Definition sum_list (l : list Z) : Z := fold_left Z.add l 0%Z.

End Py.
Export Py.

Notation "x <- c ;; k" := (bind c (fun x => k))
  (at level 61, c at next level, right associativity).

(* ================================================================== *)
(** * Instances of the library functions, for concrete inputs          *)
(* ================================================================== *)

Module PyLib.
Local Open Scope Z_scope.

Definition digit (c : N) : option Z :=
  if (48 <=? c)%N && (c <=? 57)%N then Some (Z.of_N c - 48) else None.

(** A run of decimal digits, most significant first. *)
Fixpoint number_from (acc : Z) (s : pystr) : option Z :=
  match s with
  | [] => Some acc
  | c :: s' =>
      match digit c with
      | Some d => number_from (10 * acc + d) s'
      | None => None
      end
  end.

Definition number (s : pystr) : option Z :=
  match s with
  | [] => None
  | _ => number_from 0 s
  end.

Definition is_leap (y : Z) : bool :=
  (y mod 4 =? 0) && (negb (y mod 100 =? 0) || (y mod 400 =? 0)).

Definition days_in_month (y m : Z) : Z :=
  if m =? 2 then (if is_leap y then 29 else 28)
  else if (m =? 4) || (m =? 6) || (m =? 9) || (m =? 11) then 30
  else 31.

Definition days_before_year (y : Z) : Z :=
  let p := y - 1 in p * 365 + p / 4 - p / 100 + p / 400.

Definition days_before_month (y m : Z) : Z :=
  fold_right Z.add 0
    (map (days_in_month y) (map Z.of_nat (seq 1 (Z.to_nat (m - 1))))).

(** The proleptic Gregorian ordinal, 1 for 0001-01-01. *)
Definition ymd2ord (y m d : Z) : Z :=
  days_before_year y + days_before_month y m + d.

(** [YYYY-MM-DD], every field zero padded. *)
Definition parse_date (s : pystr) : option Z :=
  match s with
  | [y1; y2; y3; y4; h1; m1; m2; h2; d1; d2] =>
      match number [y1; y2; y3; y4], number [m1; m2], number [d1; d2] with
      | Some y, Some m, Some d =>
          if (h1 =? 45)%N && (h2 =? 45)%N
             && (1 <=? y) && (1 <=? m) && (m <=? 12)
             && (1 <=? d) && (d <=? days_in_month y m)
          then Some (ymd2ord y m d) else None
      | _, _, _ => None
      end
  | _ => None
  end.

(** [HH:MM:SS], as the second of the day. *)
Definition parse_hms (s : pystr) : option Z :=
  match s with
  | [h1; h2; c1; m1; m2; c2; s1; s2] =>
      match number [h1; h2], number [m1; m2], number [s1; s2] with
      | Some h, Some m, Some sec =>
          if (c1 =? 58)%N && (c2 =? 58)%N
             && (h <? 24) && (m <? 60) && (sec <? 60)
          then Some (h * 3600 + m * 60 + sec) else None
      | _, _, _ => None
      end
  | _ => None
  end.

(** [.ffffff], or nothing. *)
Definition parse_fraction (s : pystr) : option Z :=
  match s with
  | [] => Some 0
  | [dot; f1; f2; f3; f4; f5; f6] =>
      if (dot =? 46)%N then number [f1; f2; f3; f4; f5; f6] else None
  | _ => None
  end.

(** An instance of [datetime.fromisoformat].  It accepts [YYYY-MM-DD],
    [YYYY-MM-DD?HH:MM:SS] and [YYYY-MM-DD?HH:MM:SS.ffffff] ([?] any one
    character), the forms [datetime.isoformat] writes for a naive value, and
    agrees with Python on them. *)
Definition fromisoformat (s : pystr) : option datetime :=
  match parse_date (firstn 10 s) with
  | None => None
  | Some ord =>
      match skipn 10 s with
      | [] => Some (mk_datetime ord 0 0)
      | _ :: t =>
          match parse_hms (firstn 8 t), parse_fraction (skipn 8 t) with
          | Some sec, Some us => Some (mk_datetime ord sec us)
          | _, _ => None
          end
      end
  end.

(** An instance of [datetime.strptime(s, "%Y-%m-%d")], on zero-padded
    dates. *)
Definition strptime_ymd (s : pystr) : option datetime :=
  match parse_date s with
  | Some ord => Some (mk_datetime ord 0 0)
  | None => None
  end.

(** A matcher that finds nothing: what [re.match] answers for every pattern
    of MARKETING_PATTERNS on a keyword of ASCII letters only, none of the
    patterns being satisfiable without a CJK character, a digit or [#]. *)
Definition re_match_none (pattern : string) (s : pystr) : bool := false.

(** Unicode tables restricted to ASCII: no other character is alphanumeric
    and none changes under [lower]. *)
Definition isalnum_ascii_only (c : N) : bool := false.
Definition lower_ascii_only (c : N) : pystr := [c].

End PyLib.

(* ================================================================== *)
(** * Facts about the idealised floats                                 *)
(* ================================================================== *)

Module PyFloat.
Local Open Scope R_scope.

Lemma ln_2_pos : 0 < ln 2.
Proof.
  pose proof ln_lt_2 as H. lra.
Qed.


Lemma log2_1 : log2 1 = 0.
Proof.
  unfold log2. rewrite ln_1. field. pose proof ln_2_pos. lra.
Qed.

Lemma log2_pos (x : R) : 1 < x -> 0 < log2 x.
Proof.
  intros Hx. unfold log2.
  apply Rdiv_lt_0_compat; [ | apply ln_2_pos ].
  rewrite <- ln_1. apply ln_increasing; lra.
Qed.


Lemma Int_part_IZR (z : Z) : Int_part (IZR z) = z.
Proof.
  symmetry. apply Int_part_spec. lra.
Qed.

Lemma round_half_even_IZR (z : Z) : round_half_even (IZR z) = z.
Proof.
  unfold round_half_even. rewrite Int_part_IZR.
  destruct (Rlt_dec (IZR z - IZR z) (1 / 2)) as [_ | Hn]; [ reflexivity | ].
  exfalso. apply Hn. lra.
Qed.


(** A value with at most two decimals is its own rounding. *)
Lemma round2_hundredths (k : Z) : round2 (IZR k / 100) = IZR k / 100.
Proof.
  unfold round2.
  replace (IZR k / 100 * 100) with (IZR k) by field.
  now rewrite round_half_even_IZR.
Qed.



(** ** Rounding is monotone *)





Lemma round2_1 : round2 1 = 1.
Proof.
  replace 1 with (IZR 100 / 100) by (simpl; field).
  apply round2_hundredths.
Qed.




End PyFloat.

(* ================================================================== *)
(** * Facts about strings, dictionaries and the reversed sort          *)
(* ================================================================== *)

Module PyFacts.

Lemma pystr_eqb_eq (a b : pystr) : pystr_eqb a b = true <-> a = b.
Proof.
  revert b. induction a as [ | x a IH]; intros [ | y b]; simpl;
    try (split; (discriminate || reflexivity)).
  rewrite andb_true_iff, N.eqb_eq, IH.
  split; [ intros [-> ->]; reflexivity | intros [= -> ->]; now split ].
Qed.

Lemma pystr_eqb_refl (a : pystr) : pystr_eqb a a = true.
Proof.
  now apply pystr_eqb_eq.
Qed.

Lemma pystr_eqb_neq (a b : pystr) : pystr_eqb a b = false <-> a <> b.
Proof.
  rewrite <- pystr_eqb_eq. destruct (pystr_eqb a b); split; congruence.
Qed.

Lemma pystr_ltb_irrefl (a : pystr) : pystr_ltb a a = false.
Proof.
  induction a as [ | x a IH]; simpl; [ reflexivity | ].
  now rewrite N.ltb_irrefl, N.eqb_refl.
Qed.

Lemma pystr_ltb_asym (a b : pystr) :
  pystr_ltb a b = true -> pystr_ltb b a = false.
Proof.
  revert b. induction a as [ | x a IH]; intros [ | y b]; simpl; trivial;
    try discriminate.
  destruct (N.ltb_spec x y) as [Hlt | Hge].
  - intros _. destruct (N.ltb_spec y x); [ lia | ].
    destruct (N.eqb_spec y x); [ lia | reflexivity ].
  - destruct (N.eqb_spec x y) as [-> | Hne]; [ | discriminate ].
    intros H. rewrite N.ltb_irrefl, N.eqb_refl. now apply IH.
Qed.

Lemma pystr_ltb_neq (a b : pystr) : pystr_ltb a b = true -> a <> b.
Proof.
  intros H ->. rewrite pystr_ltb_irrefl in H. discriminate.
Qed.

(** A strictly ascending list of strings. *)
Definition ascending (l : list pystr) : Prop :=
  StronglySorted (fun a b => pystr_ltb a b = true) l.

Lemma ascending_NoDup (l : list pystr) : ascending l -> NoDup l.
Proof.
  induction 1 as [ | x l Hs IH Hx]; constructor; [ | exact IH ].
  intros Hin. rewrite Forall_forall in Hx.
  apply (pystr_ltb_neq x x); [ now apply Hx | reflexivity ].
Qed.

Lemma insert_asc_least (x : pystr) (l : list pystr) :
  Forall (fun y => pystr_ltb x y = true) l -> insert_asc x l = x :: l.
Proof.
  destruct l as [ | y l]; simpl; [ reflexivity | ].
  intros H. inversion H as [ | ? ? Hy _]; subst.
  now rewrite (pystr_ltb_asym _ _ Hy).
Qed.

(** [sorted] leaves an ascending list as it is. *)
Lemma sorted_ascending (l : list pystr) : ascending l -> sorted l = l.
Proof.
  induction 1 as [ | x l Hs IH Hx]; simpl; [ reflexivity | ].
  rewrite IH. now apply insert_asc_least.
Qed.

Section DictFacts.
Context {V : Type}.
Implicit Types (d : dict V) (k : pystr) (v : V).

Lemma dict_get_set_same d k v : dict_get (dict_set d k v) k = Some v.
Proof.
  induction d as [ | [k' v'] d IH]; simpl.
  - now rewrite pystr_eqb_refl.
  - destruct (pystr_eqb k k') eqn:E; simpl; rewrite E; [ reflexivity | exact IH ].
Qed.

Lemma dict_get_set_other d k k' v :
  k' <> k -> dict_get (dict_set d k v) k' = dict_get d k'.
Proof.
  intros Hne. induction d as [ | [k0 v0] d IH]; simpl.
  - now apply pystr_eqb_neq in Hne as ->.
  - destruct (pystr_eqb k k0) eqn:E; simpl.
    + apply pystr_eqb_eq in E as <-.
      now apply pystr_eqb_neq in Hne as ->.
    + now rewrite IH.
Qed.

Lemma dict_set_set d k v0 v : dict_set (dict_set d k v0) k v = dict_set d k v.
Proof.
  induction d as [ | [k' v'] d IH]; simpl.
  - now rewrite pystr_eqb_refl.
  - destruct (pystr_eqb k k') eqn:E; simpl; rewrite E; [ reflexivity | ].
    now rewrite IH.
Qed.


Lemma dict_get_None_keys d k : dict_get d k = None <-> ~ In k (dict_keys d).
Proof.
  induction d as [ | [k' v'] d IH]; simpl; [ tauto | ].
  destruct (pystr_eqb k k') eqn:E.
  - apply pystr_eqb_eq in E as ->.
    split; [ discriminate | intros H; exfalso; apply H; now left ].
  - apply pystr_eqb_neq in E. rewrite IH. split.
    + intros H [<- | H']; [ now apply E | now apply H ].
    + intros H H'. apply H. now right.
Qed.

(** A new key goes to the end. *)
Lemma dict_set_new d k v :
  ~ In k (dict_keys d) -> dict_set d k v = d ++ [(k, v)].
Proof.
  induction d as [ | [k' v'] d IH]; simpl; intros H; [ reflexivity | ].
  destruct (pystr_eqb k k') eqn:E.
  - apply pystr_eqb_eq in E. exfalso. apply H. now left.
  - rewrite IH; [ reflexivity | ]. intros H'. apply H. now right.
Qed.

Lemma dict_values_set d k v x :
  In x (dict_values (dict_set d k v)) -> x = v \/ In x (dict_values d).
Proof.
  induction d as [ | [k' v'] d IH]; simpl.
  - intros [<- | []]. now left.
  - destruct (pystr_eqb k k'); simpl.
    + intros [<- | H]; auto.
    + intros [<- | H]; auto. destruct (IH H); auto.
Qed.

Lemma dict_keys_set_length d k v :
  (List.length d <= List.length (dict_set d k v))%nat.
Proof.
  induction d as [ | [k' v'] d IH]; simpl; [ lia | ].
  destruct (pystr_eqb k k'); simpl; lia.
Qed.

End DictFacts.

(** ** The reversed stable sort *)

Section SortFacts.
Context {A K : Type}.
Variable key_lt : K -> K -> bool.
Variable key : A -> K.

Hypothesis key_lt_asym :
  forall a b, key_lt a b = true -> key_lt b a = false.
Hypothesis key_lt_negtrans :
  forall a b c, key_lt a b = false -> key_lt b c = false -> key_lt a c = false.

(** [a] may stand before [b]: its key is not the smaller one. *)
Definition key_ge (a b : A) : Prop := key_lt (key a) (key b) = false.

(** [a] has the key [k], as far as [key_lt] can tell. *)
Definition same_key (k : K) (a : A) : bool :=
  negb (key_lt k (key a)) && negb (key_lt (key a) k).

Lemma insert_desc_perm (x : A) (l : list A) :
  Permutation (insert_desc key_lt key x l) (x :: l).
Proof.
  induction l as [ | y l IH]; simpl; [ reflexivity | ].
  destruct (key_lt (key x) (key y)); [ | reflexivity ].
  rewrite IH. apply perm_swap.
Qed.

Lemma sort_reverse_perm (l : list A) :
  Permutation (sort_reverse key_lt key l) l.
Proof.
  induction l as [ | x l IH]; simpl; [ reflexivity | ].
  rewrite insert_desc_perm. now constructor.
Qed.

Lemma insert_desc_sorted (x : A) (l : list A) :
  StronglySorted key_ge l ->
  StronglySorted key_ge (insert_desc key_lt key x l).
Proof.
  induction 1 as [ | y l Hs IH Hy]; simpl.
  - repeat constructor.
  - destruct (key_lt (key x) (key y)) eqn:E.
    + constructor; [ exact IH | ].
      apply Forall_forall. intros z Hz.
      apply (Permutation_in _ (insert_desc_perm x l)) in Hz.
      destruct Hz as [<- | Hz].
      * now apply key_lt_asym.
      * rewrite Forall_forall in Hy. now apply Hy.
    + constructor; [ now constructor | ].
      constructor; [ exact E | ].
      apply Forall_forall. intros z Hz. rewrite Forall_forall in Hy.
      exact (key_lt_negtrans _ _ _ E (Hy z Hz)).
Qed.

Lemma sort_reverse_sorted (l : list A) :
  StronglySorted key_ge (sort_reverse key_lt key l).
Proof.
  induction l as [ | x l IH]; simpl; [ constructor | ].
  now apply insert_desc_sorted.
Qed.

Lemma insert_desc_filter (k : K) (x : A) (l : list A) :
  filter (same_key k) (insert_desc key_lt key x l)
  = filter (same_key k) (x :: l).
Proof.
  induction l as [ | y l IH]; simpl; [ reflexivity | ].
  destruct (key_lt (key x) (key y)) eqn:E; [ | reflexivity ].
  simpl. rewrite IH. simpl.
  destruct (same_key k x) eqn:Ex; [ | reflexivity ].
  destruct (same_key k y) eqn:Ey; [ | reflexivity ].
  exfalso. unfold same_key in Ex, Ey.
  rewrite andb_true_iff, !negb_true_iff in Ex, Ey.
  destruct Ex as [_ Ex], Ey as [Ey _].
  rewrite (key_lt_negtrans _ _ _ Ex Ey) in E. discriminate.
Qed.

(** Elements of equal key leave the sort in the order they entered it. *)
Lemma sort_reverse_stable (k : K) (l : list A) :
  filter (same_key k) (sort_reverse key_lt key l) = filter (same_key k) l.
Proof.
  induction l as [ | x l IH]; simpl; [ reflexivity | ].
  rewrite insert_desc_filter. simpl. now rewrite IH.
Qed.

End SortFacts.

Lemma Z_ltb_asym (a b : Z) : (a <? b)%Z = true -> (b <? a)%Z = false.
Proof.
  rewrite Z.ltb_lt, Z.ltb_ge. lia.
Qed.

Lemma Z_ltb_negtrans (a b c : Z) :
  (a <? b)%Z = false -> (b <? c)%Z = false -> (a <? c)%Z = false.
Proof.
  rewrite !Z.ltb_ge. lia.
Qed.

Lemma Rltb_asym (a b : R) : Rltb a b = true -> Rltb b a = false.
Proof.
  unfold Rltb. destruct (Rlt_dec a b), (Rlt_dec b a); trivial;
    try discriminate. lra.
Qed.

Lemma Rltb_negtrans (a b c : R) :
  Rltb a b = false -> Rltb b c = false -> Rltb a c = false.
Proof.
  unfold Rltb. destruct (Rlt_dec a b), (Rlt_dec b c), (Rlt_dec a c);
    trivial; try discriminate. lra.
Qed.

Lemma Rltb_ge (a b : R) : Rltb a b = false <-> (b <= a)%R.
Proof.
  unfold Rltb. destruct (Rlt_dec a b); split; trivial; try discriminate;
    lra.
Qed.

Lemma same_key_R {A} (key : A -> R) (k : R) (a : A) :
  same_key Rltb key k a = Reqb (key a) k.
Proof.
  unfold same_key, Rltb, Reqb.
  destruct (Rlt_dec k (key a)), (Rlt_dec (key a) k),
    (Req_dec_T (key a) k); simpl; trivial; lra.
Qed.

Lemma dict_keys_set {V} (d : dict V) (k : pystr) (v : V) :
  dict_keys (dict_set d k v)
  = if existsb (pystr_eqb k) (dict_keys d) then dict_keys d
    else dict_keys d ++ [k].
Proof.
  induction d as [ | [k' v'] d IH]; simpl; [ reflexivity | ].
  destruct (pystr_eqb k k'); simpl; [ reflexivity | ].
  rewrite IH. now destruct (existsb _ _).
Qed.

Lemma dict_get_In_values {V} (d : dict V) (k : pystr) (v : V) :
  dict_get d k = Some v -> In v (dict_values d).
Proof.
  induction d as [ | [k' v'] d IH]; simpl; [ discriminate | ].
  destruct (pystr_eqb k k'); [ intros [= ->]; now left | right; auto ].
Qed.

Lemma dict_set_not_nil {V} (d : dict V) (k : pystr) (v : V) :
  dict_set d k v <> [].
Proof.
  destruct d as [ | [k' v'] d]; simpl; [ discriminate | ].
  destruct (pystr_eqb k k'); discriminate.
Qed.

Lemma same_key_Z {A} (key : A -> Z) (k : Z) (a : A) :
  same_key Z.ltb key k a = (key a =? k)%Z.
Proof.
  unfold same_key.
  destruct (Z.ltb_spec k (key a)), (Z.ltb_spec (key a) k),
    (Z.eqb_spec (key a) k); simpl; trivial; lia.
Qed.

(** ** Sorting what is sorted *)

Section SortedFacts.
Context {A K : Type}.
Variable key_lt : K -> K -> bool.
Variable key : A -> K.




End SortedFacts.


(** ** More on dictionaries *)

Lemma dict_set_keys_NoDup {V} (d : dict V) k v :
  NoDup (dict_keys d) -> NoDup (dict_keys (dict_set d k v)).
Proof.
  intros Hnd. rewrite dict_keys_set.
  destruct (existsb (pystr_eqb k) (dict_keys d)) eqn:E; [ exact Hnd | ].
  apply NoDup_app; [ exact Hnd | repeat constructor; intros [] | ].
  intros x Hx [Hk | []]. subst x.
  assert (Ht : existsb (pystr_eqb k) (dict_keys d) = true).
  { apply existsb_exists. exists k. split; trivial.
    apply pystr_eqb_refl. }
  congruence.
Qed.

Lemma dict_get_set {V} (d : dict V) k v q :
  dict_get (dict_set d k v) q
  = if pystr_eqb q k then Some v else dict_get d q.
Proof.
  destruct (pystr_eqb q k) eqn:E.
  - apply pystr_eqb_eq in E as ->. apply dict_get_set_same.
  - apply pystr_eqb_neq in E. now apply dict_get_set_other.
Qed.

Lemma dict_In_get {V} (d : dict V) k v :
  NoDup (dict_keys d) -> In (k, v) d -> dict_get d k = Some v.
Proof.
  induction d as [ | [k' v'] d IH]; simpl; [ intros _ [] | ].
  intros Hnd H. inversion Hnd as [ | ? ? Hk Hnd']; subst.
  destruct H as [[= -> ->] | H]; [ now rewrite pystr_eqb_refl | ].
  destruct (pystr_eqb k k') eqn:E; [ | now apply IH ].
  apply pystr_eqb_eq in E as ->. exfalso. apply Hk.
  apply in_map_iff. now exists (k', v).
Qed.

(** ** Sums, [find] and [filter] *)

Lemma fold_left_add (l : list Z) (a : Z) :
  fold_left Z.add l a = (a + sum_list l)%Z.
Proof.
  unfold sum_list. revert a. induction l as [ | x l IH]; intros a; simpl.
  - lia.
  - rewrite IH, (IH x). lia.
Qed.

Lemma sum_list_cons (x : Z) (l : list Z) :
  sum_list (x :: l) = (x + sum_list l)%Z.
Proof.
  unfold sum_list at 1. simpl. apply fold_left_add.
Qed.

Lemma sum_list_app (l l' : list Z) :
  sum_list (l ++ l') = (sum_list l + sum_list l')%Z.
Proof.
  induction l as [ | x l IH]; simpl; [ reflexivity | ].
  rewrite !sum_list_cons, IH. lia.
Qed.

Lemma sum_list_perm (l l' : list Z) :
  Permutation l l' -> sum_list l = sum_list l'.
Proof.
  induction 1; rewrite ?sum_list_cons; lia.
Qed.

Lemma find_app {A} (f : A -> bool) (l l' : list A) :
  find f (l ++ l')
  = match find f l with
    | Some x => Some x
    | None => find f l'
    end.
Proof.
  induction l as [ | x l IH]; simpl; [ reflexivity | ].
  now destruct (f x).
Qed.

Lemma filter_nil_find {A} (f : A -> bool) (l : list A) :
  filter f l = [] <-> find f l = None.
Proof.
  induction l as [ | x l IH]; simpl; [ tauto | ].
  destruct (f x); [ split; discriminate | exact IH ].
Qed.

Lemma find_none_weaken {A} (f g : A -> bool) (l : list A) :
  (forall x, g x = true -> f x = true) ->
  find f l = None -> find g l = None.
Proof.
  intros Hgf H. destruct (find g l) as [x | ] eqn:E; [ | reflexivity ].
  apply find_some in E. destruct E as [Hin Hg].
  specialize (Hgf x Hg). rewrite (find_none _ _ H x Hin) in Hgf.
  discriminate.
Qed.

Lemma find_none_rev {A} (f : A -> bool) (l : list A) :
  find f l = None -> find f (rev l) = None.
Proof.
  intros H. destruct (find f (rev l)) as [x | ] eqn:E; [ | reflexivity ].
  apply find_some in E. destruct E as [Hin Hf].
  apply in_rev in Hin. rewrite (find_none _ _ H x Hin) in Hf. discriminate.
Qed.


(** ** The order of strings, and [sorted] *)

Lemma pystr_ltb_trans (a b c : pystr) :
  pystr_ltb a b = true -> pystr_ltb b c = true -> pystr_ltb a c = true.
Proof.
  revert b c. induction a as [ | x a IH]; intros [ | y b] [ | z c]; simpl;
    trivial; try discriminate.
  destruct (N.ltb_spec x y) as [Hxy | Hxy].
  - intros _. destruct (N.ltb_spec y z) as [Hyz | Hyz].
    + intros _. destruct (N.ltb_spec x z); [ reflexivity | lia ].
    + destruct (N.eqb_spec y z) as [-> | Hne]; [ | discriminate ].
      intros _. destruct (N.ltb_spec x z); [ reflexivity | lia ].
  - destruct (N.eqb_spec x y) as [-> | Hne]; [ | discriminate ].
    intros Hab. destruct (N.ltb_spec y z) as [Hyz | Hyz]; [ reflexivity | ].
    destruct (N.eqb_spec y z) as [-> | Hne]; [ | discriminate ].
    now apply IH.
Qed.

Lemma pystr_ltb_total (a b : pystr) :
  pystr_ltb a b = false -> pystr_ltb b a = false -> a = b.
Proof.
  revert b. induction a as [ | x a IH]; intros [ | y b]; simpl; trivial;
    try discriminate.
  destruct (N.ltb_spec x y) as [Hxy | Hxy]; [ discriminate | ].
  destruct (N.ltb_spec y x) as [Hyx | Hyx]; [ discriminate | ].
  assert (x = y) as -> by lia. rewrite N.eqb_refl.
  intros Hab Hba. f_equal. now apply IH.
Qed.

Lemma pystr_ltb_negtrans (a b c : pystr) :
  pystr_ltb a b = false -> pystr_ltb b c = false -> pystr_ltb a c = false.
Proof.
  intros Hab Hbc. destruct (pystr_ltb a c) eqn:Hac; [ | reflexivity ].
  destruct (pystr_ltb c b) eqn:Hcb.
  - now rewrite (pystr_ltb_trans _ _ _ Hac Hcb) in Hab.
  - rewrite (pystr_ltb_total _ _ Hbc Hcb) in Hab. congruence.
Qed.

Lemma insert_asc_perm (x : pystr) (l : list pystr) :
  Permutation (insert_asc x l) (x :: l).
Proof.
  induction l as [ | y l IH]; simpl; [ reflexivity | ].
  destruct (pystr_ltb y x); [ | reflexivity ].
  rewrite IH. apply perm_swap.
Qed.

Lemma sorted_perm (l : list pystr) : Permutation (sorted l) l.
Proof.
  induction l as [ | x l IH]; simpl; [ reflexivity | ].
  rewrite insert_asc_perm. now constructor.
Qed.

Lemma insert_asc_sorted (x : pystr) (l : list pystr) :
  StronglySorted (fun a b => pystr_ltb b a = false) l ->
  StronglySorted (fun a b => pystr_ltb b a = false) (insert_asc x l).
Proof.
  induction 1 as [ | y l Hs IH Hy]; simpl.
  - repeat constructor.
  - destruct (pystr_ltb y x) eqn:E.
    + constructor; [ exact IH | ].
      apply Forall_forall. intros z Hz.
      apply (Permutation_in _ (insert_asc_perm x l)) in Hz.
      destruct Hz as [<- | Hz].
      * now apply pystr_ltb_asym.
      * rewrite Forall_forall in Hy. now apply Hy.
    + constructor; [ now constructor | ].
      constructor; [ exact E | ].
      apply Forall_forall. intros z Hz. rewrite Forall_forall in Hy.
      exact (pystr_ltb_negtrans _ _ _ (Hy z Hz) E).
Qed.

(** [sorted] puts distinct strings in strictly ascending order. *)
Lemma sorted_NoDup_ascending (l : list pystr) :
  NoDup l -> ascending (sorted l).
Proof.
  intros Hnd.
  assert (Hs : StronglySorted (fun a b => pystr_ltb b a = false) (sorted l)).
  { clear Hnd. induction l as [ | x l IH]; simpl; [ constructor | ].
    now apply insert_asc_sorted. }
  assert (Hnd' : NoDup (sorted l)).
  { eapply Permutation_NoDup; [ symmetry; apply sorted_perm | exact Hnd ]. }
  unfold ascending. induction Hs as [ | a s Hs IH Ha]; constructor.
  - apply IH. now inversion Hnd'.
  - inversion Hnd' as [ | ? ? Hnotin _]; subst.
    apply Forall_forall. intros b Hb. rewrite Forall_forall in Ha.
    destruct (pystr_ltb a b) eqn:E; [ reflexivity | ].
    exfalso. apply Hnotin.
    now rewrite (pystr_ltb_total _ _ E (Ha b Hb)).
Qed.


Lemma dict_get_keys_In {V} (d : dict V) (k : pystr) (v : V) :
  dict_get d k = Some v -> In k (dict_keys d).
Proof.
  induction d as [ | [k' v'] d IH]; simpl; [ discriminate | ].
  destruct (pystr_eqb k k') eqn:E; [ | right; auto ].
  apply pystr_eqb_eq in E. now left.
Qed.


Lemma sort_reverse_Rle {A} (key : A -> R) (l : list A) :
  StronglySorted (fun a b => (key b <= key a)%R) (sort_reverse Rltb key l).
Proof.
  pose proof (sort_reverse_sorted Rltb key Rltb_asym Rltb_negtrans l) as H.
  induction H as [ | a s Hs IH Ha]; constructor; trivial.
  eapply Forall_impl; [ | exact Ha ].
  intros b Hb. unfold key_ge in Hb. now apply Rltb_ge in Hb.
Qed.

End PyFacts.

(* ================================================================== *)
(** * real_score.py                                                    *)
(* ================================================================== *)

Module RealScore.
Local Open Scope R_scope.

(** The dictionary [trend_data]: every documented field may be absent, and a
    field that is present holds a value of its documented type. *)
Record trend_data : Type := mk_trend_data {
  td_keyword : option pystr;
  td_raw_heat_score : option R;
  td_platform_count : option Z;
  td_first_seen : option pystr;
  td_last_seen : option pystr;
  td_is_marketing : option bool
}.

(** [d.get(key, default)]. *)
Definition get {A} (field : option A) (default : A) : A :=
  match field with
  | Some v => v
  | None => default
  end.

(** MARKETING_PATTERNS, as the pattern sources (UTF-8). *)
Definition MARKETING_PATTERNS : list string :=
  [ ".*发布会$"; ".*新品.*"; ".*代言.*"; ".*官宣.*"; ".*预售.*"; ".*大促.*";
    ".*折扣.*"; ".*满减.*";
    "^618.*"; ".*618$"; "^双十一.*"; ".*双十一$"; "^双11.*"; ".*双11$";
    "^双十二.*"; ".*双十二$";
    ".*生日快乐$"; ".*应援.*"; ".*打榜.*"; ".*超话.*"; ".*出道.*周年";
    "^#.*品牌.*#$" ]%string.

Definition calculate_platform_multiplier (platform_count : Z) : R :=
  if (platform_count <=? 0)%Z then 0
  else if (platform_count =? 1)%Z then 3 / 10
  else if (platform_count =? 2)%Z then 1
  else Rmin (powerRZ (3 / 2) (platform_count - 2)) 5.

(** The spec's [days_active]: the whole days from [first] to [last]. *)
Definition whole_days_between (first last : datetime) : Z :=
  timedelta_days last first.

Section Calculator.

(** [datetime.fromisoformat]: [None] stands for its [ValueError]. *)
Variable fromisoformat : pystr -> option datetime.

(** [re.compile(p, re.IGNORECASE).match(s) is not None]. *)
Variable re_match : string -> pystr -> bool.

(** The body of the [try] block of [calculate_longevity_factor]. *)
Definition longevity_try (first_seen last_seen : pystr) : result R :=
  first <- of_option ValueError (fromisoformat first_seen) ;;
  last <- of_option ValueError (fromisoformat last_seen) ;;
  let days := (timedelta_days last first + 1)%Z in
  math_log2 (days + 1).

(** [except (ValueError, TypeError): return 1.0]. *)
Definition calculate_longevity_factor (first_seen last_seen : pystr)
  : result R :=
  match longevity_try first_seen last_seen with
  | Ok v => Ok v
  | Raise ValueError | Raise TypeError => Ok 1
  | Raise e => Raise e
  end.

Definition calculate_marketing_penalty
    (keyword : pystr) (is_marketing_flag : bool) : R :=
  if is_marketing_flag then 8 / 10
  else if existsb (fun p => re_match p keyword) MARKETING_PATTERNS
       then 5 / 10
       else 0.

Definition calculate_real_score (d : trend_data) : result R :=
  let keyword := get (td_keyword d) [] in
  let base_heat := get (td_raw_heat_score d) 0 in
  let platform_count := get (td_platform_count d) 1%Z in
  let first_seen := get (td_first_seen d) [] in
  let last_seen := get (td_last_seen d) [] in
  let is_marketing := get (td_is_marketing d) false in
  let platform_multiplier := calculate_platform_multiplier platform_count in
  longevity_factor <- calculate_longevity_factor first_seen last_seen ;;
  let marketing_penalty := calculate_marketing_penalty keyword is_marketing in
  let real_score :=
    base_heat * platform_multiplier * longevity_factor
    * (1 - marketing_penalty) in
  Ok (round2 real_score).


(** What [calculate_longevity_factor] returns, case by case. *)
Definition longevity_value (first_seen last_seen : pystr) : R :=
  match fromisoformat first_seen, fromisoformat last_seen with
  | Some first, Some last =>
      let days_active := whole_days_between first last in
      if (0 <? days_active + 2)%Z then log2 (IZR (days_active + 2)) else 1
  | _, _ => 1
  end.

Lemma longevity_try_cases (first_seen last_seen : pystr) :
  longevity_try first_seen last_seen = Raise ValueError
  \/ longevity_try first_seen last_seen
     = Ok (longevity_value first_seen last_seen).
Proof.
  unfold longevity_try, longevity_value, whole_days_between, math_log2.
  destruct (fromisoformat first_seen) as [first | ]; simpl; [ | now left ].
  destruct (fromisoformat last_seen) as [last | ]; simpl; [ | now left ].
  replace (timedelta_days last first + 1 + 1)%Z
    with (timedelta_days last first + 2)%Z by lia.
  destruct (0 <? timedelta_days last first + 2)%Z; [ now right | now left ].
Qed.

Lemma longevity_try_error (first_seen last_seen : pystr) :
  longevity_try first_seen last_seen = Raise ValueError ->
  longevity_value first_seen last_seen = 1.
Proof.
  unfold longevity_try, longevity_value, whole_days_between, math_log2.
  destruct (fromisoformat first_seen) as [first | ]; simpl; [ | reflexivity ].
  destruct (fromisoformat last_seen) as [last | ]; simpl; [ | reflexivity ].
  replace (timedelta_days last first + 1 + 1)%Z
    with (timedelta_days last first + 2)%Z by lia.
  destruct (0 <? timedelta_days last first + 2)%Z; [ discriminate | reflexivity ].
Qed.

(** The [except] clause absorbs every failure of the [try] block. *)
Lemma calculate_longevity_factor_value (first_seen last_seen : pystr) :
  calculate_longevity_factor first_seen last_seen
  = Ok (longevity_value first_seen last_seen).
Proof.
  unfold calculate_longevity_factor.
  destruct (longevity_try_cases first_seen last_seen) as [E | E].
  - rewrite E. f_equal. symmetry. now apply longevity_try_error.
  - now rewrite E.
Qed.

Lemma calculate_longevity_factor_malformed (first_seen last_seen : pystr) :
  fromisoformat first_seen = None \/ fromisoformat last_seen = None ->
  calculate_longevity_factor first_seen last_seen = Ok 1.
Proof.
  intros H. rewrite calculate_longevity_factor_value.
  unfold longevity_value.
  destruct H as [-> | ->]; [ reflexivity | ].
  now destruct (fromisoformat first_seen).
Qed.




End Calculator.





(* ------------------------------------------------------------------ *)
(** ** The multiplier and the batch [process_all_trends]               *)
(* ------------------------------------------------------------------ *)

(** The dictionary [score_breakdown]. *)
Record breakdown : Type := mk_breakdown {
  bd_base_heat : R;
  bd_platform_multiplier : R;
  bd_longevity_factor : R;
  bd_marketing_penalty : R
}.

(** [trend.copy()] with the keys [real_score] and [score_breakdown] set;
    [sc_trend] is the dictionary that was copied. *)
Record scored (T : Type) : Type := mk_scored {
  sc_trend : T;
  real_score : R;
  score_breakdown : breakdown
}.
Arguments mk_scored {T} _ _ _.
Arguments sc_trend {T} _.
Arguments real_score {T} _.
Arguments score_breakdown {T} _.



Section Batch.

(** The dictionaries of a batch are values of [T]; [fields] reads the
    documented keys, whatever other keys a dictionary has. *)
Context {T : Type}.
Variable fields : T -> trend_data.
Variable fromisoformat : pystr -> option datetime.
Variable re_match : string -> pystr -> bool.

(** The body of the loop of [process_all_trends]. *)
Definition score_trend (trend : T) : result (scored T) :=
  let d := fields trend in
  score <- calculate_real_score fromisoformat re_match d ;;
  longevity <-
    calculate_longevity_factor fromisoformat
      (get (td_first_seen d) []) (get (td_last_seen d) []) ;;
  Ok (mk_scored trend score
        (mk_breakdown
           (get (td_raw_heat_score d) 0)
           (calculate_platform_multiplier (get (td_platform_count d) 1%Z))
           longevity
           (calculate_marketing_penalty re_match
              (get (td_keyword d) []) (get (td_is_marketing d) false)))).

Fixpoint score_trends (trends : list T) : result (list (scored T)) :=
  match trends with
  | [] => Ok []
  | trend :: rest =>
      s <- score_trend trend ;;
      ss <- score_trends rest ;;
      Ok (s :: ss)
  end.

Definition process_all_trends (trends : list T) : result (list (scored T)) :=
  processed <- score_trends trends ;;
  Ok (sort_reverse Rltb real_score processed).

End Batch.

(** The score a breakdown accounts for. *)
Definition breakdown_score (b : breakdown) : R :=
  round2 (bd_base_heat b * bd_platform_multiplier b * bd_longevity_factor b
          * (1 - bd_marketing_penalty b)).







Section BatchFacts.

Context {T : Type}.
Variable fields : T -> trend_data.
Variable fromisoformat : pystr -> option datetime.
Variable re_match : string -> pystr -> bool.




Lemma calculate_real_score_value (d : trend_data) :
  calculate_real_score fromisoformat re_match d
  = Ok (round2
          (get (td_raw_heat_score d) 0
           * calculate_platform_multiplier (get (td_platform_count d) 1%Z)
           * longevity_value fromisoformat
               (get (td_first_seen d) []) (get (td_last_seen d) [])
           * (1 - calculate_marketing_penalty re_match
                    (get (td_keyword d) []) (get (td_is_marketing d) false)))).
Proof.
  unfold calculate_real_score.
  now rewrite calculate_longevity_factor_value.
Qed.



Lemma score_trend_value (trend : T) :
  exists s,
    score_trend fields fromisoformat re_match trend = Ok s
    /\ sc_trend s = trend
    /\ calculate_real_score fromisoformat re_match (fields trend)
       = Ok (real_score s)
    /\ real_score s = breakdown_score (score_breakdown s)
    /\ bd_base_heat (score_breakdown s)
       = get (td_raw_heat_score (fields trend)) 0.
Proof.
  unfold score_trend.
  rewrite calculate_real_score_value, calculate_longevity_factor_value.
  simpl. eexists. split; [ reflexivity | ]. simpl.
  repeat split.
Qed.

Lemma score_trends_value (trends : list T) :
  exists processed,
    score_trends fields fromisoformat re_match trends = Ok processed
    /\ map sc_trend processed = trends
    /\ Forall
         (fun s =>
            calculate_real_score fromisoformat re_match (fields (sc_trend s))
            = Ok (real_score s)
            /\ real_score s = breakdown_score (score_breakdown s))
         processed.
Proof.
  induction trends as [ | trend trends [ss [Hss [Hmap Hall]]]]; simpl.
  - exists []. repeat split. constructor.
  - destruct (score_trend_value trend) as [s [Hs [Ht [Hscore [Hbd _]]]]].
    rewrite Hs, Hss. simpl. exists (s :: ss).
    split; [ reflexivity | ]. simpl. split; [ now rewrite Ht, Hmap | ].
    constructor; [ rewrite Ht; now split | exact Hall ].
Qed.


End BatchFacts.

Section BatchAgain.

Context {T : Type}.
Variable fields : T -> trend_data.
Variable fromisoformat : pystr -> option datetime.
Variable re_match : string -> pystr -> bool.



End BatchAgain.




(** ** Instances *)






End RealScore.

(* ================================================================== *)
(** * fetchers/fetcher_manager.py                                      *)
(* ================================================================== *)

Module FetcherManager.
Local Open Scope Z_scope.

(** Opaque metadata of a source: a dictionary of strings. *)
Definition metadata := dict pystr.

(** An item as an adapter returns it.  [item_metadata] is [None] when the
    key is absent. *)
Record raw_item : Type := mk_raw_item {
  item_keyword : pystr;
  item_raw_heat_score : Z;
  item_timestamp : pystr;
  item_metadata : option metadata
}.

(** A value of [keyword_map]. *)
Record entry : Type := mk_entry {
  e_keyword : pystr;
  e_platforms : list pystr;
  e_raw_heat_scores : dict Z;
  e_total_raw_heat : Z;
  e_first_seen : pystr;
  e_metadata_by_platform : dict metadata
}.

(** A dictionary of the returned list. *)
Record merged_trend : Type := mk_merged_trend {
  keyword : pystr;
  platforms : list pystr;
  platform_count : Z;
  raw_heat_score : Z;
  heat_by_platform : dict Z;
  first_seen : pystr;
  last_seen : pystr;
  metadata_of : dict metadata
}.

(** [fetcher.fetch_trending(limit)] as it ends in the cycle at hand. *)
Definition fetcher := Z -> result (list raw_item).

Record manager : Type := mk_manager {
  fetchers : dict fetcher;
  _cache : dict (list raw_item);
  _cache_time : dict datetime
}.

(** The readings of [datetime.now()] a cycle makes for a platform: in
    [_is_cache_valid] and when the cache is written. *)
Record clock : Type := mk_clock {
  at_check : pystr -> datetime;
  at_store : pystr -> datetime
}.

(** CACHE_TTL, in seconds. *)
Definition CACHE_TTL : Z := 60 * 5.

(** [x in l] for a list of strings. *)
Definition list_mem (x : pystr) (l : list pystr) : bool :=
  existsb (pystr_eqb x) l.

(** [l[:limit]]; a negative [limit] counts from the end. *)
Definition slice_to {A} (l : list A) (limit : Z) : list A :=
  if 0 <=? limit then firstn (Z.to_nat limit) l
  else firstn (List.length l - Z.to_nat (- limit))%nat l.

(** [sum(d.values())]. *)
Definition sum_values (d : dict Z) : Z :=
  fold_left Z.add (dict_values d) 0.

(** ** Characters *)

Definition in_range (lo hi c : N) : bool := ((lo <=? c) && (c <=? hi))%N.

(** [str.isspace] of one character. *)
Definition is_space (c : N) : bool :=
  in_range 9 13 c || in_range 28 32 c
  || (c =? 133)%N || (c =? 160)%N || (c =? 5760)%N
  || in_range 8192 8202 c || (c =? 8232)%N || (c =? 8233)%N
  || (c =? 8239)%N || (c =? 8287)%N || (c =? 12288)%N.

Definition is_ascii_upper (c : N) : bool := in_range 65 90 c.
Definition is_ascii_lower (c : N) : bool := in_range 97 122 c.
Definition is_ascii_digit (c : N) : bool := in_range 48 57 c.
Definition is_ascii_letter (c : N) : bool :=
  is_ascii_upper c || is_ascii_lower c.

(** The range [一-鿿] of the pattern. *)
Definition is_cjk (c : N) : bool := in_range 19968 40959 c.

Fixpoint drop_while {A} (p : A -> bool) (l : list A) : list A :=
  match l with
  | [] => []
  | x :: l' => if p x then drop_while p l' else l
  end.

(** [s.strip()]. *)
Definition strip (s : pystr) : pystr :=
  rev (drop_while is_space (rev (drop_while is_space s))).

(** The normalisation of the spec: trim, keep CJK ideographs, ASCII letters
    and digits only, lower-case the ASCII letters. *)
Definition spec_keep (c : N) : bool :=
  is_cjk c || is_ascii_letter c || is_ascii_digit c.

Definition ascii_lower (c : N) : N :=
  if is_ascii_upper c then (c + 32)%N else c.

Definition spec_normalize (raw : pystr) : pystr :=
  map ascii_lower (filter spec_keep (strip raw)).

Section Manager.

(** [str.isalnum] of a character beyond ASCII. *)
Variable unicode_isalnum : N -> bool.

(** [str.lower] of a character beyond ASCII (it may be several). *)
Variable unicode_lower : N -> pystr.

(** [\w] of a [str] pattern: an alphanumeric character or the
    underscore. *)
Definition is_word (c : N) : bool :=
  if (c <? 128)%N
  then is_ascii_letter c || is_ascii_digit c || (c =? 95)%N
  else unicode_isalnum c.

(** [re.sub(r'[^\w一-鿿]', '', s)]. *)
Definition remove_special (s : pystr) : pystr :=
  filter (fun c => is_word c || is_cjk c) s.

(** [s.lower()]. *)
Definition lower (s : pystr) : pystr :=
  flat_map (fun c => if (c <? 128)%N then [ascii_lower c]
                     else unicode_lower c) s.

Definition _normalize_keyword (keyword : pystr) : pystr :=
  let normalized := strip keyword in
  let normalized := remove_special normalized in
  let normalized := lower normalized in
  normalized.

(** ** The cache *)

Definition _is_cache_valid (m : manager) (now : datetime) (platform : pystr)
  : bool :=
  match dict_get (_cache_time m) platform with
  | None => false
  | Some t =>
      (* (now - t).total_seconds() < CACHE_TTL *)
      total_microseconds now - total_microseconds t <? CACHE_TTL * 1000000
  end.

Definition fetch_single_platform
    (clk : clock) (m : manager) (platform : pystr) (limit : Z)
    (use_cache : bool) : manager * result (list raw_item) :=
  match dict_get (fetchers m) platform with
  | None => (m, Raise ValueError)
  | Some fetcher =>
      if use_cache && _is_cache_valid m (at_check clk platform) platform
      then
        (m, Ok (slice_to (match dict_get (_cache m) platform with
                          | Some items => items
                          | None => []
                          end) limit))
      else
        match fetcher limit with
        | Raise e => (m, Raise e)
        | Ok data =>
            (mk_manager (fetchers m)
               (dict_set (_cache m) platform data)
               (dict_set (_cache_time m) platform (at_store clk platform)),
             Ok data)
        end
  end.

(** The tasks of [asyncio.gather] with [return_exceptions=True].  Each
    task reads and writes the cache entries of its own platform only, so
    the tasks are run one after the other, in the order of [platforms]. *)
Fixpoint gather
    (clk : clock) (m : manager) (platforms : list pystr) (limit : Z)
    (use_cache : bool) : manager * list (result (list raw_item)) :=
  match platforms with
  | [] => (m, [])
  | platform :: rest =>
      let (m1, r) := fetch_single_platform clk m platform limit use_cache in
      let (m2, rs) := gather clk m1 rest limit use_cache in
      (m2, r :: rs)
  end.

(** The loop over [zip(platforms, results)]. *)
Fixpoint collect (data : dict (list raw_item))
    (pairs : list (pystr * result (list raw_item)))
  : dict (list raw_item) :=
  match pairs with
  | [] => data
  | (platform, Raise _) :: rest => collect (dict_set data platform []) rest
  | (platform, Ok r) :: rest => collect (dict_set data platform r) rest
  end.

Definition fetch_all_platforms
    (clk : clock) (m : manager) (limit_per_platform : Z) (use_cache : bool)
  : manager * dict (list raw_item) :=
  let platforms := dict_keys (fetchers m) in
  let (m', results) := gather clk m platforms limit_per_platform use_cache in
  (m', collect [] (combine platforms results)).

(** ** The merge *)

(** The body of the inner loop of [fetch_and_merge], for one item. *)
Definition merge_item (platform : pystr) (keyword_map : dict entry)
    (item : raw_item) : dict entry :=
  let kw := item_keyword item in
  let normalized_keyword := _normalize_keyword kw in
  let keyword_map :=
    if dict_mem keyword_map normalized_keyword then keyword_map
    else dict_set keyword_map normalized_keyword
           (mk_entry kw [] [] 0 (item_timestamp item) []) in
  match dict_get keyword_map normalized_keyword with
  | None => keyword_map
  | Some e =>
      let plats :=
        if list_mem platform (e_platforms e) then e_platforms e
        else e_platforms e ++ [platform] in
      dict_set keyword_map normalized_keyword
        (mk_entry (e_keyword e) plats
           (dict_set (e_raw_heat_scores e) platform (item_raw_heat_score item))
           (e_total_raw_heat e + item_raw_heat_score item)
           (e_first_seen e)
           (dict_set (e_metadata_by_platform e) platform
              (match item_metadata item with
               | Some md => md
               | None => []
               end)))
  end.

Definition merge_platform (keyword_map : dict entry)
    (p : pystr * list raw_item) : dict entry :=
  fold_left (merge_item (fst p)) (snd p) keyword_map.

(** The loop over [all_data.items()]. *)
Definition build_keyword_map (all_data : dict (list raw_item)) : dict entry :=
  fold_left merge_platform all_data [].

(** The dictionary appended to [merged]; [now_iso] is what
    [datetime.now().isoformat()] reads at that moment. *)
Definition to_merged (now_iso : pystr) (data : entry) : merged_trend :=
  mk_merged_trend (e_keyword data) (e_platforms data)
    (Z.of_nat (List.length (e_platforms data)))
    (e_total_raw_heat data) (e_raw_heat_scores data)
    (e_first_seen data) now_iso (e_metadata_by_platform data).

(** The loop over [keyword_map.items()]; [now_isos n] is the clock reading
    of the [n]-th round. *)
Fixpoint to_merged_list (now_isos : nat -> pystr) (n : nat)
    (values : list entry) : list merged_trend :=
  match values with
  | [] => []
  | data :: rest =>
      to_merged (now_isos n) data :: to_merged_list now_isos (S n) rest
  end.

(** [fetch_and_merge] after [fetch_all_platforms] has returned. *)
Definition merge_all (now_isos : nat -> pystr)
    (all_data : dict (list raw_item)) : list merged_trend :=
  let keyword_map := build_keyword_map all_data in
  let merged := to_merged_list now_isos 0 (dict_values keyword_map) in
  sort_reverse Z.ltb raw_heat_score merged.

Definition fetch_and_merge
    (clk : clock) (now_isos : nat -> pystr) (m : manager)
    (limit_per_platform : Z) (use_cache : bool)
  : manager * list merged_trend :=
  let (m', all_data) :=
    fetch_all_platforms clk m limit_per_platform use_cache in
  (m', merge_all now_isos all_data).

(** ** What the statements below speak of *)


(** The cache entry and its time stamp for one platform. *)
Definition entry_at (platform : pystr) (m : manager)
  : option (list raw_item) * option datetime :=
  (dict_get (_cache m) platform, dict_get (_cache_time m) platform).


(** The merged list before it is sorted: [keyword_map] in insertion
    order. *)
Definition unsorted_merge (now_isos : nat -> pystr)
    (all_data : dict (list raw_item)) : list merged_trend :=
  to_merged_list now_isos 0 (dict_values (build_keyword_map all_data)).

(** The order the spec asks of two neighbours of the result: more heat
    first, then the earlier [first_seen], then the smaller keyword. *)
Definition spec_before (a b : merged_trend) : bool :=
  (raw_heat_score b <? raw_heat_score a)
  || ((raw_heat_score a =? raw_heat_score b)
      && (pystr_ltb (first_seen a) (first_seen b)
          || (pystr_eqb (first_seen a) (first_seen b)
              && negb (pystr_ltb (keyword b) (keyword a))))).

(** The entry a new keyword starts from, and the update of an entry. *)
Definition new_entry (item : raw_item) : entry :=
  mk_entry (item_keyword item) [] [] 0 (item_timestamp item) [].

Definition update_entry (platform : pystr) (item : raw_item) (e : entry)
  : entry :=
  mk_entry (e_keyword e)
    (if list_mem platform (e_platforms e) then e_platforms e
     else e_platforms e ++ [platform])
    (dict_set (e_raw_heat_scores e) platform (item_raw_heat_score item))
    (e_total_raw_heat e + item_raw_heat_score item)
    (e_first_seen e)
    (dict_set (e_metadata_by_platform e) platform
       (match item_metadata item with
        | Some md => md
        | None => []
        end)).

(** A manager with an empty cache, and a clock that stands still. *)
Definition manager_with (fs : dict fetcher) : manager := mk_manager fs [] [].

Definition clock_at (t : datetime) : clock :=
  mk_clock (fun _ => t) (fun _ => t).

Definition noon : datetime := mk_datetime 738886 43200 0.

Definition item_of (kw : string) (heat : Z) (ts : string) : raw_item :=
  mk_raw_item (py kw) heat (py ts) None.

(** One platform that lists the same topic twice, in two spellings. *)
Definition weibo_twice : fetcher :=
  fun _ => Ok [ item_of "Hot" 1 "2024-01-01T12:00:00";
                item_of "hot " 2 "2024-01-01T12:00:00" ].

(** Two topics of equal heat; the one listed first was seen later. *)
Definition weibo_tie : fetcher :=
  fun _ => Ok [ item_of "b" 5 "2024-01-02T00:00:00";
                item_of "a" 5 "2024-01-01T00:00:00" ].

(** A platform that times out, beside one that answers; the first has a
    snapshot in the cache. *)
Definition weibo_down : fetcher := fun _ => Raise TimeoutError.
Definition zhihu_up : fetcher :=
  fun _ => Ok [ item_of "a" 7 "2024-01-01T12:00:00" ].

Definition manager_down : manager :=
  mk_manager
    [ (py "weibo", weibo_down); (py "zhihu", zhihu_up) ]
    [ (py "weibo", [ item_of "old" 3 "2024-01-01T11:59:00" ]) ]
    [ (py "weibo", mk_datetime 738886 43140 0) ].

(** ** The cache under a failing adapter *)









Lemma dict_get_In_keys {V} (d : dict V) k v :
  dict_get d k = Some v -> In k (dict_keys d).
Proof.
  intros H. destruct (in_dec (list_eq_dec N.eq_dec) k (dict_keys d)) as [Hin | Hn];
    [ exact Hin | ].
  apply PyFacts.dict_get_None_keys in Hn. congruence.
Qed.



(** ** The merge *)

Lemma merge_item_unfold platform keyword_map item :
  merge_item platform keyword_map item
  = dict_set keyword_map (_normalize_keyword (item_keyword item))
      (update_entry platform item
         (match dict_get keyword_map (_normalize_keyword (item_keyword item))
          with
          | Some e => e
          | None => new_entry item
          end)).
Proof.
  unfold merge_item, dict_mem.
  destruct (dict_get keyword_map (_normalize_keyword (item_keyword item)))
    as [e | ] eqn:E.
  - rewrite E. reflexivity.
  - rewrite PyFacts.dict_get_set_same, PyFacts.dict_set_set. reflexivity.
Qed.

(** Two items meet in one entry exactly when their keys are equal: the key
    of the entry an item is folded into is its normalised keyword. *)
Lemma merge_item_key platform keyword_map item :
  dict_get (merge_item platform keyword_map item)
    (_normalize_keyword (item_keyword item))
  = Some (update_entry platform item
            (match dict_get keyword_map
                     (_normalize_keyword (item_keyword item)) with
             | Some e => e
             | None => new_entry item
             end))
  /\ forall k, k <> _normalize_keyword (item_keyword item) ->
       dict_get (merge_item platform keyword_map item) k
       = dict_get keyword_map k.
Proof.
  rewrite merge_item_unfold. split.
  - apply PyFacts.dict_get_set_same.
  - intros k Hk. now apply PyFacts.dict_get_set_other.
Qed.

Lemma list_mem_In x l : list_mem x l = true <-> In x l.
Proof.
  unfold list_mem. rewrite existsb_exists. split.
  - intros [y [Hy E]]. apply PyFacts.pystr_eqb_eq in E. now subst.
  - intros H. exists x. split; [ exact H | apply PyFacts.pystr_eqb_refl ].
Qed.

(** The platforms of an entry: no platform twice, and at least one. *)
Definition platforms_ok (e : entry) : Prop :=
  NoDup (e_platforms e) /\ e_platforms e <> [].

Lemma update_entry_platforms_ok platform item e :
  NoDup (e_platforms e) -> platforms_ok (update_entry platform item e).
Proof.
  intros Hnd. unfold platforms_ok, update_entry; simpl.
  destruct (list_mem platform (e_platforms e)) eqn:E.
  - split; [ exact Hnd | ].
    apply list_mem_In in E. intros H. rewrite H in E. contradiction.
  - split.
    + apply NoDup_app; [ exact Hnd | repeat constructor; intros [] | ].
      intros x Hx [<- | []].
      apply list_mem_In in Hx. congruence.
    + now destruct (e_platforms e).
Qed.

Lemma merge_item_platforms_ok platform keyword_map item :
  Forall platforms_ok (dict_values keyword_map) ->
  Forall platforms_ok (dict_values (merge_item platform keyword_map item)).
Proof.
  intros H. rewrite merge_item_unfold. apply Forall_forall.
  intros e He. apply PyFacts.dict_values_set in He.
  rewrite Forall_forall in H.
  destruct He as [-> | He]; [ | now apply H ].
  apply update_entry_platforms_ok.
  destruct (dict_get keyword_map (_normalize_keyword (item_keyword item)))
    as [e0 | ] eqn:E; [ | constructor ].
  apply H. clear - E.
  induction keyword_map as [ | [k v] d IH]; simpl in *; [ discriminate | ].
  destruct (pystr_eqb _ k); [ injection E as ->; now left | right; auto ].
Qed.

Lemma build_keyword_map_platforms_ok all_data :
  Forall platforms_ok (dict_values (build_keyword_map all_data)).
Proof.
  unfold build_keyword_map.
  assert (H : forall km, Forall platforms_ok (dict_values km) ->
            Forall platforms_ok
              (dict_values (fold_left merge_platform all_data km))).
  { induction all_data as [ | [platform items] rest IH]; intros km Hkm;
      simpl; [ exact Hkm | ].
    apply IH. unfold merge_platform; simpl. clear IH.
    revert km Hkm. induction items as [ | item items IHi]; intros km Hkm;
      simpl; [ exact Hkm | ].
    apply IHi. now apply merge_item_platforms_ok. }
  apply H. constructor.
Qed.

Lemma to_merged_list_In now_isos values : forall n t,
  In t (to_merged_list now_isos n values) ->
  exists e i, In e values /\ t = to_merged (now_isos i) e.
Proof.
  induction values as [ | e values IH]; intros n t; simpl; [ intros [] | ].
  intros [<- | H].
  - exists e, n. split; [ now left | reflexivity ].
  - destruct (IH _ _ H) as [e' [i [He' ->]]].
    exists e', i. split; [ now right | reflexivity ].
Qed.

(** The part of the MergedTrend invariant that holds of every returned
    item: [platform_count] is the number of platforms, no platform is
    listed twice, and there is at least one. *)
Lemma fetch_and_merge_platform_count clk now_isos m limit use_cache t :
  In t (snd (fetch_and_merge clk now_isos m limit use_cache)) ->
  platform_count t = Z.of_nat (List.length (platforms t))
  /\ NoDup (platforms t)
  /\ 1 <= platform_count t.
Proof.
  unfold fetch_and_merge.
  destruct (fetch_all_platforms clk m limit use_cache) as [m' all_data].
  simpl. unfold merge_all. intros H.
  apply (Permutation_in _ (PyFacts.sort_reverse_perm _ _ _)) in H.
  apply to_merged_list_In in H. destruct H as [e [i [He ->]]].
  pose proof (build_keyword_map_platforms_ok all_data) as Hok.
  rewrite Forall_forall in Hok. destruct (Hok e He) as [Hnd Hne].
  simpl. repeat split; trivial.
  destruct (e_platforms e); [ congruence | simpl; lia ].
Qed.

(** *** The heat of an entry when no platform lists a key twice *)

(** The pairs (platform, normalised keyword) of the adapter outputs, in
    the order in which the merge reads them. *)
Definition pairs_of (platform : pystr) (items : list raw_item)
  : list (pystr * pystr) :=
  map (fun item => (platform, _normalize_keyword (item_keyword item))) items.

Definition all_pairs (all_data : dict (list raw_item))
  : list (pystr * pystr) :=
  flat_map (fun p => pairs_of (fst p) (snd p)) all_data.

(** An entry under the key [k], after the pairs [seen] have been merged:
    its heat map has the platforms of the entry as keys, its total is the
    sum of the map, and each of its platforms listed [k]. *)
Definition heat_ok (seen : list (pystr * pystr)) (kv : pystr * entry)
  : Prop :=
  dict_keys (e_raw_heat_scores (snd kv)) = e_platforms (snd kv)
  /\ e_total_raw_heat (snd kv) = sum_values (e_raw_heat_scores (snd kv))
  /\ forall p, In p (e_platforms (snd kv)) -> In (p, fst kv) seen.

Lemma heat_ok_mono seen seen' kv :
  (forall x, In x seen -> In x seen') -> heat_ok seen kv -> heat_ok seen' kv.
Proof.
  intros Hsub [Hk [Ht Hp]]. repeat split; auto.
Qed.

Lemma dict_set_In {V} (d : dict V) k v kv :
  In kv (dict_set d k v) -> kv = (k, v) \/ In kv d.
Proof.
  induction d as [ | [k' v'] d IH]; simpl.
  - intros [<- | []]. now left.
  - destruct (pystr_eqb k k') eqn:E; simpl.
    + apply PyFacts.pystr_eqb_eq in E as <-. intros [<- | H]; auto.
    + intros [<- | H]; auto. destruct (IH H); auto.
Qed.

Lemma dict_get_In {V} (d : dict V) k v : dict_get d k = Some v -> In (k, v) d.
Proof.
  induction d as [ | [k' v'] d IH]; simpl; [ discriminate | ].
  destruct (pystr_eqb k k') eqn:E; [ | right; auto ].
  apply PyFacts.pystr_eqb_eq in E as <-. intros [= ->]. now left.
Qed.

Lemma sum_values_snoc (d : dict Z) k v :
  sum_values (d ++ [(k, v)]) = sum_values d + v.
Proof.
  unfold sum_values, dict_values. rewrite map_app, fold_left_app.
  reflexivity.
Qed.

Lemma merge_item_heat_ok seen platform keyword_map item :
  ~ In (platform, _normalize_keyword (item_keyword item)) seen ->
  Forall (heat_ok seen) keyword_map ->
  Forall
    (heat_ok ((platform, _normalize_keyword (item_keyword item)) :: seen))
    (merge_item platform keyword_map item).
Proof.
  intros Hnew Hok. rewrite merge_item_unfold.
  set (k := _normalize_keyword (item_keyword item)) in *.
  rewrite Forall_forall in Hok. apply Forall_forall. intros kv Hkv.
  apply dict_set_In in Hkv. destruct Hkv as [-> | Hkv].
  - assert (H0 : heat_ok seen
                   (k, match dict_get keyword_map k with
                       | Some e => e
                       | None => new_entry item
                       end)).
    { destruct (dict_get keyword_map k) as [e | ] eqn:E.
      - apply Hok. now apply dict_get_In.
      - repeat split. intros p []. }
    destruct H0 as [Hkeys [Htotal Hplat]]. simpl in *.
    set (e0 := match dict_get keyword_map k with
               | Some e => e
               | None => new_entry item
               end) in *.
    assert (Hfresh : ~ In platform (e_platforms e0)).
    { intros Hin. apply Hnew. now apply Hplat. }
    assert (Hmem : list_mem platform (e_platforms e0) = false).
    { destruct (list_mem platform (e_platforms e0)) eqn:E; trivial.
      apply list_mem_In in E. contradiction. }
    unfold heat_ok, update_entry; simpl. rewrite Hmem.
    rewrite PyFacts.dict_set_new by now rewrite Hkeys.
    repeat split.
    + unfold dict_keys. rewrite map_app. simpl. now rewrite <- Hkeys.
    + rewrite sum_values_snoc. now rewrite Htotal.
    + intros p Hp. apply in_app_iff in Hp.
      destruct Hp as [Hp | [<- | []]]; [ right; now apply Hplat | now left ].
  - eapply heat_ok_mono; [ | now apply Hok ].
    intros x Hx. now right.
Qed.

Lemma merge_platform_heat_ok platform items : forall seen keyword_map,
  NoDup (pairs_of platform items) ->
  (forall x, In x (pairs_of platform items) -> ~ In x seen) ->
  Forall (heat_ok seen) keyword_map ->
  Forall (heat_ok (pairs_of platform items ++ seen))
    (merge_platform keyword_map (platform, items)).
Proof.
  unfold merge_platform; simpl.
  induction items as [ | item items IH]; intros seen km Hnd Hfresh Hok;
    simpl; [ exact Hok | ].
  inversion Hnd as [ | ? ? Hitem Hnd']; subst.
  eapply Forall_impl;
    [ | apply (IH ((platform, _normalize_keyword (item_keyword item)) :: seen)) ].
  - intros kv. apply heat_ok_mono. intros x Hx.
    apply in_app_iff in Hx. simpl. rewrite in_app_iff.
    destruct Hx as [Hx | [<- | Hx]]; auto.
  - exact Hnd'.
  - intros x Hx [<- | Hs]; [ contradiction | ].
    apply (Hfresh x); [ now right | exact Hs ].
  - apply merge_item_heat_ok; [ | exact Hok ].
    apply Hfresh. now left.
Qed.

Lemma build_keyword_map_heat_ok all_data :
  NoDup (all_pairs all_data) ->
  Forall (heat_ok (all_pairs all_data)) (build_keyword_map all_data).
Proof.
  unfold build_keyword_map.
  assert (H : forall seen km,
            NoDup (all_pairs all_data) ->
            (forall x, In x (all_pairs all_data) -> ~ In x seen) ->
            Forall (heat_ok seen) km ->
            Forall (heat_ok (all_pairs all_data ++ seen))
              (fold_left merge_platform all_data km)).
  { induction all_data as [ | [platform items] rest IH];
      intros seen km Hnd Hfresh Hok; simpl; [ exact Hok | ].
    simpl in Hnd, Hfresh.
    apply NoDup_app_remove_l in Hnd as Hnd_rest.
    apply NoDup_app_remove_r in Hnd as Hnd_items.
    eapply Forall_impl;
      [ | apply (IH (pairs_of platform items ++ seen)) ].
    - intros kv. apply heat_ok_mono. intros x Hx.
      rewrite !in_app_iff in *. tauto.
    - exact Hnd_rest.
    - intros x Hx Hs. apply in_app_iff in Hs. destruct Hs as [Hs | Hs].
      + revert Hs Hx. clear - Hnd.
        induction (pairs_of platform items) as [ | y l IHl]; simpl;
          [ tauto | ].
        simpl in Hnd. inversion Hnd as [ | ? ? Hy Hnd']; subst.
        intros [<- | Hs] Hx; [ | now apply IHl ].
        apply Hy. apply in_app_iff. now right.
      + apply (Hfresh x); [ apply in_app_iff; now right | exact Hs ].
    - apply merge_platform_heat_ok; trivial.
      intros x Hx. apply Hfresh. apply in_app_iff. now left. }
  intros Hnd. specialize (H [] [] Hnd).
  rewrite app_nil_r in H. apply H; [ intros x _ [] | constructor ].
Qed.

(** Where no platform lists one normalised keyword twice, the total raw
    heat of every returned item is the sum of its per-platform heat. *)
Lemma fetch_and_merge_heat_sum clk now_isos m limit use_cache t :
  NoDup (all_pairs (snd (fetch_all_platforms clk m limit use_cache))) ->
  In t (snd (fetch_and_merge clk now_isos m limit use_cache)) ->
  raw_heat_score t = sum_values (heat_by_platform t)
  /\ dict_keys (heat_by_platform t) = platforms t.
Proof.
  unfold fetch_and_merge.
  destruct (fetch_all_platforms clk m limit use_cache) as [m' all_data].
  simpl. unfold merge_all. intros Hnd H.
  apply (Permutation_in _ (PyFacts.sort_reverse_perm _ _ _)) in H.
  apply to_merged_list_In in H. destruct H as [e [i [He ->]]].
  pose proof (build_keyword_map_heat_ok all_data Hnd) as Hok.
  rewrite Forall_forall in Hok.
  apply in_map_iff in He. destruct He as [[k e'] [<- Hin]].
  destruct (Hok _ Hin) as [Hkeys [Htotal _]]. simpl in *. now split.
Qed.

(** C1, at the input on which the code breaks it.  A platform that lists
    one topic twice (two spellings of one normalised key) yields a merged
    item whose [raw_heat_score] counts both listings, 1 + 2 = 3, while
    [heat_by_platform] keeps the last one only and sums to 2. *)
Theorem duplicate_key_breaks_heat_sum :
  exists t : merged_trend,
    snd (fetch_and_merge (clock_at noon) (fun _ => py "2024-01-01T12:00:01")
           (manager_with [ (py "weibo", weibo_twice) ]) 30 true)
    = [t]
    /\ platforms t = [py "weibo"]
    /\ platform_count t = 1
    /\ raw_heat_score t = 3
    /\ heat_by_platform t = [ (py "weibo", 2) ]
    /\ sum_values (heat_by_platform t) = 2.
Proof.
  eexists. split; [ vm_compute; reflexivity | ].
  repeat split.
Qed.

(** C3 (as amended).  The list [fetch_and_merge] returns holds the merged
    items ordered by descending total raw heat, and items of equal heat
    stand in the order in which their normalised keywords were first met
    while the adapter outputs were read. *)
Theorem fetch_and_merge_order clk now_isos m limit use_cache :
  let all_data := snd (fetch_all_platforms clk m limit use_cache) in
  let merged := snd (fetch_and_merge clk now_isos m limit use_cache) in
  StronglySorted (fun a b => raw_heat_score b <= raw_heat_score a) merged
  /\ Permutation merged (unsorted_merge now_isos all_data)
  /\ forall heat : Z,
       filter (fun t => raw_heat_score t =? heat) merged
       = filter (fun t => raw_heat_score t =? heat)
           (unsorted_merge now_isos all_data).
Proof.
  unfold fetch_and_merge.
  destruct (fetch_all_platforms clk m limit use_cache) as [m' all_data].
  simpl. unfold merge_all. fold (unsorted_merge now_isos all_data).
  split; [ | split ].
  - pose proof (PyFacts.sort_reverse_sorted Z.ltb raw_heat_score
                  PyFacts.Z_ltb_asym PyFacts.Z_ltb_negtrans
                  (unsorted_merge now_isos all_data)) as H.
    induction H as [ | a l Hs IH Ha]; constructor; trivial.
    eapply Forall_impl; [ | exact Ha ].
    intros b Hb. unfold PyFacts.key_ge in Hb. now apply Z.ltb_ge in Hb.
  - apply PyFacts.sort_reverse_perm.
  - intros heat.
    pose proof (PyFacts.sort_reverse_stable Z.ltb raw_heat_score
                  PyFacts.Z_ltb_negtrans heat
                  (unsorted_merge now_isos all_data)) as H.
    erewrite filter_ext in H by (intros; apply PyFacts.same_key_Z).
    rewrite H. apply filter_ext. intros; apply PyFacts.same_key_Z.
Qed.

(** C8, at an input on which the code breaks it.  The pattern keeps the
    underscore, which [\w] matches, where the spec removes every character
    that is no CJK ideograph, ASCII letter or digit. *)
Theorem normalize_keeps_underscore :
  _normalize_keyword (py " Hot_Topic ") = py "hot_topic"
  /\ spec_normalize (py " Hot_Topic ") = py "hottopic".
Proof.
  split; vm_compute; reflexivity.
Qed.

(** Where the string has no underscore and no character beyond ASCII
    other than CJK ideographs, the code normalises as the spec says. *)
Lemma normalize_agrees_with_spec (raw : pystr) :
  (forall c, is_cjk c = true -> unicode_lower c = [c]) ->
  Forall (fun c => c <> 95%N /\ ((c < 128)%N \/ is_cjk c = true)) raw ->
  _normalize_keyword raw = spec_normalize raw.
Proof.
  intros Hcjk Hraw.
  assert (Hstrip : Forall (fun c => c <> 95%N
                             /\ ((c < 128)%N \/ is_cjk c = true))
                     (strip raw)).
  { assert (Hdrop : forall l : pystr,
              Forall (fun c => c <> 95%N /\ ((c < 128)%N \/ is_cjk c = true)) l ->
              Forall (fun c => c <> 95%N /\ ((c < 128)%N \/ is_cjk c = true))
                (drop_while is_space l)).
    { induction 1 as [ | c l Hc Hl IH]; simpl; [ constructor | ].
      destruct (is_space c); [ exact IH | now constructor ]. }
    unfold strip. apply Forall_rev, Hdrop, Forall_rev, Hdrop, Hraw. }
  unfold _normalize_keyword, spec_normalize, remove_special, lower.
  induction Hstrip as [ | c l [Hne Hc] Hl IH]; simpl; [ reflexivity | ].
  assert (Hkeep : is_word c || is_cjk c = spec_keep c).
  { unfold is_word, spec_keep. destruct (N.ltb_spec c 128) as [Hlt | Hge].
    - assert (is_cjk c = false) as ->.
      { unfold is_cjk, in_range. destruct (N.leb_spec 19968 c); [ lia | ].
        reflexivity. }
      apply N.eqb_neq in Hne. rewrite Hne. simpl.
      now rewrite !orb_false_r.
    - destruct Hc as [Hc | Hc]; [ lia | ]. rewrite Hc.
      now rewrite orb_true_r. }
  rewrite Hkeep. destruct (spec_keep c) eqn:Ek; [ | exact IH ].
  simpl. rewrite IH. f_equal.
  destruct (N.ltb_spec c 128) as [Hlt | Hge]; [ reflexivity | ].
  destruct Hc as [Hc | Hc]; [ lia | ].
  rewrite (Hcjk c Hc). simpl. f_equal.
  unfold ascii_lower, is_ascii_upper, in_range.
  destruct (N.leb_spec c 90); [ lia | ]. now rewrite andb_false_r.
Qed.

(** A letter beyond ASCII that is no CJK ideograph stays as well, in its
    lower case, where the spec removes it. *)
Lemma normalize_keeps_unicode_letter (c : N) :
  (128 <= c)%N -> is_space c = false -> is_cjk c = false ->
  unicode_isalnum c = true ->
  _normalize_keyword [c] = unicode_lower c /\ spec_normalize [c] = [].
Proof.
  intros Hc Hsp Hcjk Hal.
  assert (Hlt : (c <? 128)%N = false) by now apply N.ltb_ge.
  unfold _normalize_keyword, spec_normalize, strip, remove_special, lower.
  simpl. rewrite Hsp. simpl. rewrite Hsp. simpl.
  unfold is_word. rewrite Hlt, Hal. simpl. rewrite Hlt, app_nil_r.
  split; [ reflexivity | ].
  unfold spec_keep, is_ascii_letter, is_ascii_digit, is_ascii_upper,
    is_ascii_lower, in_range. rewrite Hcjk.
  destruct (N.leb_spec c 90), (N.leb_spec c 122), (N.leb_spec c 57);
    try lia.
  now rewrite !andb_false_r.
Qed.


(* ------------------------------------------------------------------ *)
(** ** What a merged item stands for                                   *)
(* ------------------------------------------------------------------ *)

(** The listings [fetch_and_merge] reads, each with its platform, in the
    order of the two loops. *)
Definition listings (all_data : dict (list raw_item))
  : list (pystr * raw_item) :=
  flat_map (fun pl => map (pair (fst pl)) (snd pl)) all_data.

Definition key_of (item : raw_item) : pystr :=
  _normalize_keyword (item_keyword item).

(** The listing [l] has the key [k]; it has it on the platform [p]. *)
Definition lists (k : pystr) (l : pystr * raw_item) : bool :=
  pystr_eqb k (key_of (snd l)).

Definition lists_on (p k : pystr) (l : pystr * raw_item) : bool :=
  pystr_eqb p (fst l) && lists k l.

Definition heat_of (l : pystr * raw_item) : Z := item_raw_heat_score (snd l).

(** The entry [e] under the key [k], once the listings [seen] are merged. *)
Definition entry_ok (seen : list (pystr * raw_item)) (k : pystr) (e : entry)
  : Prop :=
  (exists l, find (lists k) seen = Some l
             /\ e_keyword e = item_keyword (snd l)
             /\ e_first_seen e = item_timestamp (snd l))
  /\ e_total_raw_heat e = sum_list (map heat_of (filter (lists k) seen))
  /\ e_platforms e = dict_keys (e_raw_heat_scores e)
  /\ forall p,
       dict_get (e_raw_heat_scores e) p
       = option_map heat_of (find (lists_on p k) (rev seen)).

Definition map_ok (seen : list (pystr * raw_item)) (keyword_map : dict entry)
  : Prop :=
  forall k,
    match dict_get keyword_map k with
    | Some e => entry_ok seen k e
    | None => find (lists k) seen = None
    end.

Lemma lists_on_lists p k l : lists_on p k l = true -> lists k l = true.
Proof.
  unfold lists_on. now rewrite andb_true_iff.
Qed.

Lemma entry_ok_other seen k e p item :
  k <> key_of item ->
  entry_ok seen k e -> entry_ok (seen ++ [(p, item)]) k e.
Proof.
  intros Hk [[l [Hl [Hkw Hfs]]] [Htotal [Hplat Hheat]]].
  assert (E : lists k (p, item) = false)
    by (unfold lists; simpl; now apply PyFacts.pystr_eqb_neq).
  repeat split.
  - exists l. rewrite PyFacts.find_app, Hl. auto.
  - rewrite filter_app. simpl. rewrite E, app_nil_r. exact Htotal.
  - exact Hplat.
  - intros q. rewrite rev_unit. simpl. unfold lists_on at 1.
    rewrite E, andb_false_r. apply Hheat.
Qed.

Lemma entry_ok_update seen p item e :
  entry_ok seen (key_of item) e ->
  entry_ok (seen ++ [(p, item)]) (key_of item) (update_entry p item e).
Proof.
  intros [[l [Hl [Hkw Hfs]]] [Htotal [Hplat Hheat]]].
  assert (E : lists (key_of item) (p, item) = true)
    by (unfold lists; simpl; apply PyFacts.pystr_eqb_refl).
  repeat split.
  - exists l. rewrite PyFacts.find_app, Hl. auto.
  - simpl. rewrite filter_app. simpl. rewrite E.
    rewrite map_app, PyFacts.sum_list_app, Htotal.
    unfold sum_list, heat_of; simpl. lia.
  - simpl. rewrite PyFacts.dict_keys_set, <- Hplat. reflexivity.
  - intros q. simpl. rewrite PyFacts.dict_get_set, rev_unit. simpl.
    unfold lists_on at 1. rewrite E, andb_true_r. simpl.
    destruct (pystr_eqb q p); [ reflexivity | apply Hheat ].
Qed.

Lemma entry_ok_new seen p item :
  find (lists (key_of item)) seen = None ->
  entry_ok (seen ++ [(p, item)]) (key_of item)
    (update_entry p item (new_entry item)).
Proof.
  intros Hnone.
  assert (E : lists (key_of item) (p, item) = true)
    by (unfold lists; simpl; apply PyFacts.pystr_eqb_refl).
  repeat split.
  - exists (p, item). rewrite PyFacts.find_app, Hnone. simpl. rewrite E. auto.
  - simpl. rewrite filter_app. simpl. rewrite E.
    apply PyFacts.filter_nil_find in Hnone. rewrite Hnone. reflexivity.
  - intros q. simpl. rewrite rev_unit. simpl.
    unfold lists_on at 1. rewrite E, andb_true_r. simpl.
    destruct (pystr_eqb q p); [ reflexivity | ].
    rewrite (PyFacts.find_none_rev (lists_on q (key_of item)) seen);
      [ reflexivity | ].
    apply (PyFacts.find_none_weaken (lists (key_of item))); trivial.
    intros x. apply lists_on_lists.
Qed.

Lemma merge_item_map_ok seen p keyword_map item :
  map_ok seen keyword_map ->
  map_ok (seen ++ [(p, item)]) (merge_item p keyword_map item).
Proof.
  intros Hok k. rewrite merge_item_unfold, PyFacts.dict_get_set.
  fold (key_of item).
  destruct (pystr_eqb k (key_of item)) eqn:E.
  - apply PyFacts.pystr_eqb_eq in E as ->.
    specialize (Hok (key_of item)).
    destruct (dict_get keyword_map (key_of item)) as [e | ].
    + now apply entry_ok_update.
    + now apply entry_ok_new.
  - apply PyFacts.pystr_eqb_neq in E. specialize (Hok k).
    destruct (dict_get keyword_map k) as [e | ].
    + now apply entry_ok_other.
    + rewrite PyFacts.find_app, Hok. simpl. unfold lists; simpl.
      now apply PyFacts.pystr_eqb_neq in E as ->.
Qed.

Lemma merge_platform_map_ok p items : forall seen keyword_map,
  map_ok seen keyword_map ->
  map_ok (seen ++ map (pair p) items)
    (merge_platform keyword_map (p, items)).
Proof.
  unfold merge_platform; simpl.
  induction items as [ | item items IH]; intros seen km Hok; simpl.
  - now rewrite app_nil_r.
  - replace (seen ++ (p, item) :: map (pair p) items)
      with ((seen ++ [(p, item)]) ++ map (pair p) items)
      by now rewrite <- app_assoc.
    apply IH. now apply merge_item_map_ok.
Qed.

Lemma build_keyword_map_ok all_data :
  map_ok (listings all_data) (build_keyword_map all_data).
Proof.
  unfold build_keyword_map.
  assert (H : forall seen km, map_ok seen km ->
            map_ok (seen ++ listings all_data)
              (fold_left merge_platform all_data km)).
  { induction all_data as [ | [p items] rest IH]; intros seen km Hok; simpl.
    - now rewrite app_nil_r.
    - rewrite app_assoc. apply IH. now apply merge_platform_map_ok. }
  apply (H [] []). intros k. reflexivity.
Qed.

Lemma merge_item_keys_NoDup p keyword_map item :
  NoDup (dict_keys keyword_map) ->
  NoDup (dict_keys (merge_item p keyword_map item)).
Proof.
  intros H. rewrite merge_item_unfold. now apply PyFacts.dict_set_keys_NoDup.
Qed.

Lemma build_keyword_map_keys_NoDup all_data :
  NoDup (dict_keys (build_keyword_map all_data)).
Proof.
  unfold build_keyword_map.
  assert (H : forall km, NoDup (dict_keys km) ->
            NoDup (dict_keys (fold_left merge_platform all_data km))).
  { induction all_data as [ | [p items] rest IH]; intros km Hkm; simpl;
      [ exact Hkm | ].
    apply IH. unfold merge_platform; simpl. clear IH.
    revert km Hkm. induction items as [ | item items IHi]; intros km Hkm;
      simpl; [ exact Hkm | ].
    apply IHi. now apply merge_item_keys_NoDup. }
  apply H. constructor.
Qed.

(** The key under which an entry stands is the normalised keyword the
    entry shows. *)
Lemma entry_ok_key seen k e :
  entry_ok seen k e -> _normalize_keyword (e_keyword e) = k.
Proof.
  intros [[l [Hl [Hkw _]]] _]. apply find_some in Hl.
  destruct Hl as [_ Hl]. unfold lists in Hl.
  apply PyFacts.pystr_eqb_eq in Hl. rewrite Hkw. now symmetry.
Qed.

Lemma build_keyword_map_entries all_data k e :
  In (k, e) (build_keyword_map all_data) ->
  entry_ok (listings all_data) k e /\ _normalize_keyword (e_keyword e) = k.
Proof.
  intros Hin.
  apply PyFacts.dict_In_get in Hin; [ | apply build_keyword_map_keys_NoDup ].
  pose proof (build_keyword_map_ok all_data k) as Hok. rewrite Hin in Hok.
  split; [ exact Hok | now apply entry_ok_key in Hok ].
Qed.

Lemma to_merged_list_fields now_isos values : forall n,
  map keyword (to_merged_list now_isos n values) = map e_keyword values
  /\ map raw_heat_score (to_merged_list now_isos n values)
     = map e_total_raw_heat values.
Proof.
  induction values as [ | e values IH]; intros n; simpl; [ now split | ].
  destruct (IH (S n)) as [-> ->]. now split.
Qed.

Lemma to_merged_list_of now_isos values e : forall n,
  In e values -> exists i, In (to_merged (now_isos i) e)
                             (to_merged_list now_isos n values).
Proof.
  induction values as [ | e' values IH]; intros n; simpl; [ intros [] | ].
  intros [-> | H].
  - exists n. now left.
  - destruct (IH (S n) H) as [i Hi]. exists i. now right.
Qed.

(** Every item [merge_all] returns is an entry of [keyword_map] that
    accounts for the listings with its key. *)
Lemma merge_all_entries now_isos all_data t :
  In t (merge_all now_isos all_data) ->
  exists e i,
    t = to_merged (now_isos i) e
    /\ entry_ok (listings all_data) (_normalize_keyword (keyword t)) e.
Proof.
  unfold merge_all. intros H.
  apply (Permutation_in _ (PyFacts.sort_reverse_perm _ _ _)) in H.
  apply to_merged_list_In in H. destruct H as [e [i [He ->]]].
  apply in_map_iff in He. destruct He as [[k e'] [<- Hin]].
  apply build_keyword_map_entries in Hin. destruct Hin as [Hok Hk].
  exists e', i. simpl. split; [ reflexivity | now rewrite Hk ].
Qed.

(** X14.  [fetch_and_merge] groups the listings by normalised keyword: no two
    returned items have the same key, every listing has an item with its
    key, and an item shows the keyword and the timestamp of the first
    listing with its key, in the order in which the listings are read
    (not the earliest timestamp). *)
Theorem fetch_and_merge_groups_by_key clk now_isos m limit use_cache :
  let seen := listings (snd (fetch_all_platforms clk m limit use_cache)) in
  let merged := snd (fetch_and_merge clk now_isos m limit use_cache) in
  NoDup (map (fun t => _normalize_keyword (keyword t)) merged)
  /\ (forall l, In l seen ->
        exists t, In t merged
                  /\ _normalize_keyword (keyword t) = key_of (snd l))
  /\ Forall
       (fun t =>
          exists l, find (lists (_normalize_keyword (keyword t))) seen = Some l
                    /\ keyword t = item_keyword (snd l)
                    /\ first_seen t = item_timestamp (snd l))
       merged.
Proof.
  unfold fetch_and_merge.
  destruct (fetch_all_platforms clk m limit use_cache) as [m' all_data].
  simpl. split; [ | split ].
  - unfold merge_all.
    eapply Permutation_NoDup;
      [ apply Permutation_map; symmetry; apply PyFacts.sort_reverse_perm | ].
    rewrite <- map_map.
    rewrite (proj1 (to_merged_list_fields now_isos _ 0)).
    pose proof (build_keyword_map_keys_NoDup all_data) as Hnd.
    assert (E : map _normalize_keyword
                  (map e_keyword (dict_values (build_keyword_map all_data)))
                = dict_keys (build_keyword_map all_data)).
    { unfold dict_values, dict_keys. rewrite !map_map.
      apply map_ext_in. intros [k e] Hin.
      now apply build_keyword_map_entries in Hin. }
    now rewrite E.
  - intros l Hl.
    pose proof (build_keyword_map_ok all_data (key_of (snd l))) as Hok.
    destruct (dict_get (build_keyword_map all_data) (key_of (snd l)))
      as [e | ] eqn:E.
    + apply PyFacts.dict_get_In_values in E as Hin.
      destruct (to_merged_list_of now_isos _ e 0%nat Hin) as [i Hi].
      exists (to_merged (now_isos i) e). split.
      * unfold merge_all.
        eapply Permutation_in;
          [ symmetry; apply PyFacts.sort_reverse_perm | exact Hi ].
      * simpl. now apply entry_ok_key in Hok.
    + exfalso. apply (find_none _ _ Hok) in Hl.
      unfold lists in Hl. now rewrite PyFacts.pystr_eqb_refl in Hl.
  - apply Forall_forall. intros t Ht.
    apply merge_all_entries in Ht.
    destruct Ht as [e [i [-> [[l [Hl [Hkw Hfs]]] _]]]].
    exists l. simpl in *. auto.
Qed.

(** X15.  The total raw heat of a returned item is the sum of the heat of every
    listing with its key, on whatever platform; its per-platform heat map
    has the platforms of the item as keys, and holds for each of them the
    heat of the last listing the platform has with that key. *)
Theorem merged_heat_counts_every_listing clk now_isos m limit use_cache :
  let seen := listings (snd (fetch_all_platforms clk m limit use_cache)) in
  Forall
    (fun t =>
       let k := _normalize_keyword (keyword t) in
       raw_heat_score t = sum_list (map heat_of (filter (lists k) seen))
       /\ dict_keys (heat_by_platform t) = platforms t
       /\ forall p,
            dict_get (heat_by_platform t) p
            = option_map heat_of (find (lists_on p k) (rev seen)))
    (snd (fetch_and_merge clk now_isos m limit use_cache)).
Proof.
  unfold fetch_and_merge.
  destruct (fetch_all_platforms clk m limit use_cache) as [m' all_data].
  simpl. apply Forall_forall. intros t Ht.
  apply merge_all_entries in Ht.
  destruct Ht as [e [i [-> [_ [Htotal [Hplat Hheat]]]]]].
  simpl in *. auto.
Qed.

(** X16.  A platform is among the platforms of a returned item exactly when it
    has a listing with the key of the item. *)
Theorem merged_platforms_list_the_key clk now_isos m limit use_cache :
  let seen := listings (snd (fetch_all_platforms clk m limit use_cache)) in
  Forall
    (fun t =>
       forall p,
         In p (platforms t)
         <-> exists item,
               In (p, item) seen
               /\ key_of item = _normalize_keyword (keyword t))
    (snd (fetch_and_merge clk now_isos m limit use_cache)).
Proof.
  unfold fetch_and_merge.
  destruct (fetch_all_platforms clk m limit use_cache) as [m' all_data].
  simpl. apply Forall_forall. intros t Ht.
  apply merge_all_entries in Ht.
  destruct Ht as [e [i [-> [_ [_ [Hplat Hheat]]]]]].
  simpl in *. intros p. rewrite Hplat. specialize (Hheat p). split.
  - intros Hin.
    destruct (dict_get (e_raw_heat_scores e) p) as [h | ] eqn:E.
    + destruct (find (lists_on p (_normalize_keyword (e_keyword e)))
                  (rev (listings all_data))) as [[q item] | ] eqn:F;
        [ | discriminate ].
      apply find_some in F. destruct F as [Hl Hon].
      unfold lists_on, lists in Hon. simpl in Hon.
      apply andb_true_iff in Hon. destruct Hon as [Hq Hk].
      apply PyFacts.pystr_eqb_eq in Hq, Hk. subst q.
      exists item. split; [ now apply in_rev | now symmetry ].
    + apply PyFacts.dict_get_None_keys in E. contradiction.
  - intros [item [Hin Hk]].
    destruct (dict_get (e_raw_heat_scores e) p) as [h | ] eqn:E;
      [ now apply dict_get_In_keys in E | ].
    exfalso. symmetry in Hheat.
    destruct (find (lists_on p (_normalize_keyword (e_keyword e)))
                (rev (listings all_data))) eqn:F; [ discriminate | ].
    apply in_rev in Hin. apply (find_none _ _ F (p, item)) in Hin as Hno.
    unfold lists_on, lists in Hno. simpl in Hno.
    now rewrite Hk, !PyFacts.pystr_eqb_refl in Hno.
Qed.

Lemma sum_entries_set (keyword_map : dict entry) k e :
  sum_list (map e_total_raw_heat (dict_values (dict_set keyword_map k e)))
  = sum_list (map e_total_raw_heat (dict_values keyword_map))
    - match dict_get keyword_map k with
      | Some e0 => e_total_raw_heat e0
      | None => 0
      end
    + e_total_raw_heat e.
Proof.
  induction keyword_map as [ | [k' e'] km IH]; simpl.
  - unfold sum_list; simpl. lia.
  - destruct (pystr_eqb k k'); simpl.
    + rewrite !PyFacts.sum_list_cons. lia.
    + rewrite !PyFacts.sum_list_cons, IH. lia.
Qed.

(** X17.  No heat is lost or made in the merge: the heat of the returned items
    adds up to the heat of all listings. *)
Theorem fetch_and_merge_conserves_heat clk now_isos m limit use_cache :
  sum_list
    (map raw_heat_score (snd (fetch_and_merge clk now_isos m limit use_cache)))
  = sum_list
      (map heat_of
         (listings (snd (fetch_all_platforms clk m limit use_cache)))).
Proof.
  unfold fetch_and_merge.
  destruct (fetch_all_platforms clk m limit use_cache) as [m' all_data].
  simpl. unfold merge_all.
  rewrite (PyFacts.sum_list_perm _ _
             (Permutation_map raw_heat_score
                (PyFacts.sort_reverse_perm Z.ltb raw_heat_score _))).
  rewrite (proj2 (to_merged_list_fields now_isos _ 0)).
  unfold build_keyword_map.
  assert (H : forall km,
            sum_list (map e_total_raw_heat
                        (dict_values (fold_left merge_platform all_data km)))
            = sum_list (map e_total_raw_heat (dict_values km))
              + sum_list (map heat_of (listings all_data))).
  { induction all_data as [ | [p items] rest IH]; intros km; simpl;
      [ unfold sum_list at 3; simpl; lia | ].
    rewrite IH, map_app, PyFacts.sum_list_app.
    enough (E : sum_list (map e_total_raw_heat
                            (dict_values (merge_platform km (p, items))))
                = sum_list (map e_total_raw_heat (dict_values km))
                  + sum_list (map heat_of (map (pair p) items))) by lia.
    unfold merge_platform; simpl. clear IH.
    revert km. induction items as [ | item items IHi]; intros km; simpl;
      [ unfold sum_list at 3; simpl; lia | ].
    rewrite IHi, PyFacts.sum_list_cons.
    enough (E : sum_list (map e_total_raw_heat
                            (dict_values (merge_item p km item)))
                = sum_list (map e_total_raw_heat (dict_values km))
                  + item_raw_heat_score item) by (unfold heat_of; simpl; lia).
    rewrite merge_item_unfold, sum_entries_set.
    destruct (dict_get km _); simpl; lia. }
  rewrite H. unfold sum_list at 1. simpl. lia.
Qed.


(* ------------------------------------------------------------------ *)
(** ** Keys of ASCII keywords                                          *)
(* ------------------------------------------------------------------ *)

(** A character of [a-z0-9_]. *)
Definition is_key_char (c : N) : bool :=
  is_ascii_lower c || is_ascii_digit c || (c =? 95)%N.

(** A property of the ASCII characters holds when it holds of each of the
    128. *)
Lemma ascii_cases (P : N -> bool) :
  forallb P (map N.of_nat (seq 0 128)) = true ->
  forall c, (c < 128)%N -> P c = true.
Proof.
  intros H c Hc. rewrite forallb_forall in H. apply H.
  apply in_map_iff. exists (N.to_nat c). split; [ apply N2Nat.id | ].
  apply in_seq. lia.
Qed.

Lemma ascii_kept_is_key_char (c : N) :
  (c < 128)%N -> is_word c || is_cjk c = true ->
  is_key_char (ascii_lower c) = true.
Proof.
  intros Hc Hkeep.
  pose proof (ascii_cases
                (fun c => implb (is_word c || is_cjk c)
                            (is_key_char (ascii_lower c)))
                ltac:(vm_compute; reflexivity) c Hc) as H.
  cbv beta in H. now rewrite Hkeep in H.
Qed.

Lemma key_char_fixed (c : N) :
  is_key_char c = true ->
  (c <? 128)%N = true /\ is_space c = false
  /\ is_word c || is_cjk c = true /\ ascii_lower c = c.
Proof.
  intros Hk.
  assert (Hc : (c < 128)%N).
  { unfold is_key_char, is_ascii_lower, is_ascii_digit, in_range in Hk.
    destruct (N.leb_spec c 122), (N.leb_spec c 57), (N.eqb_spec c 95);
      lia. }
  pose proof (ascii_cases
                (fun c => implb (is_key_char c)
                            (negb (is_space c) && (is_word c || is_cjk c)
                             && (ascii_lower c =? c)%N))
                ltac:(vm_compute; reflexivity) c Hc) as H.
  cbv beta in H. rewrite Hk in H. simpl in H.
  rewrite !andb_true_iff, negb_true_iff, N.eqb_eq in H.
  destruct H as [[Hs Hw] Hl]. repeat split; trivial.
  now apply N.ltb_lt.
Qed.

Lemma drop_while_Forall {A} (p : A -> bool) (P : A -> Prop) (l : list A) :
  Forall P l -> Forall P (drop_while p l).
Proof.
  induction 1 as [ | c l Hc Hl IH]; simpl; [ constructor | ].
  destruct (p c); [ exact IH | now constructor ].
Qed.

Lemma drop_while_none (l : pystr) :
  Forall (fun c => is_space c = false) l -> drop_while is_space l = l.
Proof.
  destruct 1 as [ | c l Hc Hl]; simpl; [ reflexivity | now rewrite Hc ].
Qed.

(** X18.  On an ASCII keyword the key is made of [a-z0-9_] only, and it is its
    own key: normalising it again changes nothing. *)
Theorem normalize_ascii_idempotent (raw : pystr) :
  Forall (fun c => (c < 128)%N) raw ->
  forallb is_key_char (_normalize_keyword raw) = true
  /\ _normalize_keyword (_normalize_keyword raw) = _normalize_keyword raw.
Proof.
  intros Hraw.
  assert (Hkey : Forall (fun c => is_key_char c = true)
                   (_normalize_keyword raw)).
  { unfold _normalize_keyword.
    assert (Hstrip : Forall (fun c => (c < 128)%N) (strip raw)).
    { unfold strip.
      apply Forall_rev, drop_while_Forall, Forall_rev, drop_while_Forall, Hraw. }
    unfold remove_special, lower.
    induction Hstrip as [ | c l Hc Hl IH]; simpl; [ constructor | ].
    destruct (is_word c || is_cjk c) eqn:Ek; [ | exact IH ].
    simpl. apply N.ltb_lt in Hc as Hlt. rewrite Hlt. simpl.
    constructor; [ now apply ascii_kept_is_key_char | exact IH ]. }
  split; [ apply forallb_forall; now apply Forall_forall | ].
  set (n := _normalize_keyword raw) in *. clearbody n.
  unfold _normalize_keyword.
  assert (Hstrip : strip n = n).
  { unfold strip.
    assert (Hs : Forall (fun c => is_space c = false) n).
    { eapply Forall_impl; [ | exact Hkey ].
      intros c Hc. now apply key_char_fixed in Hc. }
    rewrite (drop_while_none n Hs).
    rewrite (drop_while_none (rev n)) by now apply Forall_rev.
    apply rev_involutive. }
  rewrite Hstrip. unfold remove_special, lower.
  induction Hkey as [ | c l Hc Hl IH]; simpl; [ reflexivity | ].
  apply key_char_fixed in Hc. destruct Hc as [Hlt [_ [Hw Hlow]]].
  rewrite Hw. simpl. rewrite Hlt, Hlow. simpl. f_equal.
  apply IH. unfold strip.
  assert (Hs : Forall (fun c => is_space c = false) l).
  { eapply Forall_impl; [ | exact Hl ].
    intros c' Hc'. now apply key_char_fixed in Hc'. }
  rewrite (drop_while_none l Hs).
  rewrite (drop_while_none (rev l)) by now apply Forall_rev.
  apply rev_involutive.
Qed.

End Manager.

(** Two merged items of equal heat come back in the order the adapter
    listed them, although the second was seen first and has the smaller
    keyword. *)
Lemma fetch_and_merge_tie_order :
  exists b a : merged_trend,
    snd (fetch_and_merge PyLib.isalnum_ascii_only PyLib.lower_ascii_only
           (clock_at noon) (fun _ => py "2024-01-03T00:00:00")
           (manager_with [ (py "weibo", weibo_tie) ]) 30 true)
    = [b; a]
    /\ keyword b = py "b" /\ keyword a = py "a"
    /\ raw_heat_score b = raw_heat_score a
    /\ pystr_ltb (first_seen a) (first_seen b) = true
    /\ pystr_ltb (keyword a) (keyword b) = true
    /\ spec_before b a = false.
Proof.
  do 2 eexists. split; [ vm_compute; reflexivity | ].
  repeat split.
Qed.


(* ------------------------------------------------------------------ *)
(** ** Registration, the cache and its clearing                        *)
(* ------------------------------------------------------------------ *)

(** [FetcherManager()]. *)
Definition new_manager : manager := mk_manager [] [] [].

Definition register_fetcher (m : manager) (name : pystr) (f : fetcher)
  : manager :=
  mk_manager (dict_set (fetchers m) name f) (_cache m) (_cache_time m).

(** A manager after the registrations [regs], made in that order. *)
Definition registered (regs : list (pystr * fetcher)) : manager :=
  fold_left (fun m r => register_fetcher m (fst r) (snd r)) regs new_manager.

(** [d.pop(k, None)]. *)
Definition dict_pop {V} (d : dict V) (k : pystr) : dict V :=
  filter (fun kv => negb (pystr_eqb k (fst kv))) d.

(** [clear_cache(platform)]; [None] and the empty string are both false
    in [if platform:]. *)
Definition clear_cache (m : manager) (platform : option pystr) : manager :=
  match platform with
  | Some (c :: p) =>
      mk_manager (fetchers m)
        (dict_pop (_cache m) (c :: p)) (dict_pop (_cache_time m) (c :: p))
  | Some [] | None => mk_manager (fetchers m) [] []
  end.

(** The age of a cache entry written at [stored] when read at [now]. *)
Definition age_us (now stored : datetime) : Z :=
  total_microseconds now - total_microseconds stored.

Lemma dict_get_pop_same {V} (d : dict V) k : dict_get (dict_pop d k) k = None.
Proof.
  unfold dict_pop. induction d as [ | [k' v] d IH]; simpl; [ reflexivity | ].
  destruct (pystr_eqb k k') eqn:E; simpl; [ exact IH | ].
  now rewrite E.
Qed.

Lemma dict_get_pop_other {V} (d : dict V) k q :
  q <> k -> dict_get (dict_pop d k) q = dict_get d q.
Proof.
  intros Hne. unfold dict_pop.
  induction d as [ | [k' v] d IH]; simpl; [ reflexivity | ].
  destruct (pystr_eqb k k') eqn:E; simpl.
  - apply PyFacts.pystr_eqb_eq in E as <-.
    apply PyFacts.pystr_eqb_neq in Hne. now rewrite Hne.
  - now rewrite IH.
Qed.

(** X8.  However fetchers are registered, every platform name is held once,
    and a name stands for the fetcher registered under it last. *)
Theorem registered_names_unique (regs : list (pystr * fetcher))
    (name : pystr) :
  NoDup (dict_keys (fetchers (registered regs)))
  /\ dict_get (fetchers (registered regs)) name
     = option_map snd
         (find (fun r => pystr_eqb name (fst r)) (rev regs)).
Proof.
  unfold registered.
  induction regs as [ | r regs IH] using rev_ind; simpl.
  - split; [ constructor | reflexivity ].
  - rewrite fold_left_app, rev_app_distr. simpl.
    destruct IH as [Hnd Hget]. split.
    + now apply PyFacts.dict_set_keys_NoDup.
    + rewrite PyFacts.dict_get_set. destruct (pystr_eqb name (fst r)); trivial.
Qed.

(** X9.  A call of [fetch_single_platform] that raises leaves the manager as
    it was; it raises ValueError for a platform that is not registered,
    and otherwise only what the fetcher of the platform raised. *)
Theorem fetch_single_platform_raises
    clk m platform limit use_cache e :
  snd (fetch_single_platform clk m platform limit use_cache) = Raise e ->
  fst (fetch_single_platform clk m platform limit use_cache) = m
  /\ ((dict_get (fetchers m) platform = None /\ e = ValueError)
      \/ exists f, dict_get (fetchers m) platform = Some f
                   /\ f limit = Raise e).
Proof.
  unfold fetch_single_platform.
  destruct (dict_get (fetchers m) platform) as [f | ]; simpl.
  - destruct (use_cache && _); simpl; [ discriminate | ].
    destruct (f limit) as [data | e'] eqn:E; simpl; [ discriminate | ].
    intros [= ->]. split; [ reflexivity | ]. right. now exists f.
  - intros [= <-]. split; [ reflexivity | ]. now left.
Qed.

(** X10.  What a fetch that missed the cache returned is what the cache
    answers while it is younger than CACHE_TTL: a cache-aware call then
    returns the first [limit'] of the stored items, without asking the
    fetcher and without changing the manager. *)
Theorem cache_round_trip
    clk clk' m platform limit limit' use_cache f data :
  dict_get (fetchers m) platform = Some f ->
  use_cache && _is_cache_valid m (at_check clk platform) platform = false ->
  f limit = Ok data ->
  age_us (at_check clk' platform) (at_store clk platform)
  < CACHE_TTL * 1000000 ->
  exists m1,
    fetch_single_platform clk m platform limit use_cache = (m1, Ok data)
    /\ dict_get (_cache m1) platform = Some data
    /\ fetch_single_platform clk' m1 platform limit' true
       = (m1, Ok (slice_to data limit')).
Proof.
  intros Hf Hmiss Hdata Hage.
  unfold fetch_single_platform at 1. rewrite Hf, Hmiss, Hdata.
  eexists. split; [ reflexivity | ].
  split; [ simpl; apply PyFacts.dict_get_set_same | ].
  unfold fetch_single_platform, _is_cache_valid.
  cbn [fetchers _cache _cache_time].
  rewrite Hf, !PyFacts.dict_get_set_same.
  unfold age_us in Hage. apply Z.ltb_lt in Hage. now rewrite Hage.
Qed.

(** X11.  An entry that has reached the age CACHE_TTL is not served any more:
    the fetcher is asked, and what it returns replaces the entry. *)
Theorem cache_expires
    clk m platform limit f data stored :
  dict_get (fetchers m) platform = Some f ->
  dict_get (_cache_time m) platform = Some stored ->
  CACHE_TTL * 1000000 <= age_us (at_check clk platform) stored ->
  f limit = Ok data ->
  exists m1,
    fetch_single_platform clk m platform limit true = (m1, Ok data)
    /\ dict_get (_cache m1) platform = Some data
    /\ dict_get (_cache_time m1) platform = Some (at_store clk platform)
    /\ forall q, q <> platform -> entry_at q m1 = entry_at q m.
Proof.
  intros Hf Ht Hage Hdata.
  unfold fetch_single_platform, _is_cache_valid. rewrite Hf, Ht.
  unfold age_us in Hage. apply Z.ltb_ge in Hage. rewrite Hage. simpl.
  rewrite Hdata. eexists. split; [ reflexivity | ]. simpl.
  rewrite !PyFacts.dict_get_set_same. repeat split.
  intros q Hq. unfold entry_at; simpl.
  now rewrite !PyFacts.dict_get_set_other.
Qed.

(** X12.  After [clear_cache], for the platform named or for all platforms, the
    next cache-aware fetch of the platform asks its fetcher, however fresh
    the entry was; clearing one platform leaves the entries of the others
    alone. *)
Theorem clear_cache_forces_fetch
    clk m platform limit f data (target : option pystr) :
  dict_get (fetchers m) platform = Some f ->
  f limit = Ok data ->
  target = None \/ target = Some [] \/ target = Some platform ->
  snd (fetch_single_platform clk (clear_cache m target) platform limit true)
  = Ok data
  /\ (platform <> [] ->
      forall q, q <> platform ->
        entry_at q (clear_cache m (Some platform)) = entry_at q m).
Proof.
  intros Hf Hdata Htarget. split.
  - assert (Hinvalid : _is_cache_valid (clear_cache m target)
                         (at_check clk platform) platform = false).
    { unfold _is_cache_valid.
      destruct Htarget as [-> | [-> | ->]]; simpl; trivial.
      destruct platform as [ | c p]; simpl; trivial.
      now rewrite dict_get_pop_same. }
    unfold fetch_single_platform. rewrite Hinvalid.
    assert (Hsame : fetchers (clear_cache m target) = fetchers m).
    { destruct target as [[ | c p] | ]; reflexivity. }
    rewrite Hsame, Hf. simpl. now rewrite Hdata.
  - intros Hne q Hq. destruct platform as [ | c p]; [ congruence | ].
    unfold entry_at; simpl. now rewrite !dict_get_pop_other.
Qed.


(* ------------------------------------------------------------------ *)
(** ** A cycle in which every platform fails                           *)
(* ------------------------------------------------------------------ *)

Definition raised {A} (r : result A) : bool :=
  match r with
  | Raise _ => true
  | Ok _ => false
  end.

Lemma gather_all_raise clk m limit use_cache ps :
  (forall p, use_cache && _is_cache_valid m (at_check clk p) p = false) ->
  (forall p f, dict_get (fetchers m) p = Some f -> raised (f limit) = true) ->
  exists rs,
    gather clk m ps limit use_cache = (m, rs)
    /\ Forall (fun r => raised r = true) rs.
Proof.
  intros Hmiss Hfail. induction ps as [ | p ps [rs [Hrs Hall]]]; simpl.
  - exists []. split; [ reflexivity | constructor ].
  - assert (Hp : exists e, fetch_single_platform clk m p limit use_cache
                           = (m, Raise e)).
    { unfold fetch_single_platform.
      destruct (dict_get (fetchers m) p) as [f | ] eqn:E;
        [ | now exists ValueError ].
      rewrite Hmiss. specialize (Hfail p f E).
      destruct (f limit) as [data | e]; [ discriminate | now exists e ]. }
    destruct Hp as [e ->]. rewrite Hrs.
    exists (Raise e :: rs). split; [ reflexivity | now constructor ].
Qed.

Lemma collect_all_raise ps : forall rs data,
  Forall (fun r => raised r = true) rs ->
  Forall (fun pl => snd pl = []) data ->
  Forall (fun pl => snd pl = []) (collect data (combine ps rs)).
Proof.
  induction ps as [ | p ps IH]; intros rs data Hrs Hdata; simpl;
    [ exact Hdata | ].
  destruct Hrs as [ | r rs Hr Hrs]; simpl; [ exact Hdata | ].
  destruct r as [items | e]; [ discriminate | ].
  apply IH; [ exact Hrs | ].
  apply Forall_forall. intros kv Hkv. apply dict_set_In in Hkv.
  rewrite Forall_forall in Hdata.
  destruct Hkv as [-> | Hkv]; [ reflexivity | now apply Hdata ].
Qed.

(** X13.  When the fetch of every platform raises and no cache entry is served,
    [fetch_and_merge] still returns: it returns the empty list, and the
    manager with its cache is as it was. *)
Theorem all_fetches_fail_gives_no_trend
    unicode_isalnum unicode_lower clk now_isos m limit use_cache :
  (forall p, use_cache && _is_cache_valid m (at_check clk p) p = false) ->
  (forall p f, dict_get (fetchers m) p = Some f -> raised (f limit) = true) ->
  fetch_and_merge unicode_isalnum unicode_lower clk now_isos m limit use_cache
  = (m, []).
Proof.
  intros Hmiss Hfail. unfold fetch_and_merge, fetch_all_platforms.
  destruct (gather_all_raise clk m limit use_cache (dict_keys (fetchers m))
              Hmiss Hfail) as [rs [-> Hrs]].
  f_equal. unfold merge_all.
  pose proof (collect_all_raise (dict_keys (fetchers m)) rs [] Hrs
                (Forall_nil _)) as Hdata.
  assert (Hmap : build_keyword_map unicode_isalnum unicode_lower
                   (collect [] (combine (dict_keys (fetchers m)) rs)) = []).
  { unfold build_keyword_map.
    induction Hdata as [ | [p items] data Hp Hdata IH]; simpl;
      [ reflexivity | ].
    simpl in Hp. subst items. exact IH. }
  rewrite Hmap. reflexivity.
Qed.

(* ------------------------------------------------------------------ *)
(** ** Instances                                                       *)
(* ------------------------------------------------------------------ *)

(** A manager whose only platform answers, with an entry six minutes
    old at noon. *)
Definition manager_stale : manager :=
  mk_manager
    [ (py "zhihu", zhihu_up) ]
    [ (py "zhihu", [ item_of "old" 3 "2024-01-01T11:54:00" ]) ]
    [ (py "zhihu", mk_datetime 738886 42840 0) ].

(** One minute after noon. *)
Definition noon_01 : datetime := mk_datetime 738886 43260 0.

Lemma fetch_single_platform_raises_weibo_down :
  snd (fetch_single_platform (clock_at noon) manager_down (py "weibo") 30
         false)
  = Raise TimeoutError
  /\ fst (fetch_single_platform (clock_at noon) manager_down (py "weibo") 30
            false)
     = manager_down
  /\ ((dict_get (fetchers manager_down) (py "weibo") = None
       /\ TimeoutError = ValueError)
      \/ exists f, dict_get (fetchers manager_down) (py "weibo") = Some f
                   /\ f 30 = Raise TimeoutError).
Proof.
  split; [ reflexivity | ].
  exact (fetch_single_platform_raises (clock_at noon) manager_down
           (py "weibo") 30 false TimeoutError eq_refl).
Defined.

Lemma cache_round_trip_zhihu :
  (dict_get (fetchers manager_down) (py "zhihu") = Some zhihu_up
   /\ true && _is_cache_valid manager_down
               (at_check (clock_at noon) (py "zhihu")) (py "zhihu") = false
   /\ zhihu_up 30 = Ok [ item_of "a" 7 "2024-01-01T12:00:00" ]
   /\ age_us (at_check (clock_at noon_01) (py "zhihu"))
        (at_store (clock_at noon) (py "zhihu"))
      < CACHE_TTL * 1000000)
  /\ exists m1,
       fetch_single_platform (clock_at noon) manager_down (py "zhihu") 30 true
       = (m1, Ok [ item_of "a" 7 "2024-01-01T12:00:00" ])
       /\ dict_get (_cache m1) (py "zhihu")
          = Some [ item_of "a" 7 "2024-01-01T12:00:00" ]
       /\ fetch_single_platform (clock_at noon_01) m1 (py "zhihu") 10 true
          = (m1, Ok (slice_to [ item_of "a" 7 "2024-01-01T12:00:00" ] 10)).
Proof.
  assert (Hage : age_us (at_check (clock_at noon_01) (py "zhihu"))
                   (at_store (clock_at noon) (py "zhihu"))
                 < CACHE_TTL * 1000000) by (vm_compute; reflexivity).
  split; [ repeat split; exact Hage | ].
  exact (cache_round_trip (clock_at noon) (clock_at noon_01) manager_down
           (py "zhihu") 30 10 true zhihu_up
           [ item_of "a" 7 "2024-01-01T12:00:00" ]
           eq_refl eq_refl eq_refl Hage).
Defined.

Lemma cache_expires_after_six_minutes :
  (dict_get (fetchers manager_stale) (py "zhihu") = Some zhihu_up
   /\ dict_get (_cache_time manager_stale) (py "zhihu")
      = Some (mk_datetime 738886 42840 0)
   /\ CACHE_TTL * 1000000
      <= age_us (at_check (clock_at noon) (py "zhihu"))
           (mk_datetime 738886 42840 0)
   /\ zhihu_up 30 = Ok [ item_of "a" 7 "2024-01-01T12:00:00" ])
  /\ exists m1,
       fetch_single_platform (clock_at noon) manager_stale (py "zhihu") 30
         true
       = (m1, Ok [ item_of "a" 7 "2024-01-01T12:00:00" ])
       /\ dict_get (_cache m1) (py "zhihu")
          = Some [ item_of "a" 7 "2024-01-01T12:00:00" ]
       /\ dict_get (_cache_time m1) (py "zhihu")
          = Some (at_store (clock_at noon) (py "zhihu"))
       /\ forall q, q <> py "zhihu" ->
            entry_at q m1 = entry_at q manager_stale.
Proof.
  assert (Hage : CACHE_TTL * 1000000
                 <= age_us (at_check (clock_at noon) (py "zhihu"))
                      (mk_datetime 738886 42840 0))
    by (vm_compute; discriminate).
  split; [ repeat split; exact Hage | ].
  exact (cache_expires (clock_at noon) manager_stale (py "zhihu") 30
           zhihu_up [ item_of "a" 7 "2024-01-01T12:00:00" ]
           (mk_datetime 738886 42840 0) eq_refl eq_refl Hage eq_refl).
Defined.

Lemma clear_cache_forces_fetch_zhihu :
  (dict_get (fetchers manager_down) (py "zhihu") = Some zhihu_up
   /\ zhihu_up 30 = Ok [ item_of "a" 7 "2024-01-01T12:00:00" ]
   /\ (Some (py "zhihu") = None \/ Some (py "zhihu") = Some []
       \/ Some (py "zhihu") = Some (py "zhihu")))
  /\ snd (fetch_single_platform (clock_at noon)
            (clear_cache manager_down (Some (py "zhihu"))) (py "zhihu") 30
            true)
     = Ok [ item_of "a" 7 "2024-01-01T12:00:00" ]
  /\ (py "zhihu" <> [] ->
      forall q, q <> py "zhihu" ->
        entry_at q (clear_cache manager_down (Some (py "zhihu")))
        = entry_at q manager_down).
Proof.
  assert (Ht : Some (py "zhihu") = None \/ Some (py "zhihu") = Some []
               \/ Some (py "zhihu") = Some (py "zhihu"))
    by (right; right; reflexivity).
  split; [ repeat split; exact Ht | ].
  exact (clear_cache_forces_fetch (clock_at noon) manager_down (py "zhihu")
           30 zhihu_up [ item_of "a" 7 "2024-01-01T12:00:00" ]
           (Some (py "zhihu")) eq_refl eq_refl Ht).
Defined.

Lemma all_fetches_fail_gives_no_trend_weibo_alone :
  ((forall p,
      false && _is_cache_valid (manager_with [ (py "weibo", weibo_down) ])
                 (at_check (clock_at noon) p) p = false)
   /\ (forall p f,
         dict_get (fetchers (manager_with [ (py "weibo", weibo_down) ])) p
         = Some f ->
         raised (f 30) = true))
  /\ fetch_and_merge PyLib.isalnum_ascii_only PyLib.lower_ascii_only
       (clock_at noon) (fun _ => py "2024-01-01T12:00:01")
       (manager_with [ (py "weibo", weibo_down) ]) 30 false
     = (manager_with [ (py "weibo", weibo_down) ], []).
Proof.
  assert (Hmiss : forall p,
            false && _is_cache_valid (manager_with [ (py "weibo", weibo_down) ])
                       (at_check (clock_at noon) p) p = false)
    by reflexivity.
  assert (Hfail : forall p f,
            dict_get (fetchers (manager_with [ (py "weibo", weibo_down) ])) p
            = Some f ->
            raised (f 30) = true).
  { intros p f. simpl. destruct (pystr_eqb p (py "weibo")); [ | discriminate ].
    intros [= <-]. reflexivity. }
  split; [ now split | ].
  exact (all_fetches_fail_gives_no_trend
           PyLib.isalnum_ascii_only PyLib.lower_ascii_only
           (clock_at noon) (fun _ => py "2024-01-01T12:00:01")
           (manager_with [ (py "weibo", weibo_down) ]) 30 false Hmiss Hfail).
Defined.

Lemma normalize_ascii_idempotent_hot_topic :
  Forall (fun c => (c < 128)%N) (py " Hot_Topic! ")
  /\ forallb is_key_char
       (_normalize_keyword PyLib.isalnum_ascii_only PyLib.lower_ascii_only
          (py " Hot_Topic! "))
     = true
  /\ _normalize_keyword PyLib.isalnum_ascii_only PyLib.lower_ascii_only
       (_normalize_keyword PyLib.isalnum_ascii_only PyLib.lower_ascii_only
          (py " Hot_Topic! "))
     = _normalize_keyword PyLib.isalnum_ascii_only PyLib.lower_ascii_only
         (py " Hot_Topic! ").
Proof.
  assert (H : Forall (fun c => (c < 128)%N) (py " Hot_Topic! "))
    by (repeat constructor).
  split; [ exact H | ].
  exact (normalize_ascii_idempotent
           PyLib.isalnum_ascii_only PyLib.lower_ascii_only
           (py " Hot_Topic! ") H).
Defined.

End FetcherManager.

(* ================================================================== *)
(** * routers/trends.py: the lifecycle of a keyword                    *)
(* ================================================================== *)

Module Lifecycle.
Local Open Scope Z_scope.

(** A point of [lifecycle_data]. *)
Record heat_point : Type := mk_heat_point {
  hp_timestamp : pystr;
  hp_heat_score : Z
}.

(** A trend of the generator, as far as the route reads it;
    [lifecycle_data] is [None] when the key is absent. *)
Record trend : Type := mk_trend {
  t_keyword : pystr;
  t_lifecycle_data : option (list heat_point)
}.

Inductive phase : Type := birth | rise | peak | decline | death.

Definition phase_eqb (a b : phase) : bool :=
  match a, b with
  | birth, birth | rise, rise | peak, peak
  | decline, decline | death, death => true
  | _, _ => false
  end.

Record LifecyclePoint : Type := mk_LifecyclePoint {
  lp_timestamp : datetime;
  lp_heat_score : Z;
  lp_phase : phase
}.

Record LifecycleData : Type := mk_LifecycleData {
  ld_keyword : pystr;
  data_points : list LifecyclePoint;
  birth_date : datetime;
  peak_date : datetime;
  death_date : option datetime;
  total_days : Z
}.

(** [point["timestamp"][:10]]. *)
Definition date_of (point : heat_point) : pystr :=
  firstn 10 (hp_timestamp point).

(** The body of the loop that sums the heat of a day. *)
Definition add_point (daily_heat : dict Z) (point : heat_point) : dict Z :=
  let date := date_of point in
  let daily_heat :=
    if dict_mem daily_heat date then daily_heat
    else dict_set daily_heat date 0 in
  match dict_get daily_heat date with
  | Some heat => dict_set daily_heat date (heat + hp_heat_score point)
  | None => daily_heat
  end.

Definition roll_up (lifecycle_raw : list heat_point) : dict Z :=
  fold_left add_point lifecycle_raw [].

(** [max(values)]: a [ValueError] on no value. *)
Definition max_of (values : list Z) : result Z :=
  match values with
  | [] => Raise ValueError
  | v :: rest => Ok (fold_left Z.max rest v)
  end.

(** [[d for d, h in daily_heat.items() if h == max_heat][0]]. *)
Definition first_date_with (daily_heat : dict Z) (max_heat : Z)
  : result pystr :=
  match filter (fun dh => snd dh =? max_heat) daily_heat with
  | [] => Raise IndexError
  | (d, _) :: _ => Ok d
  end.

(** The chain of tests that names the phase of the point at index [i].
    The source compares the integer [i] with the floats [n * 0.2] and
    [n * 0.8]; the product [n * 0.2] is the double nearest to
    [n/5 * (1 + 2^-54)], which is [n/5] itself when 5 divides [n] and is
    0.2 or more away from every integer otherwise, and likewise for 0.8, so
    [i < n * 0.2] is [5 * i < n] and [i > n * 0.8] is [5 * i > 4 * n]. *)
Definition phase_at (n : Z) (max_date : pystr) (i : Z) (date : pystr)
  : phase :=
  if 5 * i <? n then birth
  else if pystr_ltb date max_date then rise
  else if pystr_eqb date max_date then peak
  else if 4 * n <? 5 * i then death
  else decline.

(** The chain of tests as the spec words it, on whole numbers:
    [floor(0.2 * n)] and [floor(0.8 * n)]. *)
Definition spec_phase (n : Z) (peak_day : pystr) (i : Z) (date : pystr)
  : phase :=
  if i <? n / 5 then birth
  else if pystr_ltb date peak_day then rise
  else if pystr_eqb date peak_day then peak
  else if (4 * n) / 5 <? i then death
  else decline.

(** The chain of tests with the first bound as the code has it: the
    least whole number that is not below [0.2 * n]. *)
Definition amended_phase (n : Z) (peak_day : pystr) (i : Z) (date : pystr)
  : phase :=
  if i <? (n + 4) / 5 then birth
  else if pystr_ltb date peak_day then rise
  else if pystr_eqb date peak_day then peak
  else if (4 * n) / 5 <? i then death
  else decline.

(** [not xs]. *)
Definition is_nil {A} (l : list A) : bool :=
  match l with
  | [] => true
  | _ :: _ => false
  end.

(** [xs[-1]]. *)
Definition last_of (l : list pystr) : result pystr :=
  match rev l with
  | [] => Raise IndexError
  | x :: _ => Ok x
  end.

Section Route.

(** [datetime.fromisoformat]: [None] stands for its [ValueError]. *)
Variable fromisoformat : pystr -> option datetime.

(** The loop over [enumerate(sorted_dates)], from index [i] on. *)
Fixpoint build_points (daily_heat : dict Z) (n : Z) (max_date : pystr)
    (i : Z) (dates : list pystr) : result (list LifecyclePoint) :=
  match dates with
  | [] => Ok []
  | date :: rest =>
      heat <- of_option KeyError (dict_get daily_heat date) ;;
      let ph := phase_at n max_date i date in
      ts <- of_option ValueError (fromisoformat date) ;;
      points <- build_points daily_heat n max_date (i + 1) rest ;;
      Ok (mk_LifecyclePoint ts heat ph :: points)
  end.

(** The route from [lifecycle_raw] on. *)
Definition lifecycle_of (kw : pystr) (lifecycle_raw : list heat_point)
  : result LifecycleData :=
  if is_nil lifecycle_raw then Raise (HTTPException 404)
  else
    let daily_heat := roll_up lifecycle_raw in
    let sorted_dates := sorted (dict_keys daily_heat) in
    let n := Z.of_nat (List.length sorted_dates) in
    max_heat <- max_of (dict_values daily_heat) ;;
    max_date <- first_date_with daily_heat max_heat ;;
    points <- build_points daily_heat n max_date 0 sorted_dates ;;
    first <- of_option IndexError (hd_error sorted_dates) ;;
    birth_dt <- of_option ValueError (fromisoformat first) ;;
    peak_dt <- of_option ValueError (fromisoformat max_date) ;;
    death_dt <-
      (if 1 <? n
       then last <- last_of sorted_dates ;;
            dt <- of_option ValueError (fromisoformat last) ;;
            Ok (Some dt)
       else Ok None) ;;
    Ok (mk_LifecycleData kw points birth_dt peak_dt death_dt n).

Definition get_keyword_lifecycle (raw_trends : list trend) (kw : pystr)
  : result LifecycleData :=
  match find (fun t => pystr_eqb (t_keyword t) kw) raw_trends with
  | None => Raise (HTTPException 404)
  | Some target_trend =>
      lifecycle_of kw
        (match t_lifecycle_data target_trend with
         | Some points => points
         | None => []
         end)
  end.

End Route.

(** ** What the statements below speak of *)

(** The daily points of the claims: one point a day, in ascending order of
    the days. *)
Definition ascending_days (lifecycle_raw : list heat_point) : Prop :=
  StronglySorted (fun a b => pystr_ltb a b = true)
    (map date_of lifecycle_raw).

(** [day] is the day of the greatest heat, the earliest such day. *)
Definition earliest_peak_day (lifecycle_raw : list heat_point) (day : pystr)
  : Prop :=
  exists point,
    In point lifecycle_raw /\ date_of point = day
    /\ (forall q, In q lifecycle_raw -> hp_heat_score q <= hp_heat_score point)
    /\ (forall q, In q lifecycle_raw ->
         hp_heat_score q = hp_heat_score point ->
         pystr_ltb (date_of q) day = false).

(** The pairs [(i, date)] of [enumerate]. *)
Fixpoint enumerate_from (i : Z) (dates : list pystr) : list (Z * pystr) :=
  match dates with
  | [] => []
  | d :: rest => (i, d) :: enumerate_from (i + 1) rest
  end.

Definition count_phase (ph : phase) (points : list LifecyclePoint) : nat :=
  List.length (filter (fun p => phase_eqb (lp_phase p) ph) points).

Definition day (ts : string) (heat : Z) : heat_point :=
  mk_heat_point (py ts) heat.

(** Ten days, the greatest heat on the fourth. *)
Definition ten_days : list heat_point :=
  [ day "2024-03-01" 10; day "2024-03-02" 20; day "2024-03-03" 30;
    day "2024-03-04" 90; day "2024-03-05" 80; day "2024-03-06" 70;
    day "2024-03-07" 60; day "2024-03-08" 50; day "2024-03-09" 40;
    day "2024-03-10" 30 ].

(** The days of [ten_days], parsed. *)
Definition ten_stamps : list datetime :=
  map (fun o => mk_datetime o 0 0)
    [ 738946; 738947; 738948; 738949; 738950; 738951; 738952; 738953;
      738954; 738955 ].

Definition ten_phases : list phase :=
  [ birth; birth; rise; peak; decline; decline; decline; decline; decline;
    death ].

(** Three days of equal heat. *)
Definition three_days : list heat_point :=
  [ day "2024-03-01" 10; day "2024-03-02" 10; day "2024-03-03" 10 ].

(** A keyword seen on one day only. *)
Definition one_day : list heat_point := [ day "2024-03-01" 10 ].

(** ** The roll-up of one point a day *)

(** The dictionary [daily_heat] of daily points. *)
Definition daily_of (lifecycle_raw : list heat_point) : dict Z :=
  map (fun p => (date_of p, hp_heat_score p)) lifecycle_raw.

Lemma daily_of_keys raw : dict_keys (daily_of raw) = map date_of raw.
Proof.
  unfold dict_keys, daily_of. rewrite map_map. reflexivity.
Qed.

Lemma daily_of_values raw :
  dict_values (daily_of raw) = map hp_heat_score raw.
Proof.
  unfold dict_values, daily_of. rewrite map_map. reflexivity.
Qed.

Lemma add_point_new daily point :
  ~ In (date_of point) (dict_keys daily) ->
  add_point daily point
  = daily ++ [ (date_of point, hp_heat_score point) ].
Proof.
  intros Hnew. unfold add_point, dict_mem.
  pose proof (proj2 (PyFacts.dict_get_None_keys daily (date_of point)) Hnew)
    as Hget.
  rewrite Hget, PyFacts.dict_get_set_same, PyFacts.dict_set_set.
  now rewrite PyFacts.dict_set_new.
Qed.

Lemma roll_up_from raw : forall acc,
  NoDup (map date_of raw) ->
  (forall p, In p raw -> ~ In (date_of p) (dict_keys acc)) ->
  fold_left add_point raw acc = acc ++ daily_of raw.
Proof.
  induction raw as [ | p raw IH]; intros acc Hnd Hfresh; simpl.
  - now rewrite app_nil_r.
  - inversion Hnd as [ | ? ? Hp Hnd']; subst.
    rewrite add_point_new by (apply Hfresh; now left).
    rewrite IH; trivial.
    + now rewrite <- app_assoc.
    + intros q Hq. unfold dict_keys. rewrite map_app, in_app_iff. simpl.
      intros [H | [H | []]].
      * apply (Hfresh q); [ now right | exact H ].
      * apply Hp. rewrite H. now apply in_map.
Qed.

Lemma roll_up_daily raw : ascending_days raw -> roll_up raw = daily_of raw.
Proof.
  intros H. unfold roll_up.
  rewrite roll_up_from; [ reflexivity | | intros p _ [] ].
  now apply PyFacts.ascending_NoDup.
Qed.

Lemma daily_of_get raw point :
  NoDup (map date_of raw) -> In point raw ->
  dict_get (daily_of raw) (date_of point) = Some (hp_heat_score point).
Proof.
  induction raw as [ | p raw IH]; simpl; [ intros _ [] | ].
  intros Hnd Hin. inversion Hnd as [ | ? ? Hp Hnd']; subst.
  destruct (pystr_eqb (date_of point) (date_of p)) eqn:E.
  - destruct Hin as [-> | Hin]; [ reflexivity | ].
    apply PyFacts.pystr_eqb_eq in E. exfalso. apply Hp.
    rewrite <- E. now apply in_map.
  - destruct Hin as [-> | Hin]; [ | now apply IH ].
    now rewrite PyFacts.pystr_eqb_refl in E.
Qed.

(** ** The greatest heat and its first day *)

Lemma fold_left_max rest : forall v,
  (fold_left Z.max rest v = v \/ In (fold_left Z.max rest v) rest)
  /\ v <= fold_left Z.max rest v
  /\ Forall (fun x => x <= fold_left Z.max rest v) rest.
Proof.
  induction rest as [ | x rest IH]; intros v; simpl.
  - repeat split; [ now left | lia | constructor ].
  - destruct (IH (Z.max v x)) as [Hin [Hle Hall]].
    repeat split.
    + destruct Hin as [-> | Hin]; [ | now right; right ].
      destruct (Z.max_spec v x) as [[_ ->] | [_ ->]];
        [ right; now left | now left ].
    + lia.
    + constructor; [ lia | exact Hall ].
Qed.

Lemma max_of_spec values :
  values <> [] ->
  exists m, max_of values = Ok m /\ In m values
            /\ Forall (fun x => x <= m) values.
Proof.
  destruct values as [ | v rest]; [ congruence | intros _ ].
  destruct (fold_left_max rest v) as [Hin [Hle Hall]].
  exists (fold_left Z.max rest v). simpl. repeat split.
  - destruct Hin as [-> | Hin]; [ now left | now right ].
  - constructor; trivial.
Qed.

Lemma first_date_with_find raw m :
  first_date_with (daily_of raw) m
  = match find (fun p => hp_heat_score p =? m) raw with
    | Some p => Ok (date_of p)
    | None => Raise IndexError
    end.
Proof.
  unfold first_date_with.
  induction raw as [ | p raw IH]; simpl; [ reflexivity | ].
  destruct (hp_heat_score p =? m); [ reflexivity | exact IH ].
Qed.

Lemma find_first_sorted {A B} (R : B -> B -> Prop) (f : A -> B)
    (g : A -> bool) (l : list A) (x : A) :
  StronglySorted R (map f l) -> find g l = Some x ->
  In x l /\ g x = true
  /\ forall q, In q l -> g q = true -> q = x \/ R (f x) (f q).
Proof.
  induction l as [ | a l IH]; simpl; [ discriminate | ].
  intros Hs Hfind. inversion Hs as [ | ? ? Hs' Ha]; subst.
  destruct (g a) eqn:Ega.
  - injection Hfind as <-. repeat split; [ now left | exact Ega | ].
    intros q [-> | Hq] _; [ now left | right ].
    rewrite Forall_forall in Ha. apply Ha. now apply in_map.
  - destruct (IH Hs' Hfind) as [Hin [Hg Hfirst]].
    repeat split; [ now right | exact Hg | ].
    intros q [-> | Hq] Hgq; [ congruence | now apply Hfirst ].
Qed.

(** On daily points the code finds the earliest day of greatest heat. *)
Lemma peak_day_found raw :
  raw <> [] -> ascending_days raw ->
  exists m point,
    max_of (dict_values (daily_of raw)) = Ok m
    /\ first_date_with (daily_of raw) m = Ok (date_of point)
    /\ In point raw
    /\ earliest_peak_day raw (date_of point).
Proof.
  intros Hne Hasc.
  destruct (max_of_spec (dict_values (daily_of raw))) as [m [Hm [Hin Hall]]].
  { rewrite daily_of_values. now destruct raw. }
  rewrite daily_of_values in Hin, Hall.
  apply in_map_iff in Hin. destruct Hin as [p0 [Hp0 Hin0]].
  destruct (find (fun p => hp_heat_score p =? m) raw) as [point | ] eqn:Hfind.
  - destruct (find_first_sorted _ date_of _ raw point Hasc Hfind)
      as [Hin [Hheat Hfirst]].
    apply Z.eqb_eq in Hheat.
    exists m, point. rewrite first_date_with_find, Hfind.
    repeat split; trivial.
    exists point. repeat split; trivial.
    + intros q Hq. rewrite Forall_forall in Hall. rewrite Hheat.
      apply Hall. now apply in_map.
    + intros q Hq Hqh.
      destruct (Hfirst q Hq) as [-> | Hlt].
      * apply Z.eqb_eq. congruence.
      * apply PyFacts.pystr_ltb_irrefl.
      * now apply PyFacts.pystr_ltb_asym.
  - exfalso. apply (find_none _ _ Hfind) in Hin0.
    apply Z.eqb_neq in Hin0. congruence.
Qed.

(** ** The points of the route *)

#[local] Arguments Z.mul : simpl never.
#[local] Arguments Z.add : simpl never.
#[local] Arguments Z.of_nat : simpl never.

(** The points the loop builds for daily points whose days parse to
    [stamps]. *)
Fixpoint expected_points (n : Z) (max_date : pystr) (i : Z)
    (raw : list heat_point) (stamps : list datetime) : list LifecyclePoint :=
  match raw, stamps with
  | p :: raw', t :: stamps' =>
      mk_LifecyclePoint t (hp_heat_score p)
        (phase_at n max_date i (date_of p))
      :: expected_points n max_date (i + 1) raw' stamps'
  | _, _ => []
  end.

Lemma phase_at_amended n max_date i date :
  phase_at n max_date i date = amended_phase n max_date i date.
Proof.
  unfold phase_at, amended_phase.
  assert (E1 : (5 * i <? n) = (i <? (n + 4) / 5)).
  { destruct (Z.ltb_spec (5 * i) n), (Z.ltb_spec i ((n + 4) / 5));
      trivial; exfalso; Z.div_mod_to_equations; lia. }
  assert (E2 : (4 * n <? 5 * i) = ((4 * n) / 5 <? i)).
  { destruct (Z.ltb_spec (4 * n) (5 * i)), (Z.ltb_spec ((4 * n) / 5) i);
      trivial; exfalso; Z.div_mod_to_equations; lia. }
  now rewrite E1, E2.
Qed.

Lemma expected_points_stamps n max_date raw : forall stamps i,
  List.length stamps = List.length raw ->
  map lp_timestamp (expected_points n max_date i raw stamps) = stamps.
Proof.
  induction raw as [ | p raw IH]; intros [ | t stamps] i H; simpl in *;
    try discriminate; [ reflexivity | ].
  f_equal. apply IH. lia.
Qed.

Lemma expected_points_heat n max_date raw : forall stamps i,
  List.length stamps = List.length raw ->
  map lp_heat_score (expected_points n max_date i raw stamps)
  = map hp_heat_score raw.
Proof.
  induction raw as [ | p raw IH]; intros [ | t stamps] i H; simpl in *;
    try discriminate; [ reflexivity | ].
  f_equal. apply IH. lia.
Qed.

Lemma expected_points_phase n max_date raw : forall stamps i,
  List.length stamps = List.length raw ->
  map lp_phase (expected_points n max_date i raw stamps)
  = map (fun id => phase_at n max_date (fst id) (snd id))
      (enumerate_from i (map date_of raw)).
Proof.
  induction raw as [ | p raw IH]; intros [ | t stamps] i H; simpl in *;
    try discriminate; [ reflexivity | ].
  f_equal. apply IH. lia.
Qed.

(** A point is given the phase [peak] on the day [max_date] only. *)
Lemma phase_at_peak n max_date i date :
  phase_at n max_date i date = peak -> date = max_date /\ n <= 5 * i.
Proof.
  unfold phase_at.
  destruct (Z.ltb_spec (5 * i) n); [ discriminate | ].
  destruct (pystr_ltb date max_date); [ discriminate | ].
  destruct (pystr_eqb date max_date) eqn:E.
  - intros _. split; [ now apply PyFacts.pystr_eqb_eq | lia ].
  - destruct (4 * n <? 5 * i); discriminate.
Qed.

Lemma phase_at_max_date n max_date i :
  phase_at n max_date i max_date = if 5 * i <? n then birth else peak.
Proof.
  unfold phase_at.
  now rewrite PyFacts.pystr_ltb_irrefl, PyFacts.pystr_eqb_refl.
Qed.

Lemma no_peak_elsewhere n max_date raw : forall stamps i,
  ~ In max_date (map date_of raw) ->
  count_phase peak (expected_points n max_date i raw stamps) = 0%nat.
Proof.
  unfold count_phase.
  induction raw as [ | p raw IH]; intros [ | t stamps] i Hnot; simpl in *;
    trivial.
  destruct (phase_at n max_date i (date_of p)) eqn:E; simpl;
    try (apply IH; tauto).
  apply phase_at_peak in E. destruct E as [E _]. tauto.
Qed.

(** Where the peak day stands at index [k], the phase [peak] is given
    once if [n <= 5 * k] and never otherwise. *)
Lemma count_peak n max_date raw : forall stamps i k,
  List.length stamps = List.length raw ->
  NoDup (map date_of raw) ->
  nth_error (map date_of raw) k = Some max_date ->
  count_phase peak (expected_points n max_date i raw stamps)
  = if n <=? 5 * (i + Z.of_nat k) then 1%nat else 0%nat.
Proof.
  induction raw as [ | p raw IH]; intros [ | t stamps] i k Hlen Hnd Hk;
    simpl in Hlen; try discriminate.
  - destruct k; simpl in Hk; discriminate.
  - inversion Hnd as [ | ? ? Hp Hnd']; subst.
    destruct k as [ | k]; simpl in Hk.
    + injection Hk as Hk. rewrite Hk in Hp.
      pose proof (no_peak_elsewhere n max_date raw stamps (i + 1) Hp) as H0.
      unfold count_phase in *. simpl.
      rewrite Hk, phase_at_max_date.
      change (Z.of_nat 0) with 0. rewrite Z.add_0_r.
      destruct (Z.ltb_spec (5 * i) n), (Z.leb_spec n (5 * i)); try lia;
        simpl; now rewrite H0.
    + assert (Hne : date_of p <> max_date).
      { intros E. apply Hp. rewrite E. eapply nth_error_In; eassumption. }
      replace (i + Z.of_nat (S k)) with (i + 1 + Z.of_nat k) by lia.
      rewrite <- (IH stamps (i + 1) k) by (trivial; lia).
      unfold count_phase. simpl.
      destruct (phase_at n max_date i (date_of p)) eqn:E; simpl; trivial.
      apply phase_at_peak in E. tauto.
Qed.

Lemma count_peak_le_1 n max_date raw stamps i :
  NoDup (map date_of raw) ->
  (count_phase peak (expected_points n max_date i raw stamps) <= 1)%nat.
Proof.
  revert stamps i.
  induction raw as [ | p raw IH]; intros [ | t stamps] i Hnd;
    unfold count_phase in *; simpl; try lia.
  inversion Hnd as [ | ? ? Hp Hnd']; subst.
  destruct (phase_at n max_date i (date_of p)) eqn:E; simpl;
    try (now apply IH).
  apply phase_at_peak in E. destruct E as [E _]. rewrite E in Hp.
  pose proof (no_peak_elsewhere n max_date raw stamps (i + 1) Hp) as H0.
  unfold count_phase in H0. rewrite H0. lia.
Qed.

Lemma parse_all_length {A B} (f : A -> option B) l stamps :
  map f l = map Some stamps -> List.length stamps = List.length l.
Proof.
  intros H. apply (f_equal (@List.length _)) in H.
  now rewrite !length_map in H.
Qed.

Lemma parse_all_In {A B} (f : A -> option B) l stamps x :
  map f l = map Some stamps -> In x l ->
  exists t, f x = Some t /\ In t stamps.
Proof.
  revert stamps. induction l as [ | a l IH]; intros [ | t stamps] H;
    simpl in *; try discriminate; [ intros [] | ].
  injection H as Ha Hl. intros [<- | Hx].
  - exists t. split; [ exact Ha | now left ].
  - destruct (IH _ Hl Hx) as [t' [Ht' Hin]]. exists t'. split; auto.
Qed.

Lemma parse_all_last {A B} (f : A -> option B) l stamps a d :
  map f (l ++ [a]) = map Some stamps -> f a = Some (last stamps d).
Proof.
  intros H. destruct (exists_last (l := stamps)) as [s' [t ->]].
  { intros ->. destruct l; discriminate. }
  rewrite last_last. rewrite !map_app in H. simpl in H.
  apply app_inj_tail in H. destruct H as [_ H]. congruence.
Qed.

Section RouteFacts.

Variable fromisoformat : pystr -> option datetime.

Lemma build_points_expected daily n max_date raw : forall stamps i,
  (forall p, In p raw ->
     dict_get daily (date_of p) = Some (hp_heat_score p)) ->
  map fromisoformat (map date_of raw) = map Some stamps ->
  build_points fromisoformat daily n max_date i (map date_of raw)
  = Ok (expected_points n max_date i raw stamps).
Proof.
  induction raw as [ | p raw IH]; intros [ | t stamps] i Hget Hparse;
    simpl in *; try discriminate; [ reflexivity | ].
  injection Hparse as Hp Hrest.
  rewrite (Hget p (or_introl eq_refl)), Hp. simpl.
  rewrite (IH stamps (i + 1)); auto.
Qed.

(** The whole route on daily points: what it returns. *)
Lemma lifecycle_of_daily kw raw stamps :
  raw <> [] -> ascending_days raw ->
  map fromisoformat (map date_of raw) = map Some stamps ->
  exists point first_dt peak_dt,
    In point raw
    /\ earliest_peak_day raw (date_of point)
    /\ fromisoformat (date_of point) = Some peak_dt
    /\ hd_error stamps = Some first_dt
    /\ lifecycle_of fromisoformat kw raw
       = Ok (mk_LifecycleData kw
               (expected_points (Z.of_nat (List.length raw))
                  (date_of point) 0 raw stamps)
               first_dt peak_dt
               (if 1 <? Z.of_nat (List.length raw)
                then Some (last stamps first_dt) else None)
               (Z.of_nat (List.length raw))).
Proof.
  intros Hne Hasc Hparse.
  destruct (peak_day_found raw Hne Hasc) as [m [point [Hm [Hd [Hin Hpk]]]]].
  destruct (parse_all_In _ _ _ _ Hparse (in_map date_of _ _ Hin))
    as [peak_dt [Hpeak _]].
  pose proof (PyFacts.ascending_NoDup _ Hasc) as Hnd.
  assert (Hhead : exists p0 t0,
            hd_error (map date_of raw) = Some (date_of p0)
            /\ fromisoformat (date_of p0) = Some t0
            /\ hd_error stamps = Some t0
            /\ is_nil raw = false).
  { destruct raw as [ | p0 raw0]; [ congruence | ].
    destruct stamps as [ | t0 stamps0]; [ discriminate | ].
    exists p0, t0. simpl in Hparse. injection Hparse as Hp0 _.
    repeat split; trivial. }
  destruct Hhead as [p0 [t0 [Hhd [Hfirst [Hst Hnil]]]]].
  exists point, t0, peak_dt.
  repeat split; trivial.
  unfold lifecycle_of. rewrite Hnil.
  rewrite (roll_up_daily raw Hasc), daily_of_keys.
  rewrite (PyFacts.sorted_ascending _ Hasc), length_map.
  rewrite Hm. simpl. rewrite Hd. simpl.
  rewrite (build_points_expected _ _ _ raw stamps 0); trivial;
    [ | intros p Hp; now apply daily_of_get ].
  simpl. rewrite Hhd. simpl. rewrite Hfirst. simpl. rewrite Hpeak. simpl.
  destruct (1 <? Z.of_nat (List.length raw)); [ | reflexivity ].
  destruct (exists_last (l := raw) Hne) as [raw' [plast Elast]].
  unfold last_of. rewrite Elast at 1. rewrite map_app, rev_app_distr. simpl.
  rewrite Elast, map_app in Hparse.
  rewrite (parse_all_last _ _ _ _ t0 Hparse). reflexivity.
Qed.

Lemma expected_points_nth n max_date raw : forall stamps i j lp,
  nth_error (expected_points n max_date i raw stamps) j = Some lp ->
  exists p t,
    nth_error raw j = Some p /\ nth_error stamps j = Some t
    /\ lp = mk_LifecyclePoint t (hp_heat_score p)
              (phase_at n max_date (i + Z.of_nat j) (date_of p)).
Proof.
  induction raw as [ | p raw IH]; intros [ | t stamps] i j lp; simpl;
    try (destruct j; discriminate).
  destruct j as [ | j]; simpl.
  - intros [= <-]. exists p, t. repeat split.
    change (Z.of_nat 0) with 0. now rewrite Z.add_0_r.
  - intros H. destruct (IH _ _ _ _ H) as [q [u [Hq [Hu ->]]]].
    exists q, u. repeat split; trivial.
    do 2 f_equal. lia.
Qed.

Lemma parse_all_nth {A B} (f : A -> option B) l : forall stamps j x t,
  map f l = map Some stamps ->
  nth_error l j = Some x -> nth_error stamps j = Some t -> f x = Some t.
Proof.
  induction l as [ | a l IH]; intros [ | u stamps] j x t H; simpl in H;
    try discriminate; destruct j; simpl; try discriminate.
  - intros [= <-] [= <-]. now injection H.
  - injection H as _ H. now apply IH.
Qed.

(** Rewrites the order facts of a strictly ascending list of days. *)
Ltac order_facts :=
  repeat match goal with
    | H : StronglySorted _ (_ :: _) |- _ => inversion H; clear H; subst
    | H : Forall _ (_ :: _) |- _ => inversion H; clear H; subst
    end;
  repeat match goal with
    | H : pystr_ltb ?a ?b = true |- _ =>
        pose proof (PyFacts.pystr_ltb_asym _ _ H);
        pose proof (proj2 (PyFacts.pystr_eqb_neq b a)
                      (fun E => PyFacts.pystr_ltb_neq _ _ H (eq_sym E)));
        revert H
    end;
  intros.

(** C4 (as amended).  For daily points in ascending order of their days,
    [N] of them, with [peak_day] the earliest day of greatest heat, the
    point at index [i] with day [d] gets its phase from these tests, in
    this order: [i < 0.2 N] (that is, [i] below the least whole number not
    under [0.2 N]) gives birth, [d < peak_day] rise, [d = peak_day] peak,
    [i > floor(0.8 N)] death, and decline is what remains.  For [N = 10]
    with the greatest heat at index 3 the phases are birth, birth, rise,
    peak, five times decline, death. *)
Theorem lifecycle_phase_rule kw raw stamps :
  raw <> [] -> ascending_days raw ->
  map fromisoformat (map date_of raw) = map Some stamps ->
  exists ld peak_day,
    lifecycle_of fromisoformat kw raw = Ok ld
    /\ earliest_peak_day raw peak_day
    /\ map lp_phase (data_points ld)
       = map (fun id =>
                amended_phase (Z.of_nat (List.length raw)) peak_day
                  (fst id) (snd id))
           (enumerate_from 0 (map date_of raw))
    /\ (List.length raw = 10%nat ->
        nth_error (map date_of raw) 3 = Some peak_day ->
        map lp_phase (data_points ld) = ten_phases).
Proof.
  intros Hne Hasc Hparse.
  destruct (lifecycle_of_daily kw raw stamps Hne Hasc Hparse)
    as [point [first_dt [peak_dt [Hin [Hpk [Hpd [Hhd Hld]]]]]]].
  pose proof (parse_all_length _ _ _ Hparse) as Hstamps.
  rewrite length_map in Hstamps.
  eexists. exists (date_of point).
  split; [ exact Hld | ]. split; [ exact Hpk | ]. simpl.
  rewrite expected_points_phase by exact Hstamps.
  split.
  - apply map_ext. intros [i d]. apply phase_at_amended.
  - intros Hlen Hk. clear Hld Hparse Hne Hin Hpk Hpd Hstamps.
    do 10 (destruct raw as [ | ? raw]; [ discriminate | ]).
    destruct raw; [ | discriminate ].
    simpl in Hk. injection Hk as <-.
    unfold ascending_days in Hasc. simpl in Hasc.
    cbn [map enumerate_from].
    repeat match goal with
      | |- context [date_of ?p] =>
          let d := fresh "d" in set (d := date_of p) in *; clearbody d
      end.
    order_facts.
    change (Z.of_nat (List.length _)) with 10.
    cbv [map enumerate_from fst snd phase_at].
    repeat match goal with
      | |- context [?a <? ?b] =>
          let v := eval vm_compute in (a <? b) in change (a <? b) with v
      end.
    rewrite ?PyFacts.pystr_ltb_irrefl, ?PyFacts.pystr_eqb_refl.
    repeat match goal with
      | H : ?x = ?v |- context [?x] => rewrite H
      end.
    reflexivity.
Qed.

(** C5 (as amended).  For daily points in ascending order of their days
    the route returns one point a day, in the same order, with the day and
    heat of its input point, so that the days are covered with no gap and
    no overlap.  At most one point has the phase peak, and it is then the
    earliest day of greatest heat; there is exactly one such point if and
    only if that day stands at an index [k] with [N <= 5 k] (the first
    test, for birth, wins before that).  [death_date] is the last day when
    [N > 1] and is absent otherwise. *)
Theorem lifecycle_points_cover kw raw stamps :
  raw <> [] -> ascending_days raw ->
  map fromisoformat (map date_of raw) = map Some stamps ->
  exists ld peak_day k,
    lifecycle_of fromisoformat kw raw = Ok ld
    /\ map lp_timestamp (data_points ld) = stamps
    /\ map lp_heat_score (data_points ld) = map hp_heat_score raw
    /\ total_days ld = Z.of_nat (List.length raw)
    /\ earliest_peak_day raw peak_day
    /\ nth_error (map date_of raw) k = Some peak_day
    /\ fromisoformat peak_day = Some (peak_date ld)
    /\ count_phase peak (data_points ld)
       = (if Z.of_nat (List.length raw) <=? 5 * Z.of_nat k
          then 1%nat else 0%nat)
    /\ (forall j lp,
          nth_error (data_points ld) j = Some lp -> lp_phase lp = peak ->
          j = k /\ lp_timestamp lp = peak_date ld)
    /\ death_date ld
       = (if 1 <? Z.of_nat (List.length raw)
          then Some (last stamps (birth_date ld)) else None).
Proof.
  intros Hne Hasc Hparse.
  destruct (lifecycle_of_daily kw raw stamps Hne Hasc Hparse)
    as [point [first_dt [peak_dt [Hin [Hpk [Hpd [Hhd Hld]]]]]]].
  pose proof (parse_all_length _ _ _ Hparse) as Hlen.
  rewrite length_map in Hlen.
  pose proof (PyFacts.ascending_NoDup _ Hasc) as Hnd.
  destruct (In_nth_error _ _ (in_map date_of _ _ Hin)) as [k Hk].
  eexists. exists (date_of point), k.
  split; [ exact Hld | ]. simpl.
  split; [ now apply expected_points_stamps | ].
  split; [ now apply expected_points_heat | ].
  repeat split; trivial.
  - rewrite (count_peak _ _ _ _ 0 k Hlen Hnd Hk). now rewrite Z.add_0_l.
  - apply expected_points_nth in H. destruct H as [p [t [Hp [Ht ->]]]].
    simpl in H0. apply phase_at_peak in H0. destruct H0 as [Hd _].
    apply (map_nth_error date_of) in Hp. rewrite Hd in Hp.
    apply (proj1 (NoDup_nth_error _) Hnd); [ | congruence ].
    apply nth_error_Some. congruence.
  - apply expected_points_nth in H. destruct H as [p [t [Hp [Ht ->]]]].
    simpl in *. apply phase_at_peak in H0. destruct H0 as [Hd _].
    pose proof (parse_all_nth _ _ _ _ _ _ Hparse
                  (map_nth_error date_of _ _ Hp) Ht) as Hparsed.
    congruence.
Qed.

End RouteFacts.

(** With three days of equal heat the first day, the earliest of
    greatest heat, is given birth: [0 < 0.6] holds, where the floor of
    0.6 is 0 and the spec's first test fails, leaving peak. *)
Lemma birth_bound_is_not_floor :
  exists ld : LifecycleData,
    lifecycle_of PyLib.fromisoformat (py "kw") three_days = Ok ld
    /\ map lp_phase (data_points ld) = [ birth; decline; decline ]
    /\ earliest_peak_day three_days (py "2024-03-01")
    /\ map (fun id => spec_phase 3 (py "2024-03-01") (fst id) (snd id))
         (enumerate_from 0 (map date_of three_days))
       = [ peak; decline; decline ].
Proof.
  eexists. split; [ vm_compute; reflexivity | ].
  split; [ reflexivity | ]. split; [ | vm_compute; reflexivity ].
  exists (day "2024-03-01" 10).
  repeat split; [ now left | | ];
    intros q [<- | [<- | [<- | []]]]; vm_compute; congruence.
Qed.

(** A keyword seen on a single day: its only point is given birth, and
    no point is the peak. *)
Lemma single_day_has_no_peak :
  exists ld : LifecycleData,
    lifecycle_of PyLib.fromisoformat (py "kw") one_day = Ok ld
    /\ map lp_phase (data_points ld) = [ birth ]
    /\ count_phase peak (data_points ld) = 0%nat
    /\ death_date ld = None.
Proof.
  eexists. split; [ vm_compute; reflexivity | ]. repeat split.
Qed.

Lemma ten_days_ascending : ascending_days ten_days.
Proof.
  unfold ascending_days. simpl. repeat constructor.
Qed.

Lemma ten_days_parse :
  map PyLib.fromisoformat (map date_of ten_days) = map Some ten_stamps.
Proof.
  vm_compute. reflexivity.
Qed.

Lemma ten_days_nonempty : ten_days <> [].
Proof.
  discriminate.
Qed.

(** The ten days of the spec's example. *)
Lemma lifecycle_phase_rule_ten_days :
  exists ld peak_day,
    lifecycle_of PyLib.fromisoformat (py "kw") ten_days = Ok ld
    /\ earliest_peak_day ten_days peak_day
    /\ map lp_phase (data_points ld)
       = map (fun id =>
                amended_phase (Z.of_nat (List.length ten_days)) peak_day
                  (fst id) (snd id))
           (enumerate_from 0 (map date_of ten_days))
    /\ (List.length ten_days = 10%nat ->
        nth_error (map date_of ten_days) 3 = Some peak_day ->
        map lp_phase (data_points ld) = ten_phases).
Proof.
  exact (lifecycle_phase_rule PyLib.fromisoformat (py "kw") ten_days
           ten_stamps ten_days_nonempty ten_days_ascending ten_days_parse).
Defined.

Lemma lifecycle_points_cover_ten_days :
  exists ld peak_day k,
    lifecycle_of PyLib.fromisoformat (py "kw") ten_days = Ok ld
    /\ map lp_timestamp (data_points ld) = ten_stamps
    /\ map lp_heat_score (data_points ld) = map hp_heat_score ten_days
    /\ total_days ld = Z.of_nat (List.length ten_days)
    /\ earliest_peak_day ten_days peak_day
    /\ nth_error (map date_of ten_days) k = Some peak_day
    /\ PyLib.fromisoformat peak_day = Some (peak_date ld)
    /\ count_phase peak (data_points ld)
       = (if Z.of_nat (List.length ten_days) <=? 5 * Z.of_nat k
          then 1%nat else 0%nat)
    /\ (forall j lp,
          nth_error (data_points ld) j = Some lp -> lp_phase lp = peak ->
          j = k /\ lp_timestamp lp = peak_date ld)
    /\ death_date ld
       = (if 1 <? Z.of_nat (List.length ten_days)
          then Some (last ten_stamps (birth_date ld)) else None).
Proof.
  exact (lifecycle_points_cover PyLib.fromisoformat (py "kw") ten_days
           ten_stamps ten_days_nonempty ten_days_ascending ten_days_parse).
Defined.


(* ------------------------------------------------------------------ *)
(** ** The roll-up of any points                                       *)
(* ------------------------------------------------------------------ *)

(** The point lies on the day [d]. *)
Definition on_day (d : pystr) (point : heat_point) : bool :=
  pystr_eqb d (date_of point).

(** The heat of the points of the day [d], added up in their order. *)
Definition day_heat (raw : list heat_point) (d : pystr) : Z :=
  sum_list (map hp_heat_score (filter (on_day d) raw)).

(** [daily_heat] once the points [seen] are added. *)
Definition daily_ok (seen : list heat_point) (daily : dict Z) : Prop :=
  forall d,
    dict_get daily d
    = if existsb (on_day d) seen then Some (day_heat seen d) else None.

Lemma add_point_unfold daily point :
  add_point daily point
  = dict_set daily (date_of point)
      (match dict_get daily (date_of point) with
       | Some h => h
       | None => 0
       end + hp_heat_score point).
Proof.
  unfold add_point, dict_mem.
  destruct (dict_get daily (date_of point)) as [h | ] eqn:E.
  - rewrite E. reflexivity.
  - rewrite PyFacts.dict_get_set_same, PyFacts.dict_set_set. reflexivity.
Qed.

Lemma existsb_false_filter {A} (f : A -> bool) (l : list A) :
  existsb f l = false -> filter f l = [].
Proof.
  induction l as [ | x l IH]; simpl; [ reflexivity | ].
  destruct (f x); simpl; [ discriminate | exact IH ].
Qed.

Lemma day_heat_snoc seen point d :
  day_heat (seen ++ [point]) d
  = if on_day d point then day_heat seen d + hp_heat_score point
    else day_heat seen d.
Proof.
  unfold day_heat. rewrite filter_app. simpl.
  destruct (on_day d point).
  - rewrite map_app, PyFacts.sum_list_app. unfold sum_list at 2. simpl. lia.
  - now rewrite app_nil_r.
Qed.

Lemma add_point_ok seen daily point :
  daily_ok seen daily -> daily_ok (seen ++ [point]) (add_point daily point).
Proof.
  intros Hok d. rewrite add_point_unfold, PyFacts.dict_get_set.
  rewrite existsb_app, day_heat_snoc. simpl. rewrite orb_false_r.
  fold (on_day d point). destruct (on_day d point) eqn:E.
  - rewrite orb_true_r. apply PyFacts.pystr_eqb_eq in E as <-.
    rewrite (Hok d). destruct (existsb (on_day d) seen) eqn:Es;
      [ reflexivity | ].
    unfold day_heat. rewrite (existsb_false_filter _ _ Es). reflexivity.
  - rewrite orb_false_r. apply Hok.
Qed.

Lemma roll_up_ok raw : daily_ok raw (roll_up raw).
Proof.
  unfold roll_up.
  assert (H : forall seen acc, daily_ok seen acc ->
            daily_ok (seen ++ raw) (fold_left add_point raw acc)).
  { induction raw as [ | p raw IH]; intros seen acc Hok; simpl.
    - now rewrite app_nil_r.
    - replace (seen ++ p :: raw) with ((seen ++ [p]) ++ raw)
        by now rewrite <- app_assoc.
      apply IH. now apply add_point_ok. }
  apply (H [] []). intros d. reflexivity.
Qed.

Lemma roll_up_keys_NoDup raw : NoDup (dict_keys (roll_up raw)).
Proof.
  unfold roll_up.
  assert (H : forall acc, NoDup (dict_keys acc) ->
            NoDup (dict_keys (fold_left add_point raw acc))).
  { induction raw as [ | p raw IH]; intros acc Hacc; simpl; [ exact Hacc | ].
    apply IH. rewrite add_point_unfold.
    now apply PyFacts.dict_set_keys_NoDup. }
  apply H. constructor.
Qed.

Lemma on_day_In raw d :
  existsb (on_day d) raw = true <-> In d (map date_of raw).
Proof.
  rewrite existsb_exists, in_map_iff. unfold on_day. split.
  - intros [p [Hp E]]. apply PyFacts.pystr_eqb_eq in E. now exists p.
  - intros [p [E Hp]]. exists p. split; [ exact Hp | ].
    now apply PyFacts.pystr_eqb_eq.
Qed.

(** The days of [daily_heat] are the days of the points, and the heat of
    a day is the heat of its points. *)
Lemma roll_up_get raw d :
  In d (map date_of raw) -> dict_get (roll_up raw) d = Some (day_heat raw d).
Proof.
  intros H. rewrite (roll_up_ok raw d).
  now apply on_day_In in H as ->.
Qed.

Lemma roll_up_keys raw d :
  In d (dict_keys (roll_up raw)) <-> In d (map date_of raw).
Proof.
  rewrite <- on_day_In. pose proof (roll_up_ok raw d) as H.
  destruct (existsb (on_day d) raw); split; trivial; try discriminate.
  - intros _. now apply (PyFacts.dict_get_keys_In _ _ _ H).
  - intros Hin. apply PyFacts.dict_get_None_keys in H. contradiction.
Qed.

Lemma roll_up_not_nil raw : raw <> [] -> roll_up raw <> [].
Proof.
  intros Hne Hnil. destruct raw as [ | p raw]; [ congruence | ].
  assert (Hin : In (date_of p) (dict_keys (roll_up (p :: raw))))
    by (apply roll_up_keys; now left).
  now rewrite Hnil in Hin.
Qed.

(** The greatest heat of a day and the first day that has it. *)
Lemma peak_found (daily : dict Z) :
  daily <> [] -> NoDup (dict_keys daily) ->
  exists m max_date,
    max_of (dict_values daily) = Ok m
    /\ first_date_with daily m = Ok max_date
    /\ dict_get daily max_date = Some m
    /\ Forall (fun h => h <= m) (dict_values daily).
Proof.
  intros Hne Hnd.
  destruct (max_of_spec (dict_values daily)) as [m [Hm [Hin Hall]]].
  { now destruct daily. }
  apply in_map_iff in Hin. destruct Hin as [[d0 h0] [Hh0 Hin0]].
  simpl in Hh0. subst h0.
  unfold first_date_with.
  destruct (filter (fun dh => snd dh =? m) daily) as [ | [d h] rest] eqn:F.
  - exfalso.
    assert (Hf : In (d0, m) (filter (fun dh => snd dh =? m) daily))
      by (apply filter_In; split; [ exact Hin0 | apply Z.eqb_refl ]).
    now rewrite F in Hf.
  - assert (Hf : In (d, h) (filter (fun dh => snd dh =? m) daily))
      by (rewrite F; now left).
    apply filter_In in Hf. destruct Hf as [Hd Hh]. simpl in Hh.
    apply Z.eqb_eq in Hh. subst h.
    exists m, d. rewrite F. repeat split; trivial.
    now apply PyFacts.dict_In_get.
Qed.

Lemma map_Some_inj {A B C} (f : A -> C) (g : B -> C) (l : list A) :
  forall l' : list B,
    map (fun a => Some (f a)) l = map (fun b => Some (g b)) l' ->
    map f l = map g l'.
Proof.
  induction l as [ | a l IH]; intros [ | b l'] H; simpl in *;
    try discriminate; [ reflexivity | ].
  injection H as Ha H. f_equal; [ exact Ha | now apply IH ].
Qed.

Section RollUp.

Variable fromisoformat : pystr -> option datetime.

Lemma build_points_ok daily n max_date dates : forall stamps i,
  (forall d, In d dates -> dict_get daily d <> None) ->
  map fromisoformat dates = map Some stamps ->
  exists points,
    build_points fromisoformat daily n max_date i dates = Ok points
    /\ map lp_timestamp points = stamps
    /\ map (fun p => Some (lp_heat_score p)) points
       = map (dict_get daily) dates
    /\ map lp_phase points
       = map (fun id => phase_at n max_date (fst id) (snd id))
           (enumerate_from i dates).
Proof.
  induction dates as [ | d dates IH]; intros [ | t stamps] i Hget Hparse;
    simpl in *; try discriminate.
  - exists []. repeat split.
  - injection Hparse as Hd Hrest.
    destruct (dict_get daily d) as [h | ] eqn:E;
      [ | exfalso; apply (Hget d); auto ].
    destruct (IH stamps (i + 1)) as [points [Hp [Hts [Hh Hph]]]]; auto.
    simpl. rewrite Hd. simpl. rewrite Hp. simpl.
    eexists. split; [ reflexivity | ]. simpl.
    rewrite Hts, Hh, Hph. repeat split.
Qed.

(** The loop raises nothing but the [ValueError] of a day that does not
    parse. *)
Lemma build_points_raises daily n max_date dates e : forall i,
  (forall d, In d dates -> dict_get daily d <> None) ->
  build_points fromisoformat daily n max_date i dates = Raise e ->
  e = ValueError.
Proof.
  induction dates as [ | d dates IH]; intros i Hget; simpl; [ discriminate | ].
  destruct (dict_get daily d) as [h | ] eqn:E;
    [ | exfalso; apply (Hget d); [ now left | exact E ] ].
  simpl. destruct (fromisoformat d); simpl; [ | now intros [= <-] ].
  destruct (build_points fromisoformat daily n max_date (i + 1) dates)
    eqn:B; simpl; [ discriminate | ].
  intros [= <-]. apply (IH (i + 1)); [ | exact B ].
  intros d' Hd'. apply Hget. now right.
Qed.

Lemma parse_all_some (dates : list pystr) :
  Forall (fun d => fromisoformat d <> None) dates ->
  exists stamps, map fromisoformat dates = map Some stamps.
Proof.
  induction 1 as [ | d dates Hd Hall [stamps IH]].
  - now exists [].
  - destruct (fromisoformat d) as [t | ] eqn:E; [ | congruence ].
    exists (t :: stamps). simpl. now rewrite E, IH.
Qed.

Lemma last_of_some (l : list pystr) :
  l <> [] -> exists x, last_of l = Ok x /\ In x l /\ last l [] = x.
Proof.
  intros Hne. destruct (exists_last Hne) as [l' [x ->]].
  exists x. unfold last_of. rewrite rev_unit, last_last.
  repeat split. apply in_app_iff. right. now left.
Qed.

(** The days of the route: the days of the points, each once, in
    ascending order. *)
Lemma sorted_dates_spec raw :
  PyFacts.ascending (sorted (dict_keys (roll_up raw)))
  /\ forall d,
       In d (sorted (dict_keys (roll_up raw))) <-> In d (map date_of raw).
Proof.
  split.
  - apply PyFacts.sorted_NoDup_ascending, roll_up_keys_NoDup.
  - intros d. rewrite <- roll_up_keys. split.
    + apply Permutation_in, PyFacts.sorted_perm.
    + apply Permutation_in. symmetry. apply PyFacts.sorted_perm.
Qed.

(** A request with points raises nothing but the [ValueError] of a day
    that does not parse. *)
Lemma lifecycle_of_raises kw raw e :
  raw <> [] -> lifecycle_of fromisoformat kw raw = Raise e -> e = ValueError.
Proof.
  intros Hne. unfold lifecycle_of.
  assert (Hnil : is_nil raw = false) by now destruct raw.
  rewrite Hnil.
  destruct (peak_found (roll_up raw) (roll_up_not_nil raw Hne)
              (roll_up_keys_NoDup raw)) as [m [md [Hm [Hmd [Hget Hall]]]]].
  destruct (sorted_dates_spec raw) as [Hasc Hdates].
  set (dates := sorted (dict_keys (roll_up raw))) in *.
  rewrite Hm. simpl. rewrite Hmd. simpl.
  destruct (build_points fromisoformat (roll_up raw)
              (Z.of_nat (List.length dates)) md 0 dates) as [pts | e'] eqn:B;
    simpl.
  - assert (Hsome : dates <> []).
    { intros Hd. destruct raw as [ | p raw']; [ congruence | ].
      assert (Hin : In (date_of p) dates) by (apply Hdates; now left).
      now rewrite Hd in Hin. }
    destruct (last_of_some dates Hsome) as [lst [Hlast _]]. rewrite Hlast.
    destruct (hd_error dates) as [first | ] eqn:Hhd; simpl;
      [ | now destruct dates ].
    destruct (fromisoformat first); simpl; [ | now intros [= <-] ].
    destruct (fromisoformat md); simpl; [ | now intros [= <-] ].
    destruct (1 <? Z.of_nat (List.length dates)); simpl; [ | discriminate ].
    destruct (fromisoformat lst); simpl; [ discriminate | now intros [= <-] ].
  - intros [= <-]. eapply build_points_raises; [ | exact B ].
    intros d Hd. apply Hdates in Hd. rewrite (roll_up_get raw d Hd).
    discriminate.
Qed.

(** What the route returns from [lifecycle_raw] on, whatever the order of
    the points. *)
Lemma lifecycle_of_rolls_up kw raw :
  raw <> [] ->
  Forall (fun p => fromisoformat (date_of p) <> None) raw ->
  exists ld dates max_date,
    lifecycle_of fromisoformat kw raw = Ok ld
    /\ ld_keyword ld = kw
    /\ PyFacts.ascending dates
    /\ (forall d, In d dates <-> In d (map date_of raw))
    /\ map (fun p => Some (lp_timestamp p)) (data_points ld)
       = map fromisoformat dates
    /\ map lp_heat_score (data_points ld) = map (day_heat raw) dates
    /\ map lp_phase (data_points ld)
       = map (fun id => phase_at (total_days ld) max_date (fst id) (snd id))
           (enumerate_from 0 dates)
    /\ total_days ld = Z.of_nat (List.length dates)
    /\ In max_date dates
    /\ (forall d, In d dates -> day_heat raw d <= day_heat raw max_date)
    /\ fromisoformat max_date = Some (peak_date ld)
    /\ hd_error (map fromisoformat dates) = Some (Some (birth_date ld))
    /\ death_date ld
       = if 1 <? total_days ld then last (map fromisoformat dates) None
         else None.
Proof.
  intros Hne Hparse.
  assert (Hnil : is_nil raw = false) by now destruct raw.
  destruct (peak_found (roll_up raw) (roll_up_not_nil raw Hne)
              (roll_up_keys_NoDup raw)) as [m [md [Hm [Hmd [Hget Hall]]]]].
  destruct (sorted_dates_spec raw) as [Hasc Hdates].
  assert (Hok : forall d, In d (sorted (dict_keys (roll_up raw))) ->
            dict_get (roll_up raw) d = Some (day_heat raw d)).
  { intros d Hd. apply roll_up_get. now apply Hdates. }
  assert (Hp : forall d, In d (sorted (dict_keys (roll_up raw))) ->
            fromisoformat d <> None).
  { intros d Hd. apply Hdates, in_map_iff in Hd. destruct Hd as [p [<- Hin]].
    rewrite Forall_forall in Hparse. now apply Hparse. }
  assert (Hmdin : In md (sorted (dict_keys (roll_up raw)))).
  { apply Hdates, roll_up_keys. now apply (PyFacts.dict_get_keys_In _ _ _ Hget). }
  unfold lifecycle_of. rewrite Hnil.
  set (dates := sorted (dict_keys (roll_up raw))) in *.
  destruct (parse_all_some dates) as [stamps Hstamps];
    [ now apply Forall_forall | ].
  destruct (build_points_ok (roll_up raw) (Z.of_nat (List.length dates)) md
              dates stamps 0) as [pts [Hpts [Hts [Hh Hph]]]]; trivial.
  { intros d Hd. rewrite (Hok d Hd). discriminate. }
  rewrite Hm. simpl. rewrite Hmd. simpl. rewrite Hpts. simpl.
  destruct dates as [ | d0 ds] eqn:D.
  { exfalso. destruct raw as [ | p raw']; [ congruence | ].
    apply (proj2 (Hdates (date_of p))). now left. }
  rewrite <- D in *. assert (Hd0 : In d0 dates) by (rewrite D; now left).
  replace (hd_error dates) with (Some d0) by now rewrite D.
  simpl.
  destruct (fromisoformat d0) as [t0 | ] eqn:E0;
    [ | exfalso; now apply (Hp d0) ].
  destruct (fromisoformat md) as [tm | ] eqn:Em;
    [ | exfalso; now apply (Hp md) ].
  simpl.
  assert (Hdeath : exists death,
            (if 1 <? Z.of_nat (List.length dates)
             then bind (last_of dates)
                    (fun lst => bind (of_option ValueError (fromisoformat lst))
                                  (fun dt => Ok (Some dt)))
             else Ok None) = Ok death
            /\ death = if 1 <? Z.of_nat (List.length dates)
                       then last (map fromisoformat dates) None else None).
  { destruct (1 <? Z.of_nat (List.length dates)); [ | now exists None ].
    destruct (last_of_some dates) as [x [Hx [Hin Hlast]]];
      [ rewrite D; discriminate | ].
    rewrite Hx. simpl.
    destruct (fromisoformat x) as [tx | ] eqn:Ex;
      [ | exfalso; now apply (Hp x) ].
    simpl. exists (Some tx). split; [ reflexivity | ].
    destruct (exists_last (l := dates)) as [l' [y Ey]];
      [ rewrite D; discriminate | ].
    rewrite Ey in Hlast |- *. rewrite last_last in Hlast. subst y.
    rewrite map_app. simpl. now rewrite last_last. }
  destruct Hdeath as [death [Hdeath Hdv]]. rewrite Hdeath. simpl.
  eexists. exists dates, md. split; [ reflexivity | ]. simpl.
  split; [ reflexivity | ].
  split; [ exact Hasc | ]. split; [ exact Hdates | ].
  split; [ now rewrite <- Hts, map_map in Hstamps | ].
  split.
  { assert (Hs : map (fun p => Some (lp_heat_score p)) pts
                 = map (fun d => Some (day_heat raw d)) dates).
    { rewrite Hh. apply map_ext_in. exact Hok. }
    now apply map_Some_inj. }
  split; [ exact Hph | ]. split; [ reflexivity | ].
  split; [ exact Hmdin | ].
  split.
  { intros d Hd. rewrite Forall_forall in Hall.
    pose proof (Hok d Hd) as Hd'. pose proof (Hok md Hmdin) as Hmd'.
    assert (day_heat raw md = m) by congruence.
    assert (In (day_heat raw d) (dict_values (roll_up raw)))
      by now apply (PyFacts.dict_get_In_values _ d).
    specialize (Hall _ H0). lia. }
  split; [ exact Em | ].
  split; [ | exact Hdv ].
  destruct dates as [ | d1 ds1]; [ discriminate | ].
  injection D as -> ->. simpl. now rewrite E0.
Qed.

End RollUp.


(** ** The route [get_keyword_lifecycle] *)

(** The points the route reads for the keyword: those of the first trend
    that has it. *)
Definition points_for (raw_trends : list trend) (kw : pystr)
  : option (list heat_point) :=
  match find (fun t => pystr_eqb (t_keyword t) kw) raw_trends with
  | Some t => Some (match t_lifecycle_data t with
                    | Some points => points
                    | None => []
                    end)
  | None => None
  end.

Lemma get_keyword_lifecycle_points fromisoformat raw_trends kw :
  get_keyword_lifecycle fromisoformat raw_trends kw
  = match points_for raw_trends kw with
    | Some raw => lifecycle_of fromisoformat kw raw
    | None => Raise (HTTPException 404)
    end.
Proof.
  unfold get_keyword_lifecycle, points_for.
  now destruct (find _ raw_trends).
Qed.

(** X19.  However the points of the keyword are ordered and however many a day
    has, the route returns one point for each day of the points, in
    ascending order of the days, with the heat of the points of that day
    added up; the phases follow the chain of tests with a day of greatest
    heat as [max_date], and the birth, peak and death dates are the first
    day, that day and, where there are two days or more, the last day. *)
Theorem lifecycle_rolls_up_days fromisoformat raw_trends kw raw :
  points_for raw_trends kw = Some raw ->
  raw <> [] ->
  Forall (fun p => fromisoformat (date_of p) <> None) raw ->
  exists ld dates max_date,
    get_keyword_lifecycle fromisoformat raw_trends kw = Ok ld
    /\ ld_keyword ld = kw
    /\ PyFacts.ascending dates
    /\ (forall d, In d dates <-> In d (map date_of raw))
    /\ map (fun p => Some (lp_timestamp p)) (data_points ld)
       = map fromisoformat dates
    /\ map lp_heat_score (data_points ld) = map (day_heat raw) dates
    /\ map lp_phase (data_points ld)
       = map (fun id => phase_at (total_days ld) max_date (fst id) (snd id))
           (enumerate_from 0 dates)
    /\ total_days ld = Z.of_nat (List.length dates)
    /\ In max_date dates
    /\ (forall d, In d dates -> day_heat raw d <= day_heat raw max_date)
    /\ fromisoformat max_date = Some (peak_date ld)
    /\ hd_error (map fromisoformat dates) = Some (Some (birth_date ld))
    /\ death_date ld
       = if 1 <? total_days ld then last (map fromisoformat dates) None
         else None.
Proof.
  intros Hpoints Hne Hparse.
  rewrite get_keyword_lifecycle_points, Hpoints.
  now apply lifecycle_of_rolls_up.
Qed.

Lemma parses_dec (fromisoformat : pystr -> option datetime)
    (point : heat_point) :
  {fromisoformat (date_of point) <> None}
  + {~ fromisoformat (date_of point) <> None}.
Proof.
  destruct (fromisoformat (date_of point));
    [ left; discriminate | right; intros H; now apply H ].
Qed.

(** X20.  The route fails in two ways only.  It answers 404 where no trend has
    the keyword or the first that has it has no points; and it raises the
    [ValueError] of a point whose day does not parse.  None of its own
    look-ups ([max], the first day of greatest heat, the heat of a day,
    the first and the last day) ever fails. *)
Theorem lifecycle_route_errors fromisoformat raw_trends kw e :
  get_keyword_lifecycle fromisoformat raw_trends kw = Raise e ->
  (e = HTTPException 404
   /\ (points_for raw_trends kw = None \/ points_for raw_trends kw = Some []))
  \/ (e = ValueError
      /\ exists raw point,
           points_for raw_trends kw = Some raw
           /\ In point raw
           /\ fromisoformat (date_of point) = None).
Proof.
  rewrite get_keyword_lifecycle_points.
  destruct (points_for raw_trends kw) as [[ | p raw] | ].
  - intros [= <-]. left. split; [ reflexivity | now right ].
  - intros H. right.
    assert (Hne : p :: raw <> []) by discriminate.
    split; [ now apply (lifecycle_of_raises fromisoformat kw (p :: raw)) | ].
    destruct (Forall_Exists_dec _ (parses_dec fromisoformat)
                (p :: raw)) as [Hall | Hex].
    + destruct (lifecycle_of_rolls_up fromisoformat kw (p :: raw) Hne Hall)
        as [ld [dates [md [Hld _]]]].
      congruence.
    + apply Exists_exists in Hex. destruct Hex as [q [Hq Hn]].
      exists (p :: raw), q. repeat split; trivial.
      destruct (fromisoformat (date_of q)); [ | reflexivity ].
      exfalso. apply Hn. discriminate.
  - intros [= <-]. left. split; [ reflexivity | now left ].
Qed.

(** ** Instances *)

(** Two platforms on two days, the later day first. *)
Definition two_platforms : list heat_point :=
  [ day "2024-03-02T08:00:00" 5; day "2024-03-01T08:00:00" 7;
    day "2024-03-02T09:00:00" 4 ].

Definition two_platform_trends : list trend :=
  [ mk_trend (py "kw") (Some two_platforms) ].

Lemma two_platforms_parse :
  Forall (fun p => PyLib.fromisoformat (date_of p) <> None) two_platforms.
Proof.
  repeat constructor; vm_compute; discriminate.
Qed.

Lemma lifecycle_rolls_up_days_two_platforms :
  exists ld dates max_date,
    get_keyword_lifecycle PyLib.fromisoformat two_platform_trends (py "kw")
    = Ok ld
    /\ ld_keyword ld = py "kw"
    /\ PyFacts.ascending dates
    /\ (forall d, In d dates <-> In d (map date_of two_platforms))
    /\ map (fun p => Some (lp_timestamp p)) (data_points ld)
       = map PyLib.fromisoformat dates
    /\ map lp_heat_score (data_points ld)
       = map (day_heat two_platforms) dates
    /\ map lp_phase (data_points ld)
       = map (fun id => phase_at (total_days ld) max_date (fst id) (snd id))
           (enumerate_from 0 dates)
    /\ total_days ld = Z.of_nat (List.length dates)
    /\ In max_date dates
    /\ (forall d, In d dates ->
          day_heat two_platforms d <= day_heat two_platforms max_date)
    /\ PyLib.fromisoformat max_date = Some (peak_date ld)
    /\ hd_error (map PyLib.fromisoformat dates)
       = Some (Some (birth_date ld))
    /\ death_date ld
       = if 1 <? total_days ld
         then last (map PyLib.fromisoformat dates) None
         else None.
Proof.
  assert (Hne : two_platforms <> []) by discriminate.
  exact (lifecycle_rolls_up_days PyLib.fromisoformat two_platform_trends
           (py "kw") two_platforms eq_refl Hne two_platforms_parse).
Defined.

Lemma lifecycle_route_errors_unknown_keyword :
  get_keyword_lifecycle PyLib.fromisoformat two_platform_trends (py "other")
  = Raise (HTTPException 404)
  /\ ((HTTPException 404 = HTTPException 404
       /\ (points_for two_platform_trends (py "other") = None
           \/ points_for two_platform_trends (py "other") = Some []))
      \/ (HTTPException 404 = ValueError
          /\ exists raw point,
               points_for two_platform_trends (py "other") = Some raw
               /\ In point raw
               /\ PyLib.fromisoformat (date_of point) = None)).
Proof.
  split; [ reflexivity | ].
  exact (lifecycle_route_errors PyLib.fromisoformat two_platform_trends
           (py "other") (HTTPException 404) eq_refl).
Defined.

End Lifecycle.

(* ================================================================== *)
(** * services/github_archive.py                                       *)
(* ================================================================== *)

Module Archive.
Local Open Scope Z_scope.

Record HotSearchItem : Type := mk_HotSearchItem {
  title : pystr;
  url : pystr;
  date : pystr
}.

Record YearlyTrendItem : Type := mk_YearlyTrendItem {
  keyword : pystr;
  total_appearances : Z;
  days_on_list : Z;
  peak_date : pystr;
  first_seen : pystr;
  last_seen : pystr;
  avg_appearances_per_day : R;
  burst_score : R;
  peak_intensity : Z
}.

(** A value of [keyword_stats]; [st_dates] is the set of dates, kept as a
    list without repetition. *)
Record stats : Type := mk_stats {
  st_total_appearances : Z;
  st_dates : list pystr;
  st_first_seen : pystr;
  st_last_seen : pystr;
  st_date_counts : dict Z
}.

(** [math.log(x, 5)]; it is called on [days_on_list > 10] only, where it
    has a value. *)
Definition log5 (x : R) : R := (ln x / ln 5)%R.

Definition calculate_burst_score
    (total_appearances days_on_list peak_intensity lifespan_days : Z) : R :=
  if days_on_list =? 0 then 0%R
  else
    let base_score := IZR total_appearances in
    let days_weight :=
      if days_on_list =? 1 then (3 / 10)%R
      else if days_on_list =? 2 then (6 / 10)%R
      else if days_on_list <=? 10 then 1%R
      else (1 / log5 (IZR days_on_list))%R in
    let concentration := (IZR total_appearances / IZR days_on_list)%R in
    let lifespan_penalty :=
      if lifespan_days <=? 14 then 1%R
      else if lifespan_days <=? 30 then (8 / 10)%R
      else if lifespan_days <=? 60 then (5 / 10)%R
      else (3 / 10)%R in
    let burst_score :=
      (base_score * days_weight * concentration * lifespan_penalty)%R in
    round2 burst_score.



(** [x in l] for a list of strings. *)
Definition list_mem (x : pystr) (l : list pystr) : bool :=
  existsb (pystr_eqb x) l.

(** [s.add(x)]. *)
Definition set_add (l : list pystr) (x : pystr) : list pystr :=
  if list_mem x l then l else l ++ [x].

(** [counter[k] += 1]; a missing key counts 0. *)
Definition counter_incr (c : dict Z) (k : pystr) : dict Z :=
  dict_set c k (match dict_get c k with
                | Some n => n + 1
                | None => 0 + 1
                end).

(** [counter.most_common(1)]: the first of the entries with the greatest
    count, in insertion order. *)
Definition most_common_1 (c : dict Z) : option (pystr * Z) :=
  fold_left
    (fun best kv =>
       match best with
       | None => Some kv
       | Some b => if snd b <? snd kv then Some kv else best
       end)
    c None.

Definition new_stats (date : pystr) : stats :=
  mk_stats 0 [] date date [].

Definition update_stats (date : pystr) (st : stats) : stats :=
  mk_stats (st_total_appearances st + 1)
    (set_add (st_dates st) date)
    (if pystr_ltb date (st_first_seen st) then date else st_first_seen st)
    (if pystr_ltb (st_last_seen st) date then date else st_last_seen st)
    (counter_incr (st_date_counts st) date).

Section Aggregate.

(** [is_blacklisted]: the deny-list test of a title, a pure function of
    the title over the tables BLACKLIST_KEYWORDS and BLACKLIST_PATTERNS. *)
Variable is_blacklisted : pystr -> bool.

(** [datetime.strptime(s, "%Y-%m-%d")]: [None] stands for its
    [ValueError]. *)
Variable strptime_ymd : pystr -> option datetime.

(** The body of the loop over [items]. *)
Definition add_item (filter_blacklist : bool) (keyword_stats : dict stats)
    (item : HotSearchItem) : dict stats :=
  let kw := title item in
  let d := date item in
  if filter_blacklist && is_blacklisted kw then keyword_stats
  else
    let keyword_stats :=
      if dict_mem keyword_stats kw then keyword_stats
      else dict_set keyword_stats kw (new_stats d) in
    match dict_get keyword_stats kw with
    | Some st => dict_set keyword_stats kw (update_stats d st)
    | None => keyword_stats
    end.

(** The body of the loop over [keyword_stats.items()]. *)
Definition yearly_item (kw : pystr) (st : stats) : result YearlyTrendItem :=
  peak <- of_option IndexError (most_common_1 (st_date_counts st)) ;;
  let days := Z.of_nat (List.length (st_dates st)) in
  first_dt <- of_option ValueError (strptime_ymd (st_first_seen st)) ;;
  last_dt <- of_option ValueError (strptime_ymd (st_last_seen st)) ;;
  let lifespan_days := timedelta_days last_dt first_dt + 1 in
  let burst :=
    calculate_burst_score (st_total_appearances st) days (snd peak)
      lifespan_days in
  Ok (mk_YearlyTrendItem kw (st_total_appearances st) days (fst peak)
        (st_first_seen st) (st_last_seen st)
        (round2 (IZR (st_total_appearances st) / IZR (Z.max days 1)))
        burst (snd peak)).

Fixpoint yearly_items (keyword_stats : dict stats)
  : result (list YearlyTrendItem) :=
  match keyword_stats with
  | [] => Ok []
  | (kw, st) :: rest =>
      r <- yearly_item kw st ;;
      rs <- yearly_items rest ;;
      Ok (r :: rs)
  end.

(** The list [results] before it is sorted. *)
Definition unsorted_stats (items : list HotSearchItem)
    (filter_blacklist : bool) : result (list YearlyTrendItem) :=
  yearly_items (fold_left (add_item filter_blacklist) items []).

Definition sort_results (sort_by : pystr) (results : list YearlyTrendItem)
  : list YearlyTrendItem :=
  if pystr_eqb sort_by (py "burst")
  then sort_reverse Rltb burst_score results
  else if pystr_eqb sort_by (py "days")
  then sort_reverse Z.ltb days_on_list results
  else sort_reverse Z.ltb total_appearances results.

Definition aggregate_yearly_stats (items : list HotSearchItem)
    (filter_blacklist : bool) (sort_by : pystr)
  : result (list YearlyTrendItem) :=
  results <- unsorted_stats items filter_blacklist ;;
  Ok (sort_results sort_by results).

(** The titles that pass the filter, each once, in the order in which
    they are first met. *)
Definition surviving_titles (items : list HotSearchItem)
    (filter_blacklist : bool) : list pystr :=
  fold_left
    (fun seen item =>
       if filter_blacklist && is_blacklisted (title item) then seen
       else set_add seen (title item))
    items [].

End Aggregate.

(** ** What the statements below speak of *)

(** The keywords of a list stand in ascending, or in descending,
    lexicographic order. *)
Definition keywords_ascending (results : list YearlyTrendItem) : Prop :=
  StronglySorted (fun a b => pystr_ltb b a = false) (map keyword results).

Definition keywords_descending (results : list YearlyTrendItem) : Prop :=
  StronglySorted (fun a b => pystr_ltb a b = false) (map keyword results).

Definition hot (t : string) (d : string) : HotSearchItem :=
  mk_HotSearchItem (py t) (py "https://s.weibo.com") (py d).

(** Three titles, each listed once on the same day. *)
Definition three_titles : list HotSearchItem :=
  [ hot "b" "2024-05-01"; hot "a" "2024-05-01"; hot "c" "2024-05-01" ].

(** A deny-list that lets every title pass. *)
Definition nothing_blacklisted (kw : pystr) : bool := false.

(** ** The burst score *)






(** ** The statistics of a corpus *)

Section AggregateFacts.

Variable is_blacklisted : pystr -> bool.
Variable strptime_ymd : pystr -> option datetime.

Lemma add_item_unfold filter_blacklist keyword_stats item :
  add_item is_blacklisted filter_blacklist keyword_stats item
  = if filter_blacklist && is_blacklisted (title item) then keyword_stats
    else dict_set keyword_stats (title item)
           (update_stats (date item)
              (match dict_get keyword_stats (title item) with
               | Some st => st
               | None => new_stats (date item)
               end)).
Proof.
  unfold add_item, dict_mem.
  destruct (filter_blacklist && is_blacklisted (title item));
    [ reflexivity | ].
  destruct (dict_get keyword_stats (title item)) as [st | ] eqn:E.
  - now rewrite E.
  - now rewrite PyFacts.dict_get_set_same, PyFacts.dict_set_set.
Qed.

(** The first and last day of an entry are days of the corpus, and its
    counter is not empty. *)
Definition stats_ok (dates : list pystr) (st : stats) : Prop :=
  In (st_first_seen st) dates /\ In (st_last_seen st) dates
  /\ st_date_counts st <> [].

Lemma update_stats_ok dates d st :
  In d dates -> In (st_first_seen st) dates -> In (st_last_seen st) dates ->
  stats_ok dates (update_stats d st).
Proof.
  intros Hd Hf Hl. unfold stats_ok, update_stats; simpl.
  repeat split.
  - now destruct (pystr_ltb d (st_first_seen st)).
  - now destruct (pystr_ltb (st_last_seen st) d).
  - apply PyFacts.dict_set_not_nil.
Qed.

Lemma add_item_ok dates filter_blacklist keyword_stats item :
  In (date item) dates ->
  Forall (stats_ok dates) (dict_values keyword_stats) ->
  Forall (stats_ok dates)
    (dict_values (add_item is_blacklisted filter_blacklist keyword_stats item)).
Proof.
  intros Hd Hok. rewrite add_item_unfold.
  destruct (filter_blacklist && is_blacklisted (title item)); [ exact Hok | ].
  apply Forall_forall. intros st Hst.
  apply PyFacts.dict_values_set in Hst. rewrite Forall_forall in Hok.
  destruct Hst as [-> | Hst]; [ | now apply Hok ].
  destruct (dict_get keyword_stats (title item)) as [st0 | ] eqn:E.
  - apply PyFacts.dict_get_In_values in E.
    destruct (Hok _ E) as [Hf [Hl _]]. now apply update_stats_ok.
  - now apply update_stats_ok.
Qed.

Lemma fold_add_item_ok dates filter_blacklist items : forall keyword_stats,
  Forall (fun it => In (date it) dates) items ->
  Forall (stats_ok dates) (dict_values keyword_stats) ->
  Forall (stats_ok dates)
    (dict_values
       (fold_left (add_item is_blacklisted filter_blacklist) items
          keyword_stats)).
Proof.
  induction items as [ | item items IH]; intros ks Hin Hok; simpl;
    [ exact Hok | ].
  inversion Hin; subst. apply IH; trivial. now apply add_item_ok.
Qed.

Lemma fold_add_item_keys filter_blacklist items : forall keyword_stats,
  dict_keys
    (fold_left (add_item is_blacklisted filter_blacklist) items keyword_stats)
  = fold_left
      (fun seen item =>
         if filter_blacklist && is_blacklisted (title item) then seen
         else set_add seen (title item))
      items (dict_keys keyword_stats).
Proof.
  induction items as [ | item items IH]; intros ks; simpl; [ reflexivity | ].
  rewrite IH. f_equal. rewrite add_item_unfold.
  destruct (filter_blacklist && is_blacklisted (title item));
    [ reflexivity | ].
  apply PyFacts.dict_keys_set.
Qed.

Lemma most_common_1_some (c : dict Z) :
  c <> [] -> exists peak, most_common_1 c = Some peak.
Proof.
  destruct c as [ | kv c]; [ congruence | intros _ ].
  unfold most_common_1. simpl. generalize kv.
  induction c as [ | kv' c IH]; intros b; simpl; [ now exists b | ].
  destruct (snd b <? snd kv'); apply IH.
Qed.

Lemma yearly_items_ok dates keyword_stats :
  Forall (fun d => strptime_ymd d <> None) dates ->
  Forall (stats_ok dates) (dict_values keyword_stats) ->
  exists results,
    yearly_items strptime_ymd keyword_stats = Ok results
    /\ map keyword results = dict_keys keyword_stats.
Proof.
  intros Hparse. rewrite Forall_forall in Hparse.
  induction keyword_stats as [ | [kw st] ks IH]; simpl; intros Hok;
    [ now exists [] | ].
  inversion Hok as [ | ? ? [Hf [Hl Hc]] Hok']; subst.
  destruct (IH Hok') as [rs [Hrs Hkeys]].
  destruct (most_common_1_some _ Hc) as [peak Hpeak].
  destruct (strptime_ymd (st_first_seen st)) as [first_dt | ] eqn:E1;
    [ | now apply Hparse in Hf ].
  destruct (strptime_ymd (st_last_seen st)) as [last_dt | ] eqn:E2;
    [ | now apply Hparse in Hl ].
  unfold yearly_item. rewrite Hpeak, E1, E2. simpl. rewrite Hrs. simpl.
  eexists. split; [ reflexivity | ]. simpl. now rewrite Hkeys.
Qed.

(** An entry has been counted at least once, on at least one day. *)
Definition counts_ok (st : stats) : Prop :=
  1 <= st_total_appearances st /\ st_dates st <> [].

Lemma add_item_counts_ok filter_blacklist keyword_stats item :
  Forall counts_ok (dict_values keyword_stats) ->
  Forall counts_ok
    (dict_values (add_item is_blacklisted filter_blacklist keyword_stats item)).
Proof.
  intros Hok. rewrite add_item_unfold.
  destruct (filter_blacklist && is_blacklisted (title item)); [ exact Hok | ].
  apply Forall_forall. intros st Hst.
  apply PyFacts.dict_values_set in Hst. rewrite Forall_forall in Hok.
  destruct Hst as [-> | Hst]; [ | now apply Hok ].
  assert (H0 : 0 <= st_total_appearances
                      (match dict_get keyword_stats (title item) with
                       | Some st => st
                       | None => new_stats (date item)
                       end)).
  { destruct (dict_get keyword_stats (title item)) as [st0 | ] eqn:E;
      [ | simpl; lia ].
    apply PyFacts.dict_get_In_values in E. destruct (Hok _ E). lia. }
  unfold counts_ok, update_stats, set_add; simpl. split; [ lia | ].
  destruct (list_mem (date item) _) eqn:E.
  - intros Hnil. rewrite Hnil in E. discriminate.
  - now destruct (st_dates _).
Qed.

Lemma fold_add_item_counts_ok filter_blacklist items : forall keyword_stats,
  Forall counts_ok (dict_values keyword_stats) ->
  Forall counts_ok
    (dict_values
       (fold_left (add_item is_blacklisted filter_blacklist) items
          keyword_stats)).
Proof.
  induction items as [ | item items IH]; intros ks Hok; simpl;
    [ exact Hok | ].
  apply IH. now apply add_item_counts_ok.
Qed.

(** What C6 speaks of: a record of the result. *)
Definition burst_ok (t : YearlyTrendItem) : Prop :=
  1 <= total_appearances t /\ 1 <= days_on_list t
  /\ exists lifespan_days : Z,
       burst_score t
       = calculate_burst_score (total_appearances t) (days_on_list t)
           (peak_intensity t) lifespan_days.

Lemma yearly_items_burst keyword_stats : forall results,
  Forall counts_ok (dict_values keyword_stats) ->
  yearly_items strptime_ymd keyword_stats = Ok results ->
  Forall burst_ok results.
Proof.
  induction keyword_stats as [ | [kw st] ks IH]; simpl; intros results Hok.
  - intros [= <-]. constructor.
  - inversion Hok as [ | ? ? [Ht Hd] Hok']; subst.
    unfold yearly_item.
    destruct (most_common_1 (st_date_counts st)) as [peak | ]; simpl;
      [ | discriminate ].
    destruct (strptime_ymd (st_first_seen st)) as [first_dt | ]; simpl;
      [ | discriminate ].
    destruct (strptime_ymd (st_last_seen st)) as [last_dt | ]; simpl;
      [ | discriminate ].
    destruct (yearly_items strptime_ymd ks) as [rs | ] eqn:E; simpl;
      [ | discriminate ].
    intros [= <-]. constructor; [ | now apply IH ].
    unfold burst_ok; simpl. repeat split; trivial.
    + destruct (st_dates st); [ congruence | simpl; lia ].
    + eexists. reflexivity.
Qed.

(** Every record of the result has been counted at least once on at
    least one day, and its burst score is [calculate_burst_score] of its
    own counts. *)
Lemma aggregate_yearly_stats_burst items filter_blacklist sort_by results :
  aggregate_yearly_stats is_blacklisted strptime_ymd items filter_blacklist
    sort_by
  = Ok results ->
  Forall burst_ok results.
Proof.
  unfold aggregate_yearly_stats, unsorted_stats.
  destruct (yearly_items strptime_ymd _) as [unsorted | ] eqn:E; simpl;
    [ | discriminate ].
  intros [= <-].
  apply yearly_items_burst in E;
    [ | apply fold_add_item_counts_ok; constructor ].
  assert (Hperm : Permutation (sort_results sort_by unsorted) unsorted).
  { unfold sort_results.
    destruct (pystr_eqb sort_by (py "burst"));
      [ | destruct (pystr_eqb sort_by (py "days")) ];
      apply PyFacts.sort_reverse_perm. }
  rewrite Forall_forall in *. intros t Ht.
  apply E. eapply Permutation_in; eassumption.
Qed.

(** C7 (as amended).  For a corpus whose dates parse, and for each of
    the three sort modes, [aggregate_yearly_stats] returns the statistics
    sorted by descending value of the selected key (burst score, days on
    list, or total appearances for any other mode), one entry for each
    title that passes the filter; entries that are equal on that key stand
    in the order in which their titles are first met in the corpus. *)
Theorem aggregate_yearly_stats_order items filter_blacklist sort_by :
  Forall (fun it => strptime_ymd (date it) <> None) items ->
  exists unsorted results,
    unsorted_stats is_blacklisted strptime_ymd items filter_blacklist
    = Ok unsorted
    /\ aggregate_yearly_stats is_blacklisted strptime_ymd items
         filter_blacklist sort_by
       = Ok results
    /\ map keyword unsorted
       = surviving_titles is_blacklisted items filter_blacklist
    /\ Permutation results unsorted
    /\ (sort_by = py "burst" ->
        StronglySorted (fun a b => (burst_score b <= burst_score a)%R) results
        /\ forall x : R,
             filter (fun t => Reqb (burst_score t) x) results
             = filter (fun t => Reqb (burst_score t) x) unsorted)
    /\ (sort_by = py "days" ->
        StronglySorted (fun a b => days_on_list b <= days_on_list a) results
        /\ forall x : Z,
             filter (fun t => days_on_list t =? x) results
             = filter (fun t => days_on_list t =? x) unsorted)
    /\ (sort_by <> py "burst" -> sort_by <> py "days" ->
        StronglySorted
          (fun a b => total_appearances b <= total_appearances a) results
        /\ forall x : Z,
             filter (fun t => total_appearances t =? x) results
             = filter (fun t => total_appearances t =? x) unsorted).
Proof.
  intros Hparse.
  set (dates := map date items).
  assert (Hdates : Forall (fun d => strptime_ymd d <> None) dates).
  { unfold dates. now rewrite Forall_map. }
  assert (Hin : Forall (fun it => In (date it) dates) items).
  { apply Forall_forall. intros it Hit. unfold dates. now apply in_map. }
  destruct (yearly_items_ok dates
              (fold_left (add_item is_blacklisted filter_blacklist) items [])
              Hdates)
    as [unsorted [Hun Hkeys]].
  { apply fold_add_item_ok; [ exact Hin | constructor ]. }
  exists unsorted, (sort_results sort_by unsorted).
  split; [ exact Hun | ].
  split; [ unfold aggregate_yearly_stats, unsorted_stats; now rewrite Hun | ].
  split; [ rewrite Hkeys; apply fold_add_item_keys | ].
  assert (HZ : forall key : YearlyTrendItem -> Z,
    StronglySorted (fun a b => key b <= key a)
      (sort_reverse Z.ltb key unsorted)
    /\ forall x : Z,
         filter (fun t => key t =? x) (sort_reverse Z.ltb key unsorted)
         = filter (fun t => key t =? x) unsorted).
  { intros key. split.
    - pose proof (PyFacts.sort_reverse_sorted Z.ltb key
                    PyFacts.Z_ltb_asym PyFacts.Z_ltb_negtrans unsorted) as H.
      induction H as [ | a l Hs IH Ha]; constructor; trivial.
      eapply Forall_impl; [ | exact Ha ].
      intros b Hb. unfold PyFacts.key_ge in Hb. now apply Z.ltb_ge in Hb.
    - intros x.
      pose proof (PyFacts.sort_reverse_stable Z.ltb key
                    PyFacts.Z_ltb_negtrans x unsorted) as H.
      erewrite filter_ext in H by (intros; apply PyFacts.same_key_Z).
      rewrite H. apply filter_ext. intros; apply PyFacts.same_key_Z. }
  unfold sort_results.
  destruct (pystr_eqb sort_by (py "burst")) eqn:Eb.
  - apply PyFacts.pystr_eqb_eq in Eb.
    split; [ apply PyFacts.sort_reverse_perm | ].
    split; [ intros _ | split; [ | congruence ] ].
    + split.
      * pose proof (PyFacts.sort_reverse_sorted Rltb burst_score
                      PyFacts.Rltb_asym PyFacts.Rltb_negtrans unsorted) as H.
        induction H as [ | a l Hs IH Ha]; constructor; trivial.
        eapply Forall_impl; [ | exact Ha ].
        intros b Hb. unfold PyFacts.key_ge in Hb.
        now apply PyFacts.Rltb_ge in Hb.
      * intros x.
        pose proof (PyFacts.sort_reverse_stable Rltb burst_score
                      PyFacts.Rltb_negtrans x unsorted) as H.
        erewrite filter_ext in H by (intros; apply PyFacts.same_key_R).
        rewrite H. apply filter_ext. intros; apply PyFacts.same_key_R.
    + intros Hd. rewrite Hd in Eb. discriminate.
  - apply PyFacts.pystr_eqb_neq in Eb.
    destruct (pystr_eqb sort_by (py "days")) eqn:Ed.
    + apply PyFacts.pystr_eqb_eq in Ed.
      split; [ apply PyFacts.sort_reverse_perm | ].
      split; [ congruence | ].
      split; [ intros _; apply HZ | congruence ].
    + apply PyFacts.pystr_eqb_neq in Ed.
      split; [ apply PyFacts.sort_reverse_perm | ].
      split; [ congruence | ].
      split; [ congruence | intros _ _; apply HZ ].
Qed.

End AggregateFacts.


(** Three titles that are equal on every sort key come back in the order
    of the corpus, which is neither ascending nor descending in the
    keyword. *)
Lemma equal_keys_keep_corpus_order :
  exists results : list YearlyTrendItem,
    aggregate_yearly_stats nothing_blacklisted PyLib.strptime_ymd
      three_titles false (py "total")
    = Ok results
    /\ map keyword results = [ py "b"; py "a"; py "c" ]
    /\ map total_appearances results = [ 1; 1; 1 ]
    /\ ~ keywords_ascending results
    /\ ~ keywords_descending results.
Proof.
  eexists. split; [ reflexivity | ].
  split; [ reflexivity | ]. split; [ reflexivity | ].
  unfold keywords_ascending, keywords_descending.
  change (map keyword _) with [ py "b"; py "a"; py "c" ].
  split; intros H.
  - inversion H as [ | ? ? _ Hb]; subst.
    inversion Hb as [ | ? ? Hab _]; subst. discriminate Hab.
  - inversion H as [ | ? ? Hs _]; subst.
    inversion Hs as [ | ? ? _ Ha]; subst.
    inversion Ha as [ | ? ? Hac _]; subst. discriminate Hac.
Qed.

Lemma three_titles_parse :
  Forall (fun it => PyLib.strptime_ymd (date it) <> None) three_titles.
Proof.
  repeat constructor; vm_compute; discriminate.
Qed.

(** The three titles, sorted by burst score. *)
Lemma aggregate_yearly_stats_order_three_titles :
  exists unsorted results,
    unsorted_stats nothing_blacklisted PyLib.strptime_ymd three_titles false
    = Ok unsorted
    /\ aggregate_yearly_stats nothing_blacklisted PyLib.strptime_ymd
         three_titles false (py "burst")
       = Ok results
    /\ map keyword unsorted
       = surviving_titles nothing_blacklisted three_titles false
    /\ Permutation results unsorted
    /\ (py "burst" = py "burst" ->
        StronglySorted (fun a b => (burst_score b <= burst_score a)%R) results
        /\ forall x : R,
             filter (fun t => Reqb (burst_score t) x) results
             = filter (fun t => Reqb (burst_score t) x) unsorted)
    /\ (py "burst" = py "days" ->
        StronglySorted (fun a b => days_on_list b <= days_on_list a) results
        /\ forall x : Z,
             filter (fun t => days_on_list t =? x) results
             = filter (fun t => days_on_list t =? x) unsorted)
    /\ (py "burst" <> py "burst" -> py "burst" <> py "days" ->
        StronglySorted
          (fun a b => total_appearances b <= total_appearances a) results
        /\ forall x : Z,
             filter (fun t => total_appearances t =? x) results
             = filter (fun t => total_appearances t =? x) unsorted).
Proof.
  exact (aggregate_yearly_stats_order nothing_blacklisted PyLib.strptime_ymd
           three_titles false (py "burst") three_titles_parse).
Defined.


(* ------------------------------------------------------------------ *)
(** ** What a record counts                                            *)
(* ------------------------------------------------------------------ *)

(** The item has the title [kw]; it has the date [d]. *)
Definition titled (kw : pystr) (item : HotSearchItem) : bool :=
  pystr_eqb kw (title item).

Definition dated (d : pystr) (item : HotSearchItem) : bool :=
  pystr_eqb d (date item).

(** The number of the items that pass [f]. *)
Definition count_of {A} (f : A -> bool) (l : list A) : Z :=
  Z.of_nat (List.length (filter f l)).

(** The entry [st] of the title [kw], once the items [seen] are counted;
    [mine] are those of [seen] with the title. *)
Definition entry_counts (seen : list HotSearchItem) (kw : pystr) (st : stats)
  : Prop :=
  let mine := filter (titled kw) seen in
  st_total_appearances st = Z.of_nat (List.length mine)
  /\ NoDup (st_dates st)
  /\ (forall d, In d (st_dates st) <-> In d (map date mine))
  /\ In (st_first_seen st) (map date mine)
  /\ In (st_last_seen st) (map date mine)
  /\ Forall (fun d => pystr_ltb d (st_first_seen st) = false
                      /\ pystr_ltb (st_last_seen st) d = false)
       (map date mine)
  /\ NoDup (dict_keys (st_date_counts st))
  /\ forall d,
       dict_get (st_date_counts st) d
       = if existsb (dated d) mine then Some (count_of (dated d) mine)
         else None.

Definition stats_count (seen : list HotSearchItem) (keyword_stats : dict stats)
  : Prop :=
  forall kw,
    match dict_get keyword_stats kw with
    | Some st => entry_counts seen kw st
    | None => filter (titled kw) seen = []
    end.

Lemma set_add_In l d x : In x (set_add l d) <-> In x l \/ x = d.
Proof.
  unfold set_add. destruct (list_mem d l) eqn:E.
  - unfold list_mem in E. apply existsb_exists in E.
    destruct E as [y [Hy E]]. apply PyFacts.pystr_eqb_eq in E. subst y.
    split; [ now left | intros [H | ->]; trivial ].
  - rewrite in_app_iff. simpl. intuition.
Qed.

Lemma set_add_NoDup l d : NoDup l -> NoDup (set_add l d).
Proof.
  intros Hnd. unfold set_add. destruct (list_mem d l) eqn:E; [ exact Hnd | ].
  apply NoDup_app; [ exact Hnd | repeat constructor; intros [] | ].
  intros x Hx [Hd | []]. subst x.
  assert (Ht : list_mem d l = true).
  { unfold list_mem. apply existsb_exists. exists d.
    split; [ exact Hx | apply PyFacts.pystr_eqb_refl ]. }
  congruence.
Qed.

Lemma count_of_snoc {A} (f : A -> bool) (l : list A) (x : A) :
  count_of f (l ++ [x]) = count_of f l + (if f x then 1 else 0).
Proof.
  unfold count_of. rewrite filter_app. simpl.
  destruct (f x); rewrite ?app_nil_r, ?length_app; simpl; lia.
Qed.


Lemma count_of_zero {A} (f : A -> bool) (l : list A) :
  existsb f l = false -> count_of f l = 0.
Proof.
  unfold count_of. induction l as [ | x l IH]; simpl; [ reflexivity | ].
  destruct (f x); simpl; [ discriminate | exact IH ].
Qed.

(** The first count of a title. *)
Lemma entry_counts_new seen item :
  filter (titled (title item)) seen = [] ->
  entry_counts (seen ++ [item]) (title item)
    (update_stats (date item) (new_stats (date item))).
Proof.
  intros Hnone.
  assert (Ht : titled (title item) item = true)
    by apply PyFacts.pystr_eqb_refl.
  unfold entry_counts. rewrite filter_app, Hnone. simpl. rewrite Ht. simpl.
  rewrite !PyFacts.pystr_ltb_irrefl.
  split; [ reflexivity | ].
  split; [ unfold set_add; simpl; repeat constructor; intros [] | ].
  split; [ intros d; unfold set_add; simpl; tauto | ].
  split; [ now left | ]. split; [ now left | ].
  split; [ repeat constructor; apply PyFacts.pystr_ltb_irrefl | ].
  split; [ repeat constructor; intros [] | ].
  intros d. unfold counter_incr, dated, count_of. simpl.
  destruct (pystr_eqb d (date item)); reflexivity.
Qed.

(** One more count of a title. *)
Lemma entry_counts_update seen item st :
  entry_counts seen (title item) st ->
  entry_counts (seen ++ [item]) (title item) (update_stats (date item) st).
Proof.
  assert (Ht : titled (title item) item = true)
    by apply PyFacts.pystr_eqb_refl.
  unfold entry_counts. rewrite filter_app. simpl. rewrite Ht.
  set (mine := filter (titled (title item)) seen).
  intros [Htotal [Hnd [Hdates [Hfirst [Hlast [Hall [Hkeys Hcounts]]]]]]].
  rewrite map_app, length_app. simpl.
  split; [ rewrite Htotal; lia | ].
  split; [ now apply set_add_NoDup | ].
  split.
  { intros d. rewrite set_add_In, in_app_iff, Hdates. simpl.
    split; [ intros [H | ->]; [ now left | right; now left ] | ].
    intros [H | [<- | []]]; [ now left | now right ]. }
  split.
  { apply in_app_iff.
    destruct (pystr_ltb (date item) (st_first_seen st));
      [ right; now left | now left ]. }
  split.
  { apply in_app_iff.
    destruct (pystr_ltb (st_last_seen st) (date item));
      [ right; now left | now left ]. }
  split.
  { apply Forall_app. split.
    - eapply Forall_impl; [ | exact Hall ]. intros d [Hf Hl]. split.
      + destruct (pystr_ltb (date item) (st_first_seen st)) eqn:E;
          [ | exact Hf ].
        apply PyFacts.pystr_ltb_asym in E.
        exact (PyFacts.pystr_ltb_negtrans _ _ _ Hf E).
      + destruct (pystr_ltb (st_last_seen st) (date item)) eqn:E;
          [ | exact Hl ].
        apply PyFacts.pystr_ltb_asym in E.
        exact (PyFacts.pystr_ltb_negtrans _ _ _ E Hl).
    - repeat constructor.
      + destruct (pystr_ltb (date item) (st_first_seen st)) eqn:E;
          [ apply PyFacts.pystr_ltb_irrefl | exact E ].
      + destruct (pystr_ltb (st_last_seen st) (date item)) eqn:E;
          [ apply PyFacts.pystr_ltb_irrefl | exact E ]. }
  split; [ now apply PyFacts.dict_set_keys_NoDup | ].
  intros d. unfold counter_incr. rewrite PyFacts.dict_get_set.
  rewrite existsb_app, count_of_snoc. simpl. rewrite orb_false_r.
  fold (dated d item). destruct (dated d item) eqn:E.
  - rewrite orb_true_r. apply PyFacts.pystr_eqb_eq in E. subst d.
    rewrite (Hcounts (date item)).
    destruct (existsb (dated (date item)) mine) eqn:Ex; [ reflexivity | ].
    now rewrite (count_of_zero _ _ Ex).
  - rewrite orb_false_r, Z.add_0_r. apply Hcounts.
Qed.

(** The count of another title. *)
Lemma entry_counts_other seen item kw st :
  kw <> title item ->
  entry_counts seen kw st -> entry_counts (seen ++ [item]) kw st.
Proof.
  intros Hne.
  assert (Ht : titled kw item = false) by now apply PyFacts.pystr_eqb_neq.
  unfold entry_counts. rewrite filter_app. simpl. rewrite Ht.
  now rewrite app_nil_r.
Qed.

Section CorpusFacts.

Variable is_blacklisted : pystr -> bool.
Variable strptime_ymd : pystr -> option datetime.

(** The item is counted. *)
Definition kept (filter_blacklist : bool) (item : HotSearchItem) : bool :=
  negb (filter_blacklist && is_blacklisted (title item)).

Lemma add_item_counts filter_blacklist seen keyword_stats item :
  stats_count (filter (kept filter_blacklist) seen) keyword_stats ->
  stats_count (filter (kept filter_blacklist) (seen ++ [item]))
    (add_item is_blacklisted filter_blacklist keyword_stats item).
Proof.
  intros Hok. rewrite add_item_unfold, filter_app. simpl. unfold kept at 2.
  destruct (filter_blacklist && is_blacklisted (title item)); simpl;
    [ now rewrite app_nil_r | ].
  set (counted := filter (kept filter_blacklist) seen) in *.
  intros kw. rewrite PyFacts.dict_get_set.
  destruct (pystr_eqb kw (title item)) eqn:E.
  - apply PyFacts.pystr_eqb_eq in E. subst kw.
    specialize (Hok (title item)).
    destruct (dict_get keyword_stats (title item)) as [st | ].
    + now apply entry_counts_update.
    + now apply entry_counts_new.
  - specialize (Hok kw). apply PyFacts.pystr_eqb_neq in E as Hne.
    destruct (dict_get keyword_stats kw) as [st | ].
    + now apply entry_counts_other.
    + rewrite filter_app, Hok. simpl. unfold titled. now rewrite E.
Qed.

Lemma fold_add_item_counts filter_blacklist items :
  stats_count (filter (kept filter_blacklist) items)
    (fold_left (add_item is_blacklisted filter_blacklist) items []).
Proof.
  assert (H : forall seen ks,
            stats_count (filter (kept filter_blacklist) seen) ks ->
            stats_count (filter (kept filter_blacklist) (seen ++ items))
              (fold_left (add_item is_blacklisted filter_blacklist) items ks)).
  { induction items as [ | item items IH]; intros seen ks Hok; simpl.
    - now rewrite app_nil_r.
    - replace (seen ++ item :: items) with ((seen ++ [item]) ++ items)
        by now rewrite <- app_assoc.
      apply IH. now apply add_item_counts. }
  apply (H [] []). intros kw. reflexivity.
Qed.

Lemma fold_add_item_keys_NoDup filter_blacklist items : forall keyword_stats,
  NoDup (dict_keys keyword_stats) ->
  NoDup (dict_keys
           (fold_left (add_item is_blacklisted filter_blacklist) items
              keyword_stats)).
Proof.
  induction items as [ | item items IH]; intros ks Hks; simpl; [ exact Hks | ].
  apply IH. rewrite add_item_unfold.
  destruct (filter_blacklist && is_blacklisted (title item)); [ exact Hks | ].
  now apply PyFacts.dict_set_keys_NoDup.
Qed.






End CorpusFacts.


Section CorpusErrors.

Variable is_blacklisted : pystr -> bool.
Variable strptime_ymd : pystr -> option datetime.

Lemma yearly_items_raises keyword_stats e :
  yearly_items strptime_ymd keyword_stats = Raise e ->
  exists kw st,
    In (kw, st) keyword_stats /\ yearly_item strptime_ymd kw st = Raise e.
Proof.
  induction keyword_stats as [ | [kw st] ks IH]; simpl; [ discriminate | ].
  destruct (yearly_item strptime_ymd kw st) as [r | e'] eqn:E; simpl.
  - destruct (yearly_items strptime_ymd ks) as [rs | e'] eqn:Ers; simpl;
      [ discriminate | ].
    intros [= <-]. destruct (IH eq_refl) as [kw' [st' [Hin Hr]]].
    exists kw', st'. split; [ now right | exact Hr ].
  - intros [= <-]. exists kw, st. split; [ now left | exact E ].
Qed.

(** X22.  The aggregation fails in one way only: with the [ValueError] of a
    date that [strptime] does not parse, the date of an item that is
    counted.  The record of a title always has a peak date to show. *)
Theorem aggregate_yearly_stats_errors items filter_blacklist sort_by e :
  aggregate_yearly_stats is_blacklisted strptime_ymd items filter_blacklist
    sort_by
  = Raise e ->
  e = ValueError
  /\ exists item,
       In item items
       /\ filter_blacklist && is_blacklisted (title item) = false
       /\ strptime_ymd (date item) = None.
Proof.
  unfold aggregate_yearly_stats, unsorted_stats.
  destruct (yearly_items strptime_ymd _) as [unsorted | e'] eqn:E; simpl;
    [ discriminate | ].
  intros [= <-]. apply yearly_items_raises in E.
  destruct E as [kw [st [Hin Hr]]].
  apply PyFacts.dict_In_get in Hin;
    [ | apply fold_add_item_keys_NoDup; constructor ].
  pose proof (fold_add_item_counts is_blacklisted filter_blacklist items kw)
    as Hc.
  rewrite Hin in Hc.
  destruct Hc as [_ [_ [_ [Hfirst [Hlast [_ [_ Hcounts]]]]]]].
  assert (Hitem : forall d,
            In d (map date
                    (filter (titled kw)
                       (filter (kept is_blacklisted filter_blacklist) items))) ->
            strptime_ymd d = None ->
            exists item,
              In item items
              /\ filter_blacklist && is_blacklisted (title item) = false
              /\ strptime_ymd (date item) = None).
  { intros d Hd Hnone. apply in_map_iff in Hd. destruct Hd as [it [<- Hit]].
    apply filter_In in Hit. destruct Hit as [Hit _].
    apply filter_In in Hit. destruct Hit as [Hit Hk].
    exists it. repeat split; trivial.
    unfold kept in Hk. now apply negb_true_iff in Hk. }
  unfold yearly_item in Hr.
  destruct (most_common_1 (st_date_counts st)) as [peak | ] eqn:Hpeak.
  - simpl in Hr.
    destruct (strptime_ymd (st_first_seen st)) eqn:E1; simpl in Hr.
    + destruct (strptime_ymd (st_last_seen st)) eqn:E2; simpl in Hr;
        [ discriminate | ].
      injection Hr as <-. split; [ reflexivity | ].
      now apply (Hitem (st_last_seen st)).
    + injection Hr as <-. split; [ reflexivity | ].
      now apply (Hitem (st_first_seen st)).
  - exfalso.
    destruct (most_common_1_some (st_date_counts st)) as [peak Hsome];
      [ | congruence ].
    intros Hnil. pose proof (Hcounts (st_first_seen st)) as Hget.
    rewrite Hnil in Hget. simpl in Hget.
    assert (Hex : existsb (dated (st_first_seen st))
                    (filter (titled kw)
                       (filter (kept is_blacklisted filter_blacklist) items))
                  = true).
    { apply existsb_exists. apply in_map_iff in Hfirst.
      destruct Hfirst as [it [Hd Hit]]. exists it.
      split; [ exact Hit | ]. unfold dated. rewrite Hd.
      apply PyFacts.pystr_eqb_refl. }
    rewrite Hex in Hget. discriminate.
Qed.

End CorpusErrors.

(** ** Instances *)

(** A title listed on a day of a thirteenth month. *)
Definition bad_month : list HotSearchItem := [ hot "a" "2024-13-01" ].


Lemma aggregate_yearly_stats_errors_bad_month :
  aggregate_yearly_stats nothing_blacklisted PyLib.strptime_ymd bad_month
    true (py "burst")
  = Raise ValueError
  /\ ValueError = ValueError
  /\ exists item,
       In item bad_month
       /\ true && nothing_blacklisted (title item) = false
       /\ PyLib.strptime_ymd (date item) = None.
Proof.
  assert (H : aggregate_yearly_stats nothing_blacklisted PyLib.strptime_ymd
                bad_month true (py "burst")
              = Raise ValueError) by (vm_compute; reflexivity).
  split; [ exact H | ].
  exact (aggregate_yearly_stats_errors nothing_blacklisted PyLib.strptime_ymd
           bad_month true (py "burst") ValueError H).
Defined.


(* ------------------------------------------------------------------ *)
(** ** [fetch_day_data] and its cache                                  *)
(* ------------------------------------------------------------------ *)

(** An object of the payload of a day, as far as [fetch_day_data] reads
    it: [item["title"]] and [item["url"]], [None] where the key is
    missing.  The payloads modelled are lists of objects. *)
Record payload_item : Type := mk_payload_item {
  p_title : option pystr;
  p_url : option pystr
}.

(** The response of [client.get(url)]: its status code, how
    [raise_for_status()] ends and how [json()] ends. *)
Record response : Type := mk_response {
  status_code : Z;
  raise_for_status : result unit;
  json : result (list payload_item)
}.

(** [client.get] for the URL of a date, as it ends in the call at hand. *)
Definition http := pystr -> result response.

(** The list comprehension over the payload; a missing key is a
    [KeyError]. *)
Fixpoint to_items (d : pystr) (data : list payload_item)
  : result (list HotSearchItem) :=
  match data with
  | [] => Ok []
  | item :: rest =>
      t <- of_option KeyError (p_title item) ;;
      u <- of_option KeyError (p_url item) ;;
      items <- to_items d rest ;;
      Ok (mk_HotSearchItem t u d :: items)
  end.

(** [fetch_day_data(date)] on the cache [cache]; it returns the cache it
    leaves.  The cache is read outside the [try] block, the request and
    the conversion of its payload are made inside. *)
Definition fetch_day_data (get : http) (cache : dict (list payload_item))
    (d : pystr) : dict (list payload_item) * result (list HotSearchItem) :=
  match dict_get cache d with
  | Some data => (cache, to_items d data)
  | None =>
      match get d with
      | Raise _ => (cache, Ok [])
      | Ok resp =>
          if status_code resp =? 404 then (cache, Ok [])
          else
            match raise_for_status resp with
            | Raise _ => (cache, Ok [])
            | Ok _ =>
                match json resp with
                | Raise _ => (cache, Ok [])
                | Ok data =>
                    let cache := dict_set cache d data in
                    match to_items d data with
                    | Raise _ => (cache, Ok [])
                    | Ok items => (cache, Ok items)
                    end
                end
            end
      end
  end.

(** The request for the day was answered with the payload [data]. *)
Definition answered (get : http) (d : pystr) (data : list payload_item)
  : Prop :=
  exists resp,
    get d = Ok resp /\ (status_code resp =? 404) = false
    /\ raise_for_status resp = Ok tt /\ json resp = Ok data.

Lemma fetch_day_data_answered get cache d data :
  dict_get cache d = None -> answered get d data ->
  fetch_day_data get cache d
  = (dict_set cache d data,
     match to_items d data with
     | Ok items => Ok items
     | Raise _ => Ok []
     end).
Proof.
  intros Hmiss [resp [Hget [Hstatus [Hraise Hjson]]]].
  unfold fetch_day_data. rewrite Hmiss, Hget, Hstatus, Hraise, Hjson.
  now destruct (to_items d data).
Qed.

(** X23.  A day that is not in the cache costs no exception: whatever the
    request does, the call returns a list.  Unless the request was
    answered with a payload the list is empty and the cache is left as it
    was, so the day is asked for again next time. *)
Theorem fetch_day_data_never_raises_on_a_miss get cache d :
  dict_get cache d = None ->
  exists items,
    snd (fetch_day_data get cache d) = Ok items
    /\ ((fst (fetch_day_data get cache d) = cache /\ items = [])
        \/ exists data,
             answered get d data
             /\ fst (fetch_day_data get cache d) = dict_set cache d data).
Proof.
  intros Hmiss. unfold fetch_day_data. rewrite Hmiss.
  destruct (get d) as [resp | e] eqn:Hget;
    [ | exists []; split; [ reflexivity | now left ] ].
  destruct (status_code resp =? 404) eqn:Hstatus;
    [ exists []; split; [ reflexivity | now left ] | ].
  destruct (raise_for_status resp) as [[] | e] eqn:Hraise;
    [ | exists []; split; [ reflexivity | now left ] ].
  destruct (json resp) as [data | e] eqn:Hjson;
    [ | exists []; split; [ reflexivity | now left ] ].
  assert (Hans : answered get d data) by (exists resp; auto).
  destruct (to_items d data) as [items | e];
    [ exists items | exists [] ]; (split; [ reflexivity | right ]);
    exists data; split; trivial.
Qed.

(** X24.  A day that was answered with a well-formed payload is served from
    the cache afterwards: the next call for the day returns the same
    items without a request, whatever the request would do, and leaves
    the cache as it is. *)
Theorem fetch_day_data_round_trip get get' cache d data items :
  dict_get cache d = None -> answered get d data ->
  to_items d data = Ok items ->
  exists cache1,
    fetch_day_data get cache d = (cache1, Ok items)
    /\ fetch_day_data get' cache1 d = (cache1, Ok items)
    /\ Forall (fun item => date item = d) items
    /\ List.length items = List.length data.
Proof.
  intros Hmiss Hans Hitems.
  rewrite (fetch_day_data_answered _ _ _ _ Hmiss Hans), Hitems.
  eexists. split; [ reflexivity | ].
  split.
  { unfold fetch_day_data. now rewrite PyFacts.dict_get_set_same, Hitems. }
  clear - Hitems. revert items Hitems.
  induction data as [ | p data IH]; simpl; intros items.
  - intros [= <-]. split; [ constructor | reflexivity ].
  - destruct (p_title p); simpl; [ | discriminate ].
    destruct (p_url p); simpl; [ | discriminate ].
    destruct (to_items d data) as [rest | ]; simpl; [ | discriminate ].
    intros [= <-]. destruct (IH rest eq_refl) as [Hall Hlen].
    split; [ now constructor | simpl; now rewrite Hlen ].
Qed.

(** X25.  A payload with an object that lacks a key is put in the cache before
    it is converted.  The call that fetched it returns the empty list,
    and every later call for the day raises the [KeyError]: the cache is
    read outside the [try] block. *)
Theorem malformed_payload_is_cached get get' cache d data e :
  dict_get cache d = None -> answered get d data ->
  to_items d data = Raise e ->
  exists cache1,
    fetch_day_data get cache d = (cache1, Ok [])
    /\ dict_get cache1 d = Some data
    /\ fetch_day_data get' cache1 d = (cache1, Raise e)
    /\ e = KeyError.
Proof.
  intros Hmiss Hans Hitems.
  rewrite (fetch_day_data_answered _ _ _ _ Hmiss Hans), Hitems.
  eexists. split; [ reflexivity | ].
  split; [ apply PyFacts.dict_get_set_same | ].
  split.
  { unfold fetch_day_data. now rewrite PyFacts.dict_get_set_same, Hitems. }
  clear - Hitems. induction data as [ | p data IH]; simpl in Hitems;
    [ discriminate | ].
  destruct (p_title p); simpl in Hitems; [ | congruence ].
  destruct (p_url p); simpl in Hitems; [ | congruence ].
  destruct (to_items d data) as [rest | e']; simpl in Hitems;
    [ discriminate | ].
  injection Hitems as <-. now apply IH.
Qed.

(** ** Instances *)

Definition day_payload : list payload_item :=
  [ mk_payload_item (Some (py "a")) (Some (py "https://s.weibo.com/a")) ].

(** An object without [url]. *)
Definition bad_payload : list payload_item :=
  [ mk_payload_item (Some (py "a")) None ].

Definition serves (data : list payload_item) : http :=
  fun _ => Ok (mk_response 200 (Ok tt) (Ok data)).

Definition unreachable : http := fun _ => Raise TimeoutError.

Lemma serves_answered data d : answered (serves data) d data.
Proof.
  exists (mk_response 200 (Ok tt) (Ok data)). repeat split.
Qed.

Lemma fetch_day_data_never_raises_on_a_miss_unreachable :
  dict_get (@nil (pystr * list payload_item)) (py "2024-05-01") = None
  /\ exists items,
       snd (fetch_day_data unreachable [] (py "2024-05-01")) = Ok items
       /\ ((fst (fetch_day_data unreachable [] (py "2024-05-01")) = []
            /\ items = [])
           \/ exists data,
                answered unreachable (py "2024-05-01") data
                /\ fst (fetch_day_data unreachable [] (py "2024-05-01"))
                   = dict_set [] (py "2024-05-01") data).
Proof.
  split; [ reflexivity | ].
  exact (fetch_day_data_never_raises_on_a_miss unreachable []
           (py "2024-05-01") eq_refl).
Defined.

Lemma fetch_day_data_round_trip_one_day :
  exists items cache1,
    to_items (py "2024-05-01") day_payload = Ok items
    /\ fetch_day_data (serves day_payload) [] (py "2024-05-01")
       = (cache1, Ok items)
    /\ fetch_day_data unreachable cache1 (py "2024-05-01")
       = (cache1, Ok items)
    /\ Forall (fun item => date item = py "2024-05-01") items
    /\ List.length items = List.length day_payload.
Proof.
  eexists.
  assert (H : to_items (py "2024-05-01") day_payload = Ok _) by reflexivity.
  destruct (fetch_day_data_round_trip (serves day_payload) unreachable []
              (py "2024-05-01") day_payload _ eq_refl
              (serves_answered day_payload (py "2024-05-01")) H)
    as [cache1 Hc].
  exists cache1. split; [ exact H | exact Hc ].
Defined.

Lemma malformed_payload_is_cached_no_url :
  to_items (py "2024-05-01") bad_payload = Raise KeyError
  /\ exists cache1,
       fetch_day_data (serves bad_payload) [] (py "2024-05-01")
       = (cache1, Ok [])
       /\ dict_get cache1 (py "2024-05-01") = Some bad_payload
       /\ fetch_day_data unreachable cache1 (py "2024-05-01")
          = (cache1, Raise KeyError)
       /\ KeyError = KeyError.
Proof.
  split; [ reflexivity | ].
  exact (malformed_payload_is_cached (serves bad_payload) unreachable []
           (py "2024-05-01") bad_payload KeyError eq_refl
           (serves_answered bad_payload (py "2024-05-01")) eq_refl).
Defined.

End Archive.

(* ================================================================== *)
(** * routers/trends.py: the ranking of [get_trends]                   *)
(* ================================================================== *)

Module Ranking.
Import RealScore.
Local Open Scope Z_scope.

Section Route.

Context {T : Type}.
Variable fields : T -> trend_data.
Variable fromisoformat : pystr -> option datetime.
Variable re_match : string -> pystr -> bool.

(** [t.get("is_marketing", False)] of a processed trend. *)
Definition is_marketing (t : scored T) : bool :=
  get (td_is_marketing (fields (sc_trend t))) false.

(** [[t for t in filtered if t["platform_count"] >= min_platforms]]; a
    trend without the key is a [KeyError]. *)
Fixpoint with_platforms (min_platforms : Z) (filtered : list (scored T))
  : result (list (scored T)) :=
  match filtered with
  | [] => Ok []
  | t :: rest =>
      n <- of_option KeyError (td_platform_count (fields (sc_trend t))) ;;
      kept <- with_platforms min_platforms rest ;;
      Ok (if min_platforms <=? n then t :: kept else kept)
  end.

(** [get_trends] up to the conversion into response models: the list
    [filtered] it converts. *)
Definition ranked_trends (raw_trends : list T) (limit : Z)
    (include_marketing : bool) (min_platforms : Z)
  : result (list (scored T)) :=
  processed <- process_all_trends fields fromisoformat re_match raw_trends ;;
  let filtered :=
    if include_marketing then processed
    else filter (fun t => negb (is_marketing t)) processed in
  filtered <-
    (if 1 <? min_platforms then with_platforms min_platforms filtered
     else Ok filtered) ;;
  Ok (FetcherManager.slice_to filtered limit).

(** The trend passes the filters of the request. *)
Definition qualifies (include_marketing : bool) (min_platforms : Z)
    (t : scored T) : bool :=
  (include_marketing || negb (is_marketing t))
  && ((min_platforms <=? 1)
      || match td_platform_count (fields (sc_trend t)) with
         | Some n => min_platforms <=? n
         | None => false
         end).

Lemma with_platforms_filter min_platforms filtered :
  Forall (fun t => td_platform_count (fields (sc_trend t)) <> None) filtered ->
  with_platforms min_platforms filtered
  = Ok (filter
          (fun t => match td_platform_count (fields (sc_trend t)) with
                    | Some n => min_platforms <=? n
                    | None => false
                    end) filtered).
Proof.
  induction 1 as [ | t rest Ht Hrest IH]; simpl; [ reflexivity | ].
  destruct (td_platform_count (fields (sc_trend t))) as [n | ];
    [ | congruence ].
  simpl. rewrite IH. simpl. now destruct (min_platforms <=? n).
Qed.

Lemma filter_filter {A} (f g : A -> bool) (l : list A) :
  filter g (filter f l) = filter (fun x => f x && g x) l.
Proof.
  induction l as [ | x l IH]; simpl; [ reflexivity | ].
  destruct (f x); simpl; [ | exact IH ].
  destruct (g x); now rewrite IH.
Qed.

Lemma sorted_filter {A} (R : A -> A -> Prop) (f : A -> bool) (l : list A) :
  StronglySorted R l -> StronglySorted R (filter f l).
Proof.
  induction 1 as [ | x l Hs IH Hx]; simpl; [ constructor | ].
  destruct (f x); [ | exact IH ].
  constructor; [ exact IH | ].
  apply Forall_forall. intros y Hy. apply filter_In in Hy.
  rewrite Forall_forall in Hx. now apply Hx.
Qed.

Lemma sorted_app {A} (R : A -> A -> Prop) (a b : list A) :
  StronglySorted R (a ++ b) ->
  StronglySorted R a /\ Forall (fun x => Forall (R x) b) a.
Proof.
  induction a as [ | x a IH]; simpl; intros H.
  - split; constructor.
  - inversion H as [ | ? ? Hs Hx]; subst.
    destruct (IH Hs) as [Ha Hb]. apply Forall_app in Hx.
    destruct Hx as [Hxa Hxb].
    split; constructor; trivial.
Qed.

(** X26.  The request gets the best of the trends that pass its filters: the
    trends returned are the first [limit] of the qualifying trends in
    descending order of the score, so no qualifying trend that is left out
    scores more than one that is returned, and none is left out while
    fewer than [limit] are returned. *)
Theorem ranked_trends_are_the_best
    (raw_trends : list T) (limit : Z) (include_marketing : bool)
    (min_platforms : Z) :
  1 <= limit ->
  (1 < min_platforms ->
   Forall (fun t => td_platform_count (fields t) <> None) raw_trends) ->
  exists processed selected rest,
    process_all_trends fields fromisoformat re_match raw_trends = Ok processed
    /\ ranked_trends raw_trends limit include_marketing min_platforms
       = Ok selected
    /\ filter (qualifies include_marketing min_platforms) processed
       = selected ++ rest
    /\ Z.of_nat (List.length selected) <= limit
    /\ (rest <> [] -> Z.of_nat (List.length selected) = limit)
    /\ StronglySorted (fun a b => (real_score b <= real_score a)%R) selected
    /\ Forall
         (fun s => Forall (fun r => (real_score r <= real_score s)%R) rest)
         selected.
Proof.
  intros Hlimit Hcount.
  destruct (score_trends_value fields fromisoformat re_match raw_trends)
    as [unsorted [Hun [Hmap _]]].
  set (processed := sort_reverse Rltb real_score unsorted).
  assert (Hproc : process_all_trends fields fromisoformat re_match raw_trends
                  = Ok processed)
    by (unfold process_all_trends; now rewrite Hun).
  assert (Hsorted : StronglySorted
                      (fun a b => (real_score b <= real_score a)%R) processed)
    by apply PyFacts.sort_reverse_Rle.
  set (qualified := filter (qualifies include_marketing min_platforms)
                      processed).
  assert (Hfiltered :
    (let filtered :=
       if include_marketing then processed
       else filter (fun t => negb (is_marketing t)) processed in
     bind (if 1 <? min_platforms then with_platforms min_platforms filtered
           else Ok filtered)
       (fun filtered => Ok (FetcherManager.slice_to filtered limit)))
    = Ok (FetcherManager.slice_to qualified limit)).
  { cbv zeta. unfold qualified, qualifies.
    destruct (Z.ltb_spec 1 min_platforms) as [Hmin | Hmin].
    - assert (Hall : Forall
                (fun t => td_platform_count (fields (sc_trend t)) <> None)
                processed).
      { specialize (Hcount Hmin). rewrite <- Hmap in Hcount.
        rewrite Forall_map in Hcount.
        rewrite Forall_forall in *. intros t Ht. apply Hcount.
        eapply Permutation_in;
          [ apply (PyFacts.sort_reverse_perm Rltb real_score) | exact Ht ]. }
      assert (Hleb : (min_platforms <=? 1) = false) by (apply Z.leb_gt; lia).
      destruct include_marketing; simpl.
      + rewrite (with_platforms_filter _ _ Hall). simpl. do 2 f_equal.
        apply filter_ext. intros t. now rewrite Hleb.
      + rewrite with_platforms_filter.
        * simpl. do 2 f_equal. rewrite filter_filter.
          apply filter_ext. intros t. now rewrite Hleb.
        * rewrite Forall_forall in *. intros t Ht. apply Hall.
          now apply filter_In in Ht.
    - assert (Hleb : (min_platforms <=? 1) = true) by (apply Z.leb_le; lia).
      destruct include_marketing; simpl; do 2 f_equal.
      + symmetry. rewrite <- (filter_ext (fun _ => true)).
        * clear. induction processed as [ | x l IH]; simpl; congruence.
        * intros t. now rewrite Hleb.
      + apply filter_ext. intros t. now rewrite Hleb, andb_true_r. }
  exists processed, (firstn (Z.to_nat limit) qualified),
    (skipn (Z.to_nat limit) qualified).
  split; [ exact Hproc | ].
  split.
  { unfold ranked_trends. rewrite Hproc. simpl. cbv zeta in Hfiltered.
    rewrite Hfiltered. unfold FetcherManager.slice_to.
    destruct (Z.leb_spec 0 limit); [ reflexivity | lia ]. }
  split; [ symmetry; apply firstn_skipn | ].
  assert (Hqs : StronglySorted
                  (fun a b => (real_score b <= real_score a)%R) qualified)
    by now apply sorted_filter.
  rewrite <- (firstn_skipn (Z.to_nat limit) qualified) in Hqs.
  apply sorted_app in Hqs. destruct Hqs as [Hsel Hrest].
  split; [ pose proof (firstn_le_length (Z.to_nat limit) qualified); lia | ].
  split; [ | split; [ exact Hsel | exact Hrest ] ].
  intros Hne. rewrite length_firstn.
  destruct (Nat.le_gt_cases (Z.to_nat limit) (List.length qualified));
    [ lia | ].
  exfalso. apply Hne. apply skipn_all2. lia.
Qed.

End Route.

(** ** Instances *)

(** Three trends, given as their dictionaries. *)
Definition three_trends : list trend_data :=
  [ mk_trend_data (Some (py "a")) (Some 100%R) (Some 1) None None None;
    mk_trend_data (Some (py "b")) (Some 100%R) (Some 3) None None
      (Some true);
    mk_trend_data (Some (py "c")) (Some 100%R) (Some 2) None None None ].

Lemma three_trends_counted :
  1 < 2 ->
  Forall (fun t : trend_data => td_platform_count t <> None) three_trends.
Proof.
  intros _. repeat constructor; discriminate.
Qed.

Lemma ranked_trends_are_the_best_of_three :
  1 <= 1
  /\ exists processed selected rest,
       process_all_trends (fun t => t) PyLib.fromisoformat PyLib.re_match_none
         three_trends
       = Ok processed
       /\ ranked_trends (fun t => t) PyLib.fromisoformat PyLib.re_match_none
            three_trends 1 false 2
          = Ok selected
       /\ filter (qualifies (fun t => t) false 2) processed = selected ++ rest
       /\ Z.of_nat (List.length selected) <= 1
       /\ (rest <> [] -> Z.of_nat (List.length selected) = 1)
       /\ StronglySorted
            (fun a b => (real_score b <= real_score a)%R) selected
       /\ Forall
            (fun s =>
               Forall (fun r => (real_score r <= real_score s)%R) rest)
            selected.
Proof.
  assert (H : 1 <= 1) by lia.
  split; [ exact H | ].
  exact (ranked_trends_are_the_best (fun t => t) PyLib.fromisoformat
           PyLib.re_match_none three_trends 1 false 2 H three_trends_counted).
Defined.

End Ranking.
